(** * Star Chart AI proxy: chat-request normalisation and the completion strategy

    A shallow embedding of the two gateways of the repository,
    [worker.js] (the edge handler) and [server.js] (the long-running
    process), and the properties of their request sanitiser, instruction
    composer, completion strategy and HTTP boundary.

    Conventions of the embedding.
    - A JavaScript string is a [string]; one [ascii] stands for one code
      unit, so only code units below 256 are represented.
    - A value that comes out of [JSON.parse] is a [Json]; [option Json] adds
      [undefined] ([None]).
    - A number is kept as the text [Number::toString] gives for it; the
      gateways never compute with a number, they only test its truthiness
      and print it.
    - An [async] function that can throw and that talks to the provider is a
      computation in the monad [Net.M]: the provider's answers are a script
      consumed one [fetch] at a time, and every request sent is logged. *)

From Stdlib Require Import String Ascii List NArith ZArith QArith Lia Bool Arith.
Import ListNotations.
Close Scope Q_scope.
Local Open Scope string_scope.
Set Warnings "-register-all".

(* ------------------------------------------------------------------ *)
(** ** The JavaScript values and built-ins the gateways use *)

Module JS.

(** What an evaluation can throw. *)
Inductive Exn : Type :=
| TypeError (msg : string)
| SyntaxError
| Error (msg : string)
| NetworkError
| URIError.

Definition nl : string := String "010"%char "".
Definition dquote : string := String "034"%char "".
Definition backslash : string := String "092"%char "".

(** WhiteSpace and LineTerminator code units below 256:
    TAB, LF, VT, FF, CR, SP, NBSP. *)
Definition is_whitespace (c : ascii) : bool :=
  existsb (N.eqb (N_of_ascii c)) [9; 10; 11; 12; 13; 32; 160]%N.

Fixpoint trimStart (s : string) : string :=
  match s with
  | String c r => if is_whitespace c then trimStart r else s
  | EmptyString => EmptyString
  end.

Fixpoint trimEnd (s : string) : string :=
  match s with
  | String c r =>
      let r' := trimEnd r in
      if is_whitespace c && (r' =? "") then "" else String c r'
  | EmptyString => EmptyString
  end.

(** [s.trim()] *)
Definition trim (s : string) : string := trimEnd (trimStart s).

(** [s.slice(0, n)] *)
Fixpoint str_slice0 (n : nat) (s : string) : string :=
  match n, s with
  | S n', String c r => String c (str_slice0 n' r)
  | _, _ => EmptyString
  end.

(** [xs.slice(-n)] on an array *)
Definition arr_slice_last {A} (n : nat) (xs : list A) : list A :=
  skipn (length xs - n) xs.

(** [parts.join(sep)] on an array of strings *)
Definition join (sep : string) (parts : list string) : string :=
  String.concat sep parts.

(** A value as [JSON.parse] builds it. An object is the list of its own
    properties in enumeration order; a number is the text
    [Number::toString] prints for it ([0.82], [350], [Infinity]). *)
Inductive Json : Type :=
| JNull
| JBool (b : bool)
| JNum (repr : string)
| JStr (s : string)
| JArr (items : list Json)
| JObj (props : list (string * Json)).

(** A JavaScript value: [None] is [undefined]. *)
Definition Value : Type := option Json.

Definition num_truthy (repr : string) : bool :=
  negb ((repr =? "0") || (repr =? "NaN")).

Definition num_finite (repr : string) : bool :=
  negb ((repr =? "Infinity") || (repr =? "-Infinity") || (repr =? "NaN")).

(** ToBoolean *)
Definition truthy (v : Value) : bool :=
  match v with
  | None | Some JNull => false
  | Some (JBool b) => b
  | Some (JNum r) => num_truthy r
  | Some (JStr s) => negb (s =? "")
  | Some (JArr _) | Some (JObj _) => true
  end.

Definition typeof (v : Value) : string :=
  match v with
  | None => "undefined"
  | Some JNull | Some (JArr _) | Some (JObj _) => "object"
  | Some (JBool _) => "boolean"
  | Some (JNum _) => "number"
  | Some (JStr _) => "string"
  end.

Definition isArray (v : Value) : bool :=
  match v with Some (JArr _) => true | _ => false end.

Fixpoint lookup (k : string) (props : list (string * Json)) : Value :=
  match props with
  | [] => None
  | (k', v) :: rest => if k =? k' then Some v else lookup k rest
  end.

(** [o.k] for one of the keys the gateways read ([input], [history],
    [telemetry], [role], [content], [error], [message], [output_text],
    [output], [type], [text], [choices]) on a value that is neither
    [null] nor [undefined]: only a plain object can own such a
    property, no prototype defines one. *)
Definition prop (o : Json) (k : string) : Value :=
  match o with
  | JObj props => lookup k props
  | _ => None
  end.

(** [v?.k] *)
Definition optprop (v : Value) (k : string) : Value :=
  match v with
  | None | Some JNull => None
  | Some o => prop o k
  end.

(** [v?.[0]]: the first element of an array, the first code unit of a
    string, the property ["0"] of an object. *)
Definition optindex0 (v : Value) : Value :=
  match v with
  | Some (JArr (x :: _)) => Some x
  | Some (JStr (String c _)) => Some (JStr (String c ""))
  | Some (JObj props) => lookup "0" props
  | _ => None
  end.

(** [a || b] *)
Definition or_else (a b : Value) : Value := if truthy a then a else b.

(** [a === "lit"] *)
Definition strict_eq_str (a : Value) (lit : string) : bool :=
  match a with Some (JStr s) => s =? lit | _ => false end.

Definition has_own (k : string) (props : list (string * Json)) : bool :=
  match lookup k props with Some _ => true | None => false end.

(** ToString on a parsed value. A plain object prints as
    [[object Object]], unless it owns a [toString] property: a parsed
    property is never callable, [Object.prototype.valueOf] then gives
    back the object, and the conversion throws. An array joins its
    elements with commas, [null] printing as nothing. *)
Fixpoint toString (v : Json) : Exn + string :=
  match v with
  | JNull => inr "null"
  | JBool true => inr "true"
  | JBool false => inr "false"
  | JNum r => inr r
  | JStr s => inr s
  | JArr items =>
      let elems :=
        (fix elems (xs : list Json) : Exn + list string :=
           match xs with
           | [] => inr []
           | x :: rest =>
               match (match x with JNull => inr "" | _ => toString x end) with
               | inl e => inl e
               | inr s =>
                   match elems rest with
                   | inl e => inl e
                   | inr ss => inr (s :: ss)
                   end
               end
           end) items in
      match elems with
      | inl e => inl e
      | inr ss => inr (join "," ss)
      end
  | JObj props =>
      if has_own "toString" props
      then inl (TypeError "Cannot convert object to primitive value")
      else inr "[object Object]"
  end.

Definition hex_digit (n : N) : string :=
  match n with
  | 0 => "0" | 1 => "1" | 2 => "2" | 3 => "3" | 4 => "4" | 5 => "5"
  | 6 => "6" | 7 => "7" | 8 => "8" | 9 => "9" | 10 => "a" | 11 => "b"
  | 12 => "c" | 13 => "d" | 14 => "e" | _ => "f"
  end%N.

(** One code unit inside QuoteJSONString. *)
Definition quote_char (c : ascii) : string :=
  let n := N_of_ascii c in
  match n with
  | 8 => backslash ++ "b"
  | 9 => backslash ++ "t"
  | 10 => backslash ++ "n"
  | 12 => backslash ++ "f"
  | 13 => backslash ++ "r"
  | 34 => backslash ++ dquote
  | 92 => backslash ++ backslash
  | _ =>
      if (n <? 32)%N
      then backslash ++ "u00" ++ hex_digit (n / 16) ++ hex_digit (n mod 16)
      else String c ""
  end%N.

Fixpoint quote_body (s : string) : string :=
  match s with
  | String c r => quote_char c ++ quote_body r
  | EmptyString => EmptyString
  end.

Definition quote (s : string) : string := dquote ++ quote_body s ++ dquote.

(** [JSON.stringify(v, null, gap)] on a parsed value, [indent] being the
    indentation reached so far. Nothing parsed is [undefined], a function
    or an object with a callable [toJSON], so every element and every
    property is printed; a number that is not finite prints as [null]. *)
Fixpoint serialize (gap indent : string) (v : Json) : string :=
  match v with
  | JNull => "null"
  | JBool true => "true"
  | JBool false => "false"
  | JNum r => if num_finite r then r else "null"
  | JStr s => quote s
  | JArr items =>
      let stepback := indent in
      let indent := indent ++ gap in
      let partial := map (serialize gap indent) items in
      match partial with
      | [] => "[]"
      | _ =>
          if gap =? ""
          then "[" ++ join "," partial ++ "]"
          else "[" ++ nl ++ indent ++ join ("," ++ nl ++ indent) partial
                   ++ nl ++ stepback ++ "]"
      end
  | JObj props =>
      let stepback := indent in
      let indent := indent ++ gap in
      let partial :=
        map (fun kv =>
               quote (fst kv) ++ ":" ++ (if gap =? "" then "" else " ")
                     ++ serialize gap indent (snd kv)) props in
      match partial with
      | [] => "{}"
      | _ =>
          if gap =? ""
          then "{" ++ join "," partial ++ "}"
          else "{" ++ nl ++ indent ++ join ("," ++ nl ++ indent) partial
                   ++ nl ++ stepback ++ "}"
      end
  end.

(** [JSON.stringify(v)] *)
Definition stringify (v : Json) : string := serialize "" "" v.

(** [JSON.stringify(v, null, 2)] *)
Definition stringify_indent2 (v : Json) : string := serialize "  " "" v.

End JS.

Import JS.

(* ------------------------------------------------------------------ *)
(** ** What travels between the gateway and the provider *)

Module Wire.

(** A turn of the conversation, the object literal [{ role, content }]. *)
Record Turn : Type := { role : string; content : string }.

(** The object literal handed to [JSON.stringify] for the primary
    (Responses) protocol. *)
Record ResponsesBody : Type :=
  { r_model : string;
    r_instructions : string;
    r_input : string;
    r_temperature : Q;
    r_max_output_tokens : Z }.

(** The object literal handed to [JSON.stringify] for the secondary
    (Chat Completions) protocol. *)
Record ChatBody : Type :=
  { c_model : string;
    c_messages : list Turn;
    c_temperature : Q;
    c_max_tokens : Z }.

Inductive Body : Type :=
| ResponsesPayload (b : ResponsesBody)
| ChatPayload (b : ChatBody).

(** A [POST] to the provider. *)
Record Request : Type :=
  { url : string; authorization : string; body : Body }.

(** What the provider answers: the HTTP status and what
    [response.json()] gives, [None] when that promise rejects. *)
Record Response : Type := { resp_status : Z; resp_json : option Json }.

(** [response.ok] *)
Definition resp_ok (r : Response) : bool :=
  (200 <=? resp_status r)%Z && (resp_status r <=? 299)%Z.

(** The CompletionResult, the object literal [{ ok, status, text, error,
    model }] with the fields a path leaves out as [None]. The error is
    whatever value the code puts there: a string most of the time, but
    [data.error.message] is passed on as it is. *)
Record Result : Type :=
  { ok : bool;
    status : Z;
    text : option string;
    error : Value;
    model : option string }.

(** The configuration the strategy reads: the credential
    ([OPENAI_API_KEY]) and the model variable ([OPENAI_MODEL] at the
    edge, [CCD_AI_OPENAI_MODEL] in the long-running process). *)
Record Env : Type :=
  { OPENAI_API_KEY : option string; MODEL_VAR : option string }.

(** [v || fallback] on an environment variable *)
Definition env_or (v : option string) (fallback : string) : string :=
  match v with
  | Some s => if s =? "" then fallback else s
  | None => fallback
  end.

(** [!v] on an environment variable *)
Definition env_missing (v : option string) : bool :=
  match v with
  | Some s => s =? ""
  | None => true
  end.

End Wire.

Import Wire.

(* ------------------------------------------------------------------ *)
(** ** The network as an effect *)

Module Net.

(** One [fetch] either resolves with a response or rejects. *)
Inductive Outcome : Type :=
| Respond (r : Response)
| Reject.

(** The provider seen from one request: the outcomes of the fetches to
    come, in order, and the requests sent so far. A script that has run
    out stands for a transport that fails. *)
Record World : Type := { script : list Outcome; sent : list Request }.

Definition M (A : Type) : Type := World -> (Exn + A) * World.

Definition ret {A} (a : A) : M A := fun w => (inr a, w).

Definition throw {A} (e : Exn) : M A := fun w => (inl e, w).

Definition bind {A B} (m : M A) (k : A -> M B) : M B :=
  fun w =>
    match m w with
    | (inr a, w') => k a w'
    | (inl e, w') => (inl e, w')
    end.

(** A pure evaluation that can throw. *)
Definition lift {A} (r : Exn + A) : M A :=
  match r with
  | inr a => ret a
  | inl e => throw e
  end.

(** [try { m } catch { h }] *)
Definition try_catch {A} (m : M A) (h : M A) : M A :=
  fun w =>
    match m w with
    | (inr a, w') => (inr a, w')
    | (inl _, w') => h w'
    end.

(** [p.catch(() => a)] *)
Definition catch_value {A} (m : M A) (a : A) : M A := try_catch m (ret a).

Definition fetch (req : Request) : M Response :=
  fun w =>
    let log := (sent w ++ [req])%list in
    match script w with
    | Respond r :: rest => (inr r, {| script := rest; sent := log |})
    | Reject :: rest => (inl NetworkError, {| script := rest; sent := log |})
    | [] => (inl NetworkError, {| script := []; sent := log |})
    end.

End Net.

Import Net.

Declare Scope net_scope.
Delimit Scope net_scope with net.
Notation "x <- m ;; k" := (bind m (fun x => k))
  (at level 100, m at next level, right associativity) : net_scope.
Local Open Scope net_scope.

(* ------------------------------------------------------------------ *)
(** ** Blocks of code the two files share word for word *)

Module Shared.

(** [String(v)] *)
Definition String_ (v : Value) : Exn + string :=
  match v with
  | None => inr "undefined"
  | Some j => toString j
  end.

Definition systemParts : list string :=
  [ "You are Star Chart AI, a helpful assistant embedded in a factory-floor telemetry dashboard called Star Chart Systems.";
    "Answer as a pragmatic operations/industrial engineer. Be concise and specific.";
    "If the user asks for data not in the telemetry snapshot, say what you can infer and what you would need to confirm." ].

Definition telemetryJson (telemetry : Value) : string :=
  if truthy telemetry && (typeof telemetry =? "object")
  then match telemetry with
       | Some t => stringify_indent2 t
       | None => "{}"
       end
  else "{}".

Definition systemPrompt (telemetry : Value) : string :=
  join " " systemParts ++ nl ++ nl ++ "Telemetry snapshot (JSON):" ++ nl
       ++ telemetryJson telemetry.

(** [String(input || "").trim().slice(0, 4000)] *)
Definition userInput (input : Value) : Exn + string :=
  match String_ (or_else input (Some (JStr ""))) with
  | inr s => inr (str_slice0 4000 (trim s))
  | inl e => inl e
  end.

(** [`${m.role === "user" ? "User" : "Assistant"}: ${m.content}`] *)
Definition render (m : Turn) : string :=
  (if role m =? "user" then "User" else "Assistant") ++ ": " ++ content m.

(** [await response.json().catch(() => null)] *)
Definition response_data (response : Response) : Json :=
  match resp_json response with
  | Some d => d
  | None => JNull
  end.

(** The [detail] of a response that is not ok. *)
Definition detail (data : Json) : Value :=
  if truthy (Some data) && (typeof (Some data) =? "object")
  then or_else (optprop (prop data "error") "message")
               (Some (JStr (stringify data)))
  else Some (JStr "Unknown error").

(** What [for (const x of v)] goes through: the elements of an array,
    the code units of a string; nothing else parsed is iterable. *)
Fixpoint code_units (s : string) : list Json :=
  match s with
  | String c r => JStr (String c "") :: code_units r
  | EmptyString => []
  end.

Definition iterate (v : Value) : Exn + list Json :=
  match v with
  | Some (JArr items) => inr items
  | Some (JStr s) => inr (code_units s)
  | _ => inl (TypeError "value is not iterable")
  end.

(** The inner loop over [item?.content || []], pushing onto [chunks]. *)
Fixpoint push_parts (parts : list Json) (chunks : list string) : list string :=
  match parts with
  | [] => chunks
  | part :: rest =>
      if strict_eq_str (optprop (Some part) "type") "output_text"
      then match prop part "text" with
           | Some (JStr t) => push_parts rest (chunks ++ [t])%list
           | _ => push_parts rest chunks
           end
      else push_parts rest chunks
  end.

(** The outer loop over [data?.output || []]. *)
Fixpoint push_items (items : list Json) (chunks : list string)
  : Exn + list string :=
  match items with
  | [] => inr chunks
  | item :: rest =>
      match iterate (or_else (optprop (Some item) "content") (Some (JArr []))) with
      | inr parts => push_items rest (push_parts parts chunks)
      | inl e => inl e
      end
  end.

(** [chunks] after both loops. *)
Definition output_chunks (data : Json) : Exn + list string :=
  match iterate (or_else (optprop (Some data) "output") (Some (JArr []))) with
  | inr items => push_items items []
  | inl e => inl e
  end.

(** An object literal as [JSON.stringify] sees it: a property whose
    value is [undefined] is left out. *)
Fixpoint object_literal (fields : list (string * Value)) : Json :=
  match fields with
  | [] => JObj []
  | (k, Some v) :: rest =>
      match object_literal rest with
      | JObj props => JObj ((k, v) :: props)
      | other => other
      end
  | (_, None) :: rest => object_literal rest
  end.

Definition failure (st : Z) (e : Value) : Result :=
  {| ok := false; status := st; text := None; error := e; model := None |}.

Definition str_value (s : string) : Value := Some (JStr s).

Definition opt_str_value (s : option string) : Value :=
  match s with
  | Some t => Some (JStr t)
  | None => None
  end.

(** An inbound HTTP request as far as the API routes read it; the body
    arrives in chunks. CORS headers are outside this model. *)
Record HttpRequest : Type :=
  { method : string; pathname : string; chunks : list string }.

(** What the boundary does with a request. [JsonReply], [TextReply] and
    [EmptyReply] are answers written by the handler itself. [Static]
    is not an answer: it is the value of [return serveStatic(req, res,
    url.pathname)] inside the [try] of the long-running process, the
    promise of [serveStatic] for that path, which the [try] does not
    await; what [serveStatic] then does, throwing included, happens
    outside the [try]. [FileLookup] is where [serveStatic] arrives once
    the path is decoded: the file lookup for the decoded path, which is
    outside this model. *)
Inductive Reply : Type :=
| JsonReply (st : Z) (payload : Json)
| TextReply (st : Z) (payload : string)
| EmptyReply (st : Z)
| Static (path : string)
| FileLookup (decoded : string).

Definition health (m : string) (key : option string) : Json :=
  object_literal
    [ ("ok", Some (JBool true));
      ("app", str_value "star-chart-ai-proxy");
      ("version", Some (JNum "1"));
      ("model", str_value m);
      ("hasKey", Some (JBool (negb (env_missing key)))) ].

Definition error_envelope (e : Value) : Json :=
  object_literal [ ("ok", Some (JBool false)); ("error", e) ].

End Shared.

Import Shared.

(* ------------------------------------------------------------------ *)
(** ** worker.js: the edge request handler *)

Module Worker.

Definition normalizeHistory (history : Value) : list Turn :=
  match history with
  | Some (JArr items) =>
      let safe :=
        fold_left
          (fun (safe : list Turn) (item : Json) =>
             if negb (truthy (Some item)) || negb (typeof (Some item) =? "object")
             then safe
             else
               match prop item "role", prop item "content" with
               | Some (JStr r), Some (JStr c) =>
                   if negb (r =? "user") && negb (r =? "assistant") then safe
                   else if trim c =? "" then safe
                   else (safe ++ [{| role := r; content := str_slice0 4000 (trim c) |}])%list
               | _, _ => safe
               end)
          items [] in
      arr_slice_last 24 safe
  | _ => []
  end.

Definition callOpenAI (env : Env) (input history telemetry : Value) : M Result :=
  let OPENAI_MODEL := env_or (MODEL_VAR env) "gpt-4.1" in
  if env_missing (OPENAI_API_KEY env)
  then ret (failure 500 (str_value "Missing OPENAI_API_KEY."))
  else
    let key := env_or (OPENAI_API_KEY env) "" in
    let systemPrompt := systemPrompt telemetry in
    userInput <- lift (userInput input) ;;
    if userInput =? "" then ret (failure 400 (str_value "Missing input."))
    else
      let transcript :=
        join nl (List.app (map render (normalizeHistory history))
                         ["User: " ++ userInput]) in
      response <-
        fetch {| url := "https://api.openai.com/v1/responses";
                 authorization := "Bearer " ++ key;
                 body := ResponsesPayload
                           {| r_model := OPENAI_MODEL;
                              r_instructions := systemPrompt;
                              r_input := transcript;
                              r_temperature := (4 # 10)%Q;
                              r_max_output_tokens := 350 |} |} ;;
      let data := response_data response in
      if negb (resp_ok response)
      then ret (failure (resp_status response) (detail data))
      else
        let from_chunks : M Result :=
          chunks <- lift (output_chunks data) ;;
          let text := trim (join nl chunks) in
          if text =? ""
          then ret (failure 502 (str_value "OpenAI response missing text."))
          else ret {| ok := true; status := 200; text := Some text;
                      error := None; model := Some OPENAI_MODEL |} in
        match optprop (Some data) "output_text" with
        | Some (JStr outputText) =>
            if negb (trim outputText =? "")
            then ret {| ok := true; status := 200; text := Some (trim outputText);
                        error := None; model := Some OPENAI_MODEL |}
            else from_chunks
        | _ => from_chunks
        end.

(** [json(data, { status })]: [new Response(body, init)] throws a
    RangeError for a status outside 200..599 and a TypeError for a body
    given with a null-body status. *)
Definition json (data : Json) (st : Z) : M Reply :=
  if ((st <? 200) || (599 <? st))%Z
  then throw (Error "RangeError: status must be in the range 200 to 599")
  else if existsb (Z.eqb st) [204; 205; 304]%Z
  then throw (TypeError "Response with null body status cannot have body")
  else ret (JsonReply st data).

Section Boundary.

(** [JSON.parse], [None] when it throws. *)
Variable JSON_parse : string -> option Json.

Definition readJson (request : HttpRequest) : M Json :=
  let text := String.concat "" (chunks request) in
  if trim text =? "" then ret JNull
  else match JSON_parse text with
       | Some v => ret v
       | None => throw SyntaxError
       end.

(** [export default { fetch(request, env) }] *)
Definition handler (request : HttpRequest) (env : Env) : M Reply :=
  if (method request =? "OPTIONS") && String.prefix "/api/" (pathname request)
  then ret (EmptyReply 204)
  else if pathname request =? "/api/health"
  then json (health (env_or (MODEL_VAR env) "gpt-4.1") (OPENAI_API_KEY env)) 200
  else if pathname request =? "/api/chat"
  then
    if negb (method request =? "POST")
    then json (error_envelope (str_value "Method not allowed (use POST).")) 405
    else
      body <- catch_value (readJson request) JNull ;;
      result <- callOpenAI env (optprop (Some body) "input")
                               (optprop (Some body) "history")
                               (optprop (Some body) "telemetry") ;;
      if negb (ok result)
      then json (error_envelope (error result)) (status result)
      else json (object_literal [ ("ok", Some (JBool true));
                                  ("text", opt_str_value (text result));
                                  ("model", opt_str_value (model result)) ]) 200
  else json (error_envelope (str_value "Not found")) 404.

End Boundary.

End Worker.

(* ------------------------------------------------------------------ *)
(** ** server.js: the long-running process *)

Module Server.

Definition normalizeHistory (history : Value) : list Turn :=
  match history with
  | Some (JArr items) =>
      let safe :=
        fold_left
          (fun (safe : list Turn) (item : Json) =>
             if negb (truthy (Some item)) || negb (typeof (Some item) =? "object")
             then safe
             else
               match prop item "role", prop item "content" with
               | Some (JStr r), Some (JStr c) =>
                   if negb (r =? "user") && negb (r =? "assistant") then safe
                   else if trim c =? "" then safe
                   else (safe ++ [{| role := r; content := str_slice0 4000 (trim c) |}])%list
               | _, _ => safe
               end)
          items [] in
      arr_slice_last 24 safe
  | _ => []
  end.

Definition tryResponsesApi (key OPENAI_MODEL systemPrompt : string)
           (messages : list Turn) : M Result :=
  let transcript :=
    join nl (map render (filter (fun m => negb (role m =? "system")) messages)) in
  response <-
    fetch {| url := "https://api.openai.com/v1/responses";
             authorization := "Bearer " ++ key;
             body := ResponsesPayload
                       {| r_model := OPENAI_MODEL;
                          r_instructions := systemPrompt;
                          r_input := transcript;
                          r_temperature := (4 # 10)%Q;
                          r_max_output_tokens := 350 |} |} ;;
  let data := response_data response in
  if negb (resp_ok response)
  then ret (failure (resp_status response) (detail data))
  else
    let from_chunks : M Result :=
      chunks <- lift (output_chunks data) ;;
      let text := trim (join nl chunks) in
      if text =? ""
      then ret (failure 502 (str_value "OpenAI response missing text."))
      else ret {| ok := true; status := 200; text := Some text;
                  error := None; model := None |} in
    match optprop (Some data) "output_text" with
    | Some (JStr outputText) =>
        if negb (trim outputText =? "")
        then ret {| ok := true; status := 200; text := Some outputText;
                    error := None; model := None |}
        else from_chunks
    | _ => from_chunks
    end.

Definition tryChatCompletionsApi (key OPENAI_MODEL : string)
           (messages : list Turn) : M Result :=
  response <-
    fetch {| url := "https://api.openai.com/v1/chat/completions";
             authorization := "Bearer " ++ key;
             body := ChatPayload
                       {| c_model := OPENAI_MODEL;
                          c_messages := messages;
                          c_temperature := (4 # 10)%Q;
                          c_max_tokens := 350 |} |} ;;
  let data := response_data response in
  if negb (resp_ok response)
  then ret (failure (resp_status response) (detail data))
  else
    match optprop (optprop (optindex0 (optprop (Some data) "choices")) "message") "content" with
    | Some (JStr text) =>
        if trim text =? ""
        then ret (failure 502 (str_value "OpenAI response missing text."))
        else ret {| ok := true; status := 200; text := Some text;
                    error := None; model := None |}
    | _ => ret (failure 502 (str_value "OpenAI response missing text."))
    end.

Definition fallbackableStatuses : list Z := [400; 404; 405; 415]%Z.

(** [fallbackableStatuses.has(st)] *)
Definition fallbackable (st : Z) : bool :=
  existsb (Z.eqb st) fallbackableStatuses.

Definition callOpenAI (env : Env) (input history telemetry : Value) : M Result :=
  let OPENAI_MODEL := env_or (MODEL_VAR env) "gpt-4.1-mini" in
  if env_missing (OPENAI_API_KEY env)
  then ret (failure 500 (str_value "Missing OPENAI_API_KEY in environment."))
  else
    let key := env_or (OPENAI_API_KEY env) "" in
    let systemPrompt := systemPrompt telemetry in
    userContent <- lift (userInput input) ;;
    let messages :=
      ({| role := "system"; content := systemPrompt |}
         :: normalizeHistory history
         ++ [{| role := "user"; content := userContent |}])%list in
    responsesResult <- tryResponsesApi key OPENAI_MODEL systemPrompt messages ;;
    if ok responsesResult then ret responsesResult
    else if negb (fallbackable (status responsesResult)) then ret responsesResult
    else
      chatResult <- tryChatCompletionsApi key OPENAI_MODEL messages ;;
      if ok chatResult then ret chatResult
      else
        primary <- lift (String_ (error responsesResult)) ;;
        secondary <- lift (String_ (error chatResult)) ;;
        ret (failure (status chatResult)
               (str_value ("Responses API error: " ++ primary ++ nl
                             ++ "Chat Completions error: " ++ secondary))).

(** [chunk.length] of a Buffer: its bytes. A chunk is kept as the text
    it decodes to, whose UTF-8 encoding takes one byte for a code unit
    below 128 and two for a code unit from 128 to 255. *)
Fixpoint byteLength (chunk : string) : N :=
  match chunk with
  | String c r => ((if (N_of_ascii c <? 128)%N then 1 else 2) + byteLength r)%N
  | EmptyString => 0%N
  end.

(** [sendJson(res, statusCode, body)]: [res.writeHead] throws a
    RangeError for a status outside 100..999. *)
Definition sendJson (st : Z) (data : Json) : M Reply :=
  if ((st <? 100) || (999 <? st))%Z
  then throw (Error "RangeError: Invalid status code")
  else ret (JsonReply st data).

(** The request as Node hands it over: [req.method], [req.url],
    [req.headers.host] and the chunks of the body. *)
Record IncomingMessage : Type :=
  { im_method : string;
    im_url : option string;
    im_host : option string;
    im_chunks : list string }.

Section Boundary.

(** [JSON.parse], [None] when it throws. *)
Variable JSON_parse : string -> option Json.

(** [new URL(input, base).pathname], [None] when the constructor
    throws. *)
Variable URL_pathname : string -> string -> option string.

(** [decodeURIComponent], [None] when it throws. *)
Variable decodeURIComponent : string -> option string.

(** The loop of [readJson] over the chunks of the request. *)
Fixpoint read_chunks (pending : list string) (size : N) (chunks : list string)
  : Exn + list string :=
  match pending with
  | [] => inr chunks
  | chunk :: rest =>
      let size := (size + byteLength chunk)%N in
      if (1000000 <? size)%N then inl (Error "Request too large")
      else read_chunks rest size (chunks ++ [chunk])%list
  end.

Definition readJson (req : HttpRequest) : M Json :=
  chunks <- lift (read_chunks (chunks req) 0 []) ;;
  let raw := trim (String.concat "" chunks) in
  if raw =? "" then ret JNull
  else match JSON_parse raw with
       | Some v => ret v
       | None => throw SyntaxError
       end.

(** The [try] of the callback of [http.createServer] once
    [new URL(...)] has given the pathname of the request, from the CORS
    lines on: the routes. The last one returns the promise of
    [serveStatic] without awaiting it: the value of the [try] is then
    [Static], and what that promise does is for [callback] below,
    outside the [try]. *)
Definition handler (req : HttpRequest) (env : Env) : M Reply :=
  let OPENAI_MODEL := env_or (MODEL_VAR env) "gpt-4.1-mini" in
  try_catch
    (if (method req =? "OPTIONS") && String.prefix "/api/" (pathname req)
     then ret (EmptyReply 204)
     else if pathname req =? "/api/health"
     then sendJson 200 (health OPENAI_MODEL (OPENAI_API_KEY env))
     else if pathname req =? "/api/chat"
     then
       if negb (method req =? "POST")
       then sendJson 405 (error_envelope (str_value "Method not allowed (use POST)."))
       else
         body <- readJson req ;;
         result <- callOpenAI env (optprop (Some body) "input")
                                  (optprop (Some body) "history")
                                  (optprop (Some body) "telemetry") ;;
         if negb (ok result)
         then sendJson (status result) (error_envelope (error result))
         else sendJson 200
                (object_literal [ ("ok", Some (JBool true));
                                  ("text", opt_str_value (text result));
                                  ("model", str_value OPENAI_MODEL) ])
     else if negb (method req =? "GET") && negb (method req =? "HEAD")
     then ret (TextReply 405 "Method not allowed")
     else ret (Static (pathname req)))
    (ret (TextReply 500 "Server error")).

(** What [new URL(req.url || "/", "http://" + (req.headers.host ||
    "localhost"))] gives for a request. *)
Definition parsed_pathname (raw : IncomingMessage) : option string :=
  URL_pathname (env_or (im_url raw) "/") ("http://" ++ env_or (im_host raw) "localhost").

(** The request the routes see when the URL parsed to [path]. *)
Definition routed (raw : IncomingMessage) (path : string) : HttpRequest :=
  {| method := im_method raw; pathname := path; chunks := im_chunks raw |}.

(** The first lines of [serveStatic], before its own [try]:
    [safePathFromUrl] decodes the path, and [decodeURIComponent] throws
    a [URIError] on a malformed escape. *)
Definition serveStatic (urlPathname : string) : M Reply :=
  let pathname := if urlPathname =? "/" then "/index.html" else urlPathname in
  match decodeURIComponent pathname with
  | Some decoded => ret (FileLookup decoded)
  | None => throw URIError
  end.

(** The whole callback of [http.createServer]: [new URL] is the first
    statement of the [try], so that a URL that does not parse is
    answered like any other exception; then the routes; and when the
    routes return the promise of [serveStatic], its outcome is the
    outcome of the callback, a rejection included: nothing catches
    it. *)
Definition callback (raw : IncomingMessage) (env : Env) : M Reply :=
  match parsed_pathname raw with
  | Some path =>
      reply <- handler (routed raw path) env ;;
      match reply with
      | Static p => serveStatic p
      | _ => ret reply
      end
  | None => ret (TextReply 500 "Server error")
  end.

End Boundary.

End Server.

(* ------------------------------------------------------------------ *)
(** ** The sanitiser as the specification words it *)

Module Sanitizer.

(** One element of the history as a turn, or nothing: it has to be an
    object with a role among [user] and [assistant] and a content that
    is a string with something left after trimming; the content kept is
    the trimmed text cut at 4000 characters. *)
Definition valid_turn (item : Json) : option Turn :=
  match item with
  | JObj props =>
      match lookup "role" props, lookup "content" props with
      | Some (JStr r), Some (JStr c) =>
          if ((r =? "user") || (r =? "assistant")) && negb (trim c =? "")
          then Some {| role := r; content := str_slice0 4000 (trim c) |}
          else None
      | _, _ => None
      end
  | _ => None
  end.

(** The elements that survive validation, in their original order. *)
Fixpoint survivors (items : list Json) : list Turn :=
  match items with
  | [] => []
  | item :: rest =>
      match valid_turn item with
      | Some t => t :: survivors rest
      | None => survivors rest
      end
  end.

(** The last [n] elements of a sequence. *)
Definition last_n {A} (n : nat) (xs : list A) : list A :=
  rev (firstn n (rev xs)).

(** The history kept: nothing unless the history is an array, else the
    last 24 survivors. *)
Definition sanitized (history : Value) : list Turn :=
  match history with
  | Some (JArr items) => last_n 24 (survivors items)
  | _ => []
  end.

(** What every kept turn satisfies: a role among the two, a content
    that is not empty, not blank, at most 4000 characters long, and that
    is the trimmed text of some string cut at 4000 characters: it has
    no white space in front, and none behind whenever nothing was cut. *)
Definition turn_ok (t : Turn) : Prop :=
  (role t = "user" \/ role t = "assistant")
  /\ content t <> ""
  /\ trim (content t) <> ""
  /\ String.length (content t) <= 4000
  /\ (exists original,
        content t = str_slice0 4000 (trim original)
        /\ (String.length (trim original) <= 4000 -> trim (content t) = content t))
  /\ trimStart (content t) = content t.

(** The body of the loop of [normalizeHistory], the same in both files. *)
Definition loop_body (safe : list Turn) (item : Json) : list Turn :=
  if negb (truthy (Some item)) || negb (typeof (Some item) =? "object")
  then safe
  else
    match prop item "role", prop item "content" with
    | Some (JStr r), Some (JStr c) =>
        if negb (r =? "user") && negb (r =? "assistant") then safe
        else if trim c =? "" then safe
        else (safe ++ [{| role := r; content := str_slice0 4000 (trim c) |}])%list
    | _, _ => safe
    end.

End Sanitizer.

Import Sanitizer.

(* ------------------------------------------------------------------ *)
(** ** The instruction as the specification words it *)

Module Composer.

(** The fixed persona text, three sentences. *)
Definition persona : string :=
  "You are Star Chart AI, a helpful assistant embedded in a factory-floor telemetry dashboard called Star Chart Systems. Answer as a pragmatic operations/industrial engineer. Be concise and specific. If the user asks for data not in the telemetry snapshot, say what you can infer and what you would need to confirm.".

(** A structured value, an object or an array, is printed as indented
    JSON; anything else, absent or not, as the empty object. *)
Definition serialized_telemetry (telemetry : Value) : string :=
  match telemetry with
  | Some (JObj props) => stringify_indent2 (JObj props)
  | Some (JArr items) => stringify_indent2 (JArr items)
  | _ => "{}"
  end.

End Composer.

Import Composer.

(* ------------------------------------------------------------------ *)
(** ** Observing a run *)

Module Run.

Definition responses_url : string := "https://api.openai.com/v1/responses".
Definition chat_url : string := "https://api.openai.com/v1/chat/completions".

(** The requests a computation sends when it starts in [w]. *)
Definition calls {A} (m : M A) (w : World) : list Request :=
  skipn (length (sent w)) (sent (snd (m w))).

(** The secondary protocol was called. *)
Definition secondary_attempted {A} (m : M A) (w : World) : bool :=
  existsb (fun rq => url rq =? chat_url) (calls m w).

(** The world after one fetch of [rq]. *)
Definition advance (rq : Request) (w : World) : World :=
  {| script := tl (script w); sent := (sent w ++ [rq])%list |}.

(** The next answer of the provider is a failure with a status of the
    fallback set. *)
Definition next_is_fallback_status (w : World) : bool :=
  match script w with
  | Respond r :: _ => negb (resp_ok r) && Server.fallbackable (resp_status r)
  | _ => false
  end.

(** Agreement of two outcomes of the strategy on [ok], [status], [error]
    and, up to the surrounding white space of the second, [text]. *)
Definition agree (a b : Exn + Result) : Prop :=
  match a, b with
  | inl e1, inl e2 => e1 = e2
  | inr r1, inr r2 =>
      ok r1 = ok r2 /\ status r1 = status r2 /\ error r1 = error r2
      /\ text r1 = option_map trim (text r2)
  | _, _ => False
  end.

(** Agreement on all four fields as they are. *)
Definition same_result (a b : Exn + Result) : Prop :=
  match a, b with
  | inl e1, inl e2 => e1 = e2
  | inr r1, inr r2 =>
      ok r1 = ok r2 /\ status r1 = status r2 /\ error r1 = error r2
      /\ text r1 = text r2
  | _, _ => False
  end.

(** The request carries [content] as its new user turn: the last
    rendered line of the transcript, or the last message. *)
Definition carries_user_turn (content : string) (rq : Request) : Prop :=
  match body rq with
  | ResponsesPayload b =>
      exists earlier, r_input b = join nl (earlier ++ ["User: " ++ content]%string)%list
  | ChatPayload b =>
      exists earlier,
        c_messages b = (earlier ++ [{| role := "user"; content := content |}])%list
  end.


(** What the next answer of the provider is read as. *)
Definition answer {A} (read : Response -> Exn + A) (w : World) : Exn + A :=
  match script w with
  | Respond r :: _ => read r
  | _ => inl NetworkError
  end.

Definition success (t : string) (m : option string) : Result :=
  {| ok := true; status := 200; text := Some t; error := None; model := m |}.

Definition missing_text : Result :=
  failure 502 (str_value "OpenAI response missing text.").

(** The text found in the structured output of a primary answer. *)
Definition read_chunks_text (m : option string) (data : Json) : Exn + Result :=
  match output_chunks data with
  | inr chunks =>
      let t := trim (join nl chunks) in
      if t =? "" then inr missing_text else inr (success t m)
  | inl e => inl e
  end.

(** How a primary answer is read: [keep] is what is done to a usable
    [output_text] ([trim] at the edge, nothing in the long-running
    process) and [m] the model put in the result. *)
Definition read_primary (keep : string -> string) (m : option string)
           (response : Response) : Exn + Result :=
  let data := response_data response in
  if negb (resp_ok response)
  then inr (failure (resp_status response) (detail data))
  else
    match optprop (Some data) "output_text" with
    | Some (JStr s) =>
        if negb (trim s =? "") then inr (success (keep s) m)
        else read_chunks_text m data
    | _ => read_chunks_text m data
    end.

(** How a secondary answer is read. *)
Definition read_secondary (response : Response) : Exn + Result :=
  let data := response_data response in
  if negb (resp_ok response)
  then inr (failure (resp_status response) (detail data))
  else
    match optprop (optprop (optindex0 (optprop (Some data) "choices")) "message") "content" with
    | Some (JStr t) => if trim t =? "" then inr missing_text else inr (success t None)
    | _ => inr missing_text
    end.

Definition api_key (env : Env) : string := env_or (OPENAI_API_KEY env) "".

Definition worker_model (env : Env) : string := env_or (MODEL_VAR env) "gpt-4.1".

Definition server_model (env : Env) : string := env_or (MODEL_VAR env) "gpt-4.1-mini".

Definition primary_request (key m instructions transcript : string) : Request :=
  {| url := responses_url;
     authorization := "Bearer " ++ key;
     body := ResponsesPayload
               {| r_model := m;
                  r_instructions := instructions;
                  r_input := transcript;
                  r_temperature := (4 # 10)%Q;
                  r_max_output_tokens := 350 |} |}.

Definition secondary_request (key m : string) (messages : list Turn) : Request :=
  {| url := chat_url;
     authorization := "Bearer " ++ key;
     body := ChatPayload
               {| c_model := m;
                  c_messages := messages;
                  c_temperature := (4 # 10)%Q;
                  c_max_tokens := 350 |} |}.

(** The transcript the edge handler sends. *)
Definition worker_transcript (history : Value) (content : string) : string :=
  join nl (List.app (map render (Worker.normalizeHistory history))
                    ["User: " ++ content]).

(** The messages the long-running process builds. *)
Definition server_messages (history telemetry : Value) (content : string)
  : list Turn :=
  ({| role := "system"; content := systemPrompt telemetry |}
     :: Server.normalizeHistory history
     ++ [{| role := "user"; content := content |}])%list.

Definition server_transcript (messages : list Turn) : string :=
  join nl (map render (filter (fun m => negb (role m =? "system")) messages)).

(** The primary and the secondary attempt of the long-running process
    for a request whose input coerces to [content]. *)
Definition primary_attempt (env : Env) (history telemetry : Value)
           (content : string) : M Result :=
  Server.tryResponsesApi (api_key env) (server_model env) (systemPrompt telemetry)
                         (server_messages history telemetry content).

Definition secondary_attempt (env : Env) (history telemetry : Value)
           (content : string) : M Result :=
  Server.tryChatCompletionsApi (api_key env) (server_model env)
                               (server_messages history telemetry content).

(** The failure put together when both attempts failed: the template
    literal prints the two errors, and throws when one does not print. *)
Definition composite (p c : Result) : Exn + Result :=
  match String_ (error p) with
  | inr a =>
      match String_ (error c) with
      | inr b =>
          inr (failure (status c)
                 (str_value ("Responses API error: " ++ a ++ nl
                               ++ "Chat Completions error: " ++ b)))
      | inl e => inl e
      end
  | inl e => inl e
  end.

(** What the long-running process makes of a failed primary attempt [p]
    and of the outcome of the secondary attempt. *)
Definition after_secondary (p : Result) (out : Exn + Result) : Exn + Result :=
  match out with
  | inr c => if ok c then inr c else composite p c
  | inl e => inl e
  end.

(** [sub] occurs in [s]. *)
Definition contains (sub s : string) : Prop :=
  exists before after, s = before ++ sub ++ after.


Definition with_chunks (req : HttpRequest) (cs : list string) : HttpRequest :=
  {| method := method req; pathname := pathname req; chunks := cs |}.

(** The bytes received for the body of a request. *)
Definition body_size (req : HttpRequest) : N :=
  fold_left (fun n c => (n + Server.byteLength c)%N) (chunks req) 0%N.

Definition body_text (req : HttpRequest) : string :=
  String.concat "" (chunks req).

End Run.

Import Run.

(* ------------------------------------------------------------------ *)
(** ** Concrete requests and answers *)

Module Examples.

Definition with_key : Env :=
  {| OPENAI_API_KEY := Some "sk-test"; MODEL_VAR := None |}.

Definition without_key : Env :=
  {| OPENAI_API_KEY := None; MODEL_VAR := None |}.

(** A provider that will give these answers, nothing sent yet. *)
Definition provider (answers : list Response) : World :=
  {| script := map Respond answers; sent := [] |}.

Definition hello : Value := Some (JStr "hello").

Definition blank : Value := Some (JStr "  ").

Definition upstream_error (st : Z) (msg : string) : Response :=
  {| resp_status := st;
     resp_json := Some (JObj [("error", JObj [("message", JStr msg)])]) |}.

(** [{ "output_text": t }] *)
Definition output_text (t : string) : Response :=
  {| resp_status := 200; resp_json := Some (JObj [("output_text", JStr t)]) |}.


(** [{ "choices": [ { "message": { "role": "assistant", "content": t } } ] }] *)
Definition chat_answer (t : string) : Response :=
  {| resp_status := 200;
     resp_json :=
       Some (JObj [("choices",
                    JArr [JObj [("message",
                                 JObj [("role", JStr "assistant");
                                       ("content", JStr t)])]])]) |}.

(** [{ "line1": { "oee": 0.82 } }] *)
Definition line1_telemetry : Json :=
  JObj [("line1", JObj [("oee", JNum "0.82")])].

(** A stand-in for [JSON.parse] that is right on the bodies used below:
    it reads [{}] and rejects the rest. *)
Definition parse_stub (raw : string) : option Json :=
  if raw =? "{}" then Some (JObj []) else None.

Definition chat_post (raw : string) : HttpRequest :=
  {| method := "POST"; pathname := "/api/chat"; chunks := [raw] |}.

Definition turn_item (r c : string) : Json :=
  JObj [("role", JStr r); ("content", JStr c)].

End Examples.

Import Examples.

(* ------------------------------------------------------------------ *)
(** ** More built-ins, for the code around the strategy *)

Module Builtins.

(** [s.split(sep)] for a separator of one code unit. *)
Fixpoint split_on (sep : ascii) (s : string) : list string :=
  match s with
  | EmptyString => [""]
  | String c r =>
      if Ascii.eqb c sep then "" :: split_on sep r
      else match split_on sep r with
           | h :: t => String c h :: t
           | [] => [String c ""]
           end
  end.

(** [s.split(/\r?\n/)] *)
Fixpoint split_lines (s : string) : list string :=
  match s with
  | EmptyString => [""]
  | String c r =>
      let keep (parts : list string) :=
        match parts with
        | h :: t => String c h :: t
        | [] => [String c ""]
        end in
      if Ascii.eqb c "010" then "" :: split_lines r
      else if Ascii.eqb c "013" then
        match r with
        | String c' r' =>
            if Ascii.eqb c' "010" then "" :: split_lines r'
            else keep (split_lines r)
        | EmptyString => keep (split_lines r)
        end
      else keep (split_lines r)
  end.

(** [s.indexOf(c)] for one code unit, [None] standing for [-1]. *)
Fixpoint index_of (c : ascii) (s : string) : option nat :=
  match s with
  | EmptyString => None
  | String a r =>
      if Ascii.eqb a c then Some 0
      else match index_of c r with
           | Some i => Some (S i)
           | None => None
           end
  end.

(** [s.slice(n)] *)
Fixpoint str_drop (n : nat) (s : string) : string :=
  match n, s with
  | S n', String _ r => str_drop n' r
  | _, _ => s
  end.

Fixpoint drop_last (s : string) : string :=
  match s with
  | EmptyString => EmptyString
  | String c EmptyString => EmptyString
  | String c r => String c (drop_last r)
  end.

(** [s.slice(1, -1)] *)
Definition slice_1_m1 (s : string) : string := drop_last (str_drop 1 s).

(** [s.endsWith(c)] for one code unit. *)
Fixpoint ends_with (c : ascii) (s : string) : bool :=
  match s with
  | EmptyString => false
  | String a EmptyString => Ascii.eqb a c
  | String _ r => ends_with c r
  end.

(** [s.startsWith(c)] for one code unit. *)
Definition starts_with (c : ascii) (s : string) : bool :=
  match s with
  | String a _ => Ascii.eqb a c
  | EmptyString => false
  end.

(** [xs.includes(x)] on an array of strings. *)
Definition includes (x : string) (xs : list string) : bool :=
  existsb (String.eqb x) xs.

(** The canonical form of a code unit for a match that ignores case:
    below 256 only the ASCII letters fold onto each other. *)
Definition fold_case (c : ascii) : ascii :=
  let n := N_of_ascii c in
  if ((65 <=? n) && (n <=? 90))%N then ascii_of_N (n + 32) else c.

Fixpoint fold_case_str (s : string) : string :=
  match s with
  | String c r => String (fold_case c) (fold_case_str r)
  | EmptyString => EmptyString
  end.

(** [\d] *)
Definition is_digit (c : ascii) : bool :=
  let n := N_of_ascii c in ((48 <=? n) && (n <=? 57))%N.

Fixpoint all_digits (s : string) : bool :=
  match s with
  | String c r => is_digit c && all_digits r
  | EmptyString => true
  end.

(** Matching a literal at the head of [s], ignoring case: what is left
    of [s] after it. *)
Fixpoint strip_ci (lit s : string) : option string :=
  match lit with
  | EmptyString => Some s
  | String a lit' =>
      match s with
      | String c s' =>
          if Ascii.eqb (fold_case a) (fold_case c) then strip_ci lit' s' else None
      | EmptyString => None
      end
  end.

End Builtins.

Import Builtins.

(* ------------------------------------------------------------------ *)
(** ** CORS: which origin an answer names *)

Module Cors.

(** worker.js [getAllowedOrigin(request, env)], from the [Origin] header
    of the request and [env.ALLOWED_ORIGINS]. *)
Definition getAllowedOrigin (origin : option string)
           (ALLOWED_ORIGINS : option string) : option string :=
  match origin with
  | None => None
  | Some o =>
      if o =? "" then None
      else
        let allowed :=
          filter (fun s => negb (s =? ""))
                 (map trim (split_on "," (env_or ALLOWED_ORIGINS ""))) in
        match allowed with
        | [] => Some o
        | _ => if includes o allowed then Some o else None
        end
  end.

(** worker.js [corsHeaders(origin)] *)
Definition corsHeaders (origin : option string) : list (string * string) :=
  match origin with
  | None => []
  | Some o =>
      if o =? "" then []
      else [ ("access-control-allow-origin", o);
             ("vary", "Origin");
             ("access-control-allow-methods", "GET, POST, OPTIONS");
             ("access-control-allow-headers", "Content-Type");
             ("access-control-max-age", "600") ]
  end.

(** [(:\d+)?$] *)
Definition port_suffix (rest : string) : bool :=
  match rest with
  | EmptyString => true
  | String c digits =>
      Ascii.eqb c ":" && negb (digits =? "") && all_digits digits
  end.

(** [(localhost|127\.0\.0\.1)(:\d+)?$] *)
Definition local_host (rest : string) : bool :=
  match strip_ci "localhost" rest with
  | Some after => port_suffix after
  | None => false
  end
  || match strip_ci "127.0.0.1" rest with
     | Some after => port_suffix after
     | None => false
     end.

(** [:\/\/(localhost|127\.0\.0\.1)(:\d+)?$] *)
Definition after_scheme (rest : string) : bool :=
  match strip_ci "://" rest with
  | Some after => local_host after
  | None => false
  end.

(** server.js [/^https?:\/\/(localhost|127\.0\.0\.1)(:\d+)?$/i.test(origin)] *)
Definition local_origin_test (origin : string) : bool :=
  match strip_ci "http" origin with
  | Some rest =>
      match strip_ci "s" rest with
      | Some rest' => after_scheme rest'
      | None => false
      end
      || after_scheme rest
  | None => false
  end.

(** server.js [allowOrigin], from [req.headers.origin]. *)
Definition allowOrigin (origin : option string) : option string :=
  match origin with
  | Some o => if local_origin_test o then Some o else None
  | None => None
  end.

(** The CORS headers the long-running process sets on an answer. *)
Definition server_cors_headers (origin : option string) (req : HttpRequest)
  : list (string * string) :=
  match allowOrigin origin with
  | Some o =>
      ((if String.prefix "/api/" (pathname req) || (pathname req =? "/api/chat")
        then [ ("Access-Control-Allow-Origin", o); ("Vary", "Origin") ]
        else [])
       ++
       (if (method req =? "OPTIONS") && String.prefix "/api/" (pathname req)
        then [ ("Access-Control-Allow-Methods", "POST, GET, OPTIONS");
               ("Access-Control-Allow-Headers", "Content-Type");
               ("Access-Control-Max-Age", "600") ]
        else []))%list
  | None => []
  end.

(** The origins the test accepts, with the case folded and the port
    left out. *)
Definition local_bases : list string :=
  [ "https://localhost"; "https://127.0.0.1";
    "http://localhost"; "http://127.0.0.1" ].

End Cors.

(* ------------------------------------------------------------------ *)
(** ** server.js: loading [.env] *)

Module DotEnv.

(** [process.env] *)
Definition ProcessEnv : Type := list (string * string).

(** [process.env[key]], [None] for [undefined]. *)
Fixpoint get (key : string) (env : ProcessEnv) : option string :=
  match env with
  | [] => None
  | (k, v) :: rest => if key =? k then Some v else get key rest
  end.

(** What [fs.readFileSync] does: the contents, or an error with its
    [code]. *)
Inductive FileRead : Type :=
| Contents (raw : string)
| ReadError (code : option string).

(** The assignment a line of the file makes, if it makes one. *)
Definition parse_line (line : string) : option (string * string) :=
  let trimmed := trim line in
  if (trimmed =? "") || starts_with "#" trimmed then None
  else
    let trimmed :=
      if String.prefix "export " trimmed
      then trim (str_drop (String.length "export ") trimmed)
      else trimmed in
    match index_of "=" trimmed with
    | None | Some 0 => None
    | Some eq =>
        let key := trim (str_slice0 eq trimmed) in
        let value := trim (str_drop (eq + 1) trimmed) in
        let value :=
          if (starts_with "034" value && ends_with "034" value)
             || (starts_with "'" value && ends_with "'" value)
          then slice_1_m1 value
          else value in
        Some (key, value)
    end.

(** The names [process.env] inherits from [Object.prototype]: reading
    one of them never gives [undefined], whatever the environment
    holds. *)
Definition inherited_names : list string :=
  [ "constructor"; "__defineGetter__"; "__defineSetter__"; "hasOwnProperty";
    "__lookupGetter__"; "__lookupSetter__"; "isPrototypeOf";
    "propertyIsEnumerable"; "toString"; "valueOf"; "__proto__";
    "toLocaleString" ].

Definition inherited (key : string) : bool :=
  existsb (String.eqb key) inherited_names.

(** [process.env[key] === undefined] *)
Definition is_undefined (key : string) (env : ProcessEnv) : bool :=
  match get key env with
  | Some _ => false
  | None => negb (inherited key)
  end.

(** One turn of the loop over the lines. *)
Definition load_line (env : ProcessEnv) (line : string) : ProcessEnv :=
  match parse_line line with
  | Some (key, value) =>
      if is_undefined key env then (key, value) :: env else env
  | None => env
  end.

Definition load_lines (env : ProcessEnv) (lines : list string) : ProcessEnv :=
  fold_left load_line lines env.

Definition loadDotEnvSync (file : FileRead) (env : ProcessEnv)
  : Exn + ProcessEnv :=
  match file with
  | Contents raw => inr (load_lines env (split_lines raw))
  | ReadError code =>
      match code with
      | Some c => if c =? "ENOENT" then inr env else inl (Error c)
      | None => inl (Error "")
      end
  end.

(** The keys a list of lines assigns, in order. *)
Fixpoint assigned (lines : list string) : list (string * string) :=
  match lines with
  | [] => []
  | line :: rest =>
      match parse_line line with
      | Some kv => kv :: assigned rest
      | None => assigned rest
      end
  end.

End DotEnv.

(* ------------------------------------------------------------------ *)
(** ** server.js: finding a free port *)

Module Boot.

(** What [server.listen(port)] leads to: the [listening] event, or the
    [error] event with [err.code]. *)
Inductive ListenResult : Type :=
| Listening
| ListenError (code : option string).

(** What the [error] handler decides. *)
Inductive Decision : Type :=
| Retry (nextPort : Z)
| Exit (code : Z).

(** The handler of [server.on("error", ...)]; [PORT] is the configured
    port, a number. *)
Definition on_error (PORT currentPort : Z) (code : option string) : Decision :=
  match code with
  | Some c =>
      if c =? "EADDRINUSE"
      then
        let nextPort := (currentPort + 1)%Z in
        if (nextPort <=? PORT + 50)%Z then Retry nextPort else Exit 1
      else Exit 1
  | None => Exit 1
  end.

Inductive Final : Type :=
| Up (port : Z)
| Down
| Pending.

Section Ports.

(** What the system answers when a port is asked for. *)
Variable listen : Z -> ListenResult.

(** [start(currentPort)] and the events that follow, at most [fuel]
    retries of them. *)
Fixpoint start (fuel : nat) (PORT currentPort : Z) : Final :=
  match listen currentPort with
  | Listening => Up currentPort
  | ListenError code =>
      match on_error PORT currentPort code with
      | Retry nextPort =>
          match fuel with
          | S fuel' => start fuel' PORT nextPort
          | O => Pending
          end
      | Exit _ => Down
      end
  end.

(** The port is taken. *)
Definition busy (port : Z) : Prop :=
  listen port = ListenError (Some "EADDRINUSE").

End Ports.

End Boot.

(* ------------------------------------------------------------------ *)
(** ** The shape of a result, and the text of a structured output *)

Module Shape.

(** A result as the HTTP boundary expects it: [ok] exactly with status
    200, then with a text that is not blank and no error; otherwise with
    an error and no text. *)
Definition well_formed (r : Result) : Prop :=
  (ok r = true <-> status r = 200%Z)
  /\ (ok r = true ->
      exists t, text r = Some t /\ trim t <> "" /\ error r = None)
  /\ (ok r = false -> text r = None /\ exists e, error r = Some e).

(** The text of a result has no white space around it. *)
Definition text_trimmed (r : Result) : Prop :=
  forall t, text r = Some t -> trim t = t.

(** The texts one content part contributes. *)
Definition part_text (part : Json) : list string :=
  if strict_eq_str (optprop (Some part) "type") "output_text"
  then match prop part "text" with
       | Some (JStr t) => [t]
       | _ => []
       end
  else [].

(** The parts of one output item, when its content can be iterated. *)
Definition item_parts (item : Json) : Exn + list Json :=
  iterate (or_else (optprop (Some item) "content") (Some (JArr []))).

(** The texts of the items, in document order. *)
Fixpoint items_texts (items : list Json) : list string :=
  match items with
  | [] => []
  | item :: rest =>
      match item_parts item with
      | inr parts => (flat_map part_text parts ++ items_texts rest)%list
      | inl _ => items_texts rest
      end
  end.

(** The JSON answer says [ok: true]. *)
Definition says_ok (payload : Json) : bool :=
  match prop payload "ok" with
  | Some (JBool b) => b
  | _ => false
  end.

(** The route is the one that talks to the provider. *)
Definition is_chat_post (req : HttpRequest) : bool :=
  (pathname req =? "/api/chat") && (method req =? "POST").

Definition is_preflight (req : HttpRequest) : bool :=
  (method req =? "OPTIONS") && String.prefix "/api/" (pathname req).

End Shape.

Import Shape.

(* ------------------------------------------------------------------ *)
(** ** More concrete data *)

Module Fixtures.

(** Every port from 3000 to 3004 is taken. *)
Definition five_taken (port : Z) : Boot.ListenResult :=
  if ((3000 <=? port) && (port <=? 3004))%Z
  then Boot.ListenError (Some "EADDRINUSE")
  else Boot.Listening.

(** [{ "output": [ { "content": [ { "type": "output_text", "text": a },
    { "type": "reasoning", "text": "skip" }, { "type": "output_text",
    "text": b } ] } ] }] *)
Definition structured (a b : string) : Response :=
  {| resp_status := 200;
     resp_json :=
       Some (JObj [("output",
                    JArr [JObj [("content",
                                 JArr [JObj [("type", JStr "output_text"); ("text", JStr a)];
                                       JObj [("type", JStr "reasoning"); ("text", JStr "skip")];
                                       JObj [("type", JStr "output_text"); ("text", JStr b)]])]])]) |}.

(** A usable [output_text] beside an [output] that cannot be iterated. *)
Definition text_and_broken_output : Response :=
  {| resp_status := 200;
     resp_json := Some (JObj [("output_text", JStr "Hello"); ("output", JObj [])]) |}.

(** An [output] that cannot be iterated and no [output_text]. *)
Definition broken_output : Response :=
  {| resp_status := 200; resp_json := Some (JObj [("output", JBool true)]) |}.

Definition with_model : Env :=
  {| OPENAI_API_KEY := Some "sk-test"; MODEL_VAR := Some "gpt-4.1" |}.

(** A stand-in for [JSON.parse] that reads one body,
    [{ "input": "hello" }] written without white space, and rejects the
    rest. *)
Definition parse_hello (raw : string) : option Json :=
  if raw =? "{" ++ dquote ++ "input" ++ dquote ++ ":" ++ dquote ++ "hello" ++ dquote ++ "}"
  then Some (JObj [("input", JStr "hello")])
  else None.

Definition hello_body : string :=
  "{" ++ dquote ++ "input" ++ dquote ++ ":" ++ dquote ++ "hello" ++ dquote ++ "}".

(** [n] times the letter [a]. *)
Fixpoint letters (n : nat) : string :=
  match n with
  | S n' => String "a" (letters n')
  | O => EmptyString
  end.

(** 3999 letters, a space and a letter: 4001 characters, trimmed. *)
Definition cut_at_a_space : string := letters 3999 ++ " b".

(** The same with two spaces in front and behind. *)
Definition padded_long_input : Value := Some (JStr ("  " ++ cut_at_a_space ++ "  ")).

(** An error whose message is an object owning a [toString] property. *)
Definition unprintable_error (st : Z) : Response :=
  {| resp_status := st;
     resp_json :=
       Some (JObj [("error", JObj [("message", JObj [("toString", JNum "1")])])]) |}.

(** A stand-in for [new URL(input, base).pathname] that is right on the
    requests used below: it gives back a path that starts with a slash
    for the base [http://localhost], and rejects every other base. *)
Definition url_stub (input base : string) : option string :=
  if (base =? "http://localhost") && String.prefix "/" input then Some input else None.

(** [decodeURIComponent] as far as the examples go: a path without
    escapes decodes to itself, and the one escaped path of the examples,
    [/%E0%A4%A], is malformed. *)
Definition decode_stub (s : string) : option string :=
  match index_of "%" s with
  | None => Some s
  | Some _ => None
  end.

Definition incoming (m : string) (url host : option string) : Server.IncomingMessage :=
  {| Server.im_method := m; Server.im_url := url; Server.im_host := host;
     Server.im_chunks := [] |}.

End Fixtures.

Import Fixtures.

(* ------------------------------------------------------------------ *)
(** ** Strings *)

Lemma str_slice0_length (n : nat) (s : string) :
  String.length (str_slice0 n s) <= n.
Proof.
  revert s; induction n as [|n IH]; intros [|c r]; simpl; try lia.
  specialize (IH r); lia.
Qed.

Lemma trimStart_head (s : string) (c : ascii) (r : string) :
  trimStart s = String c r -> is_whitespace c = false.
Proof.
  induction s as [|a s IH]; simpl; [discriminate|].
  destruct (is_whitespace a) eqn:Ha; [exact IH|].
  intros E; injection E as -> _; exact Ha.
Qed.

Lemma trimEnd_head (c : ascii) (r : string) :
  is_whitespace c = false -> trimEnd (String c r) = String c (trimEnd r).
Proof. intros H; simpl; rewrite H; reflexivity. Qed.

Lemma trimEnd_idempotent (s : string) : trimEnd (trimEnd s) = trimEnd s.
Proof.
  induction s as [|c r IH]; simpl; [reflexivity|].
  destruct (is_whitespace c && (trimEnd r =? "")) eqn:E; [reflexivity|].
  simpl; rewrite IH, E; reflexivity.
Qed.

Lemma trim_head (s : string) (c : ascii) (r : string) :
  trim s = String c r -> is_whitespace c = false.
Proof.
  unfold trim; intros E.
  destruct (trimStart s) as [|a t] eqn:Et; [discriminate|].
  pose proof (trimStart_head _ _ _ Et) as Ha.
  rewrite (trimEnd_head _ _ Ha) in E; injection E as -> _; exact Ha.
Qed.

Lemma trim_idempotent (s : string) : trim (trim s) = trim s.
Proof.
  destruct (trim s) as [|c r] eqn:E; [reflexivity|].
  pose proof (trim_head _ _ _ E) as Hc.
  unfold trim in *; simpl trimStart; rewrite Hc.
  rewrite <- E; apply trimEnd_idempotent.
Qed.

Lemma trim_slice_nonblank (n : nat) (s : string) :
  trim s <> "" -> trim (str_slice0 (S n) (trim s)) <> "".
Proof.
  intros H; destruct (trim s) as [|c r] eqn:E; [contradiction|].
  pose proof (trim_head _ _ _ E) as Hc.
  simpl str_slice0; unfold trim; simpl trimStart; rewrite Hc.
  rewrite (trimEnd_head _ _ Hc); discriminate.
Qed.

Lemma str_slice0_short (n : nat) (s : string) :
  String.length s <= n -> str_slice0 n s = s.
Proof.
  revert s; induction n as [|n IH]; intros [|c r]; simpl; intros H;
    try reflexivity; try lia.
  rewrite IH by lia; reflexivity.
Qed.

Lemma slice_nonempty (n : nat) (s : string) :
  s <> "" -> str_slice0 (S n) s <> "".
Proof. destruct s; [contradiction|discriminate]. Qed.

Lemma eqb_false_neq (s t : string) : (s =? t) = false <-> s <> t.
Proof. apply String.eqb_neq. Qed.

Arguments str_slice0 : simpl never.

(* ------------------------------------------------------------------ *)
(** ** The request sanitiser *)

Lemma step_valid_turn (safe : list Turn) (item : Json) :
  loop_body safe item
  = (safe ++ match valid_turn item with Some t => [t] | None => [] end)%list.
Proof.
  unfold loop_body, valid_turn.
  destruct item as [| b | r | s | items | props]; simpl;
    try (destruct b); simpl; try (rewrite app_nil_r; reflexivity).
  - destruct (num_truthy r); simpl; rewrite app_nil_r; reflexivity.
  - destruct (s =? ""); simpl; rewrite app_nil_r; reflexivity.
  - destruct (lookup "role" props) as [[| | | r | |]|];
      try (rewrite app_nil_r; reflexivity).
    destruct (lookup "content" props) as [[| | | c | |]|];
      try (rewrite app_nil_r; reflexivity).
    destruct (r =? "user"), (r =? "assistant"), (trim c =? ""); simpl;
      try (rewrite app_nil_r); reflexivity.
Qed.

Lemma loop_survivors (items : list Json) (safe : list Turn) :
  fold_left loop_body items safe = (safe ++ survivors items)%list.
Proof.
  revert safe; induction items as [|item rest IH]; intros safe; simpl.
  - rewrite app_nil_r; reflexivity.
  - rewrite IH, step_valid_turn.
    destruct (valid_turn item); simpl; rewrite <- app_assoc; reflexivity.
Qed.

Lemma arr_slice_last_last_n {A} (n : nat) (xs : list A) :
  arr_slice_last n xs = last_n n xs.
Proof.
  unfold arr_slice_last, last_n.
  rewrite firstn_rev, rev_involutive; reflexivity.
Qed.

Lemma worker_normalizeHistory_sanitized (history : Value) :
  Worker.normalizeHistory history = sanitized history.
Proof.
  destruct history as [[| | | | items |]|]; try reflexivity.
  unfold Worker.normalizeHistory, sanitized.
  change (arr_slice_last 24 (fold_left loop_body items []) = last_n 24 (survivors items)).
  rewrite loop_survivors; apply arr_slice_last_last_n.
Qed.

Lemma server_normalizeHistory_sanitized (history : Value) :
  Server.normalizeHistory history = sanitized history.
Proof.
  destruct history as [[| | | | items |]|]; try reflexivity.
  unfold Server.normalizeHistory, sanitized.
  change (arr_slice_last 24 (fold_left loop_body items []) = last_n 24 (survivors items)).
  rewrite loop_survivors; apply arr_slice_last_last_n.
Qed.

Lemma valid_turn_ok (item : Json) (t : Turn) :
  valid_turn item = Some t -> turn_ok t.
Proof.
  unfold valid_turn.
  destruct item as [| | | | |props]; try discriminate.
  destruct (lookup "role" props) as [[| | | r | |]|]; try discriminate.
  destruct (lookup "content" props) as [[| | | c | |]|]; try discriminate.
  destruct ((r =? "user") || (r =? "assistant")) eqn:Hr;
    cbn [andb negb]; [|discriminate].
  destruct (trim c =? "") eqn:Hc; cbn [andb negb]; [discriminate|].
  intros E; injection E as <-.
  apply eqb_false_neq in Hc.
  unfold turn_ok, role, content.
  split; [|split; [|split; [|split; [|split]]]].
  - apply orb_true_iff in Hr as [H|H]; apply String.eqb_eq in H; auto.
  - change 4000 with (S 3999); apply slice_nonempty; exact Hc.
  - change 4000 with (S 3999); apply trim_slice_nonblank; exact Hc.
  - apply str_slice0_length.
  - exists c; split; [reflexivity|].
    intros Hlen; rewrite (str_slice0_short _ _ Hlen); apply trim_idempotent.
  - destruct (trim c) as [|a rest] eqn:E; [contradiction|].
    pose proof (trim_head _ _ _ E) as Ha.
    change 4000 with (S 3999); unfold str_slice0; fold str_slice0.
    cbn [trimStart]; rewrite Ha; reflexivity.
Qed.

Lemma survivors_ok (items : list Json) : Forall turn_ok (survivors items).
Proof.
  induction items as [|item rest IH]; simpl; [constructor|].
  destruct (valid_turn item) as [t|] eqn:E; [|exact IH].
  constructor; [exact (valid_turn_ok _ _ E) | exact IH].
Qed.

Lemma last_n_suffix {A} (n : nat) (xs : list A) :
  xs = (firstn (length xs - n) xs ++ last_n n xs)%list.
Proof.
  rewrite <- arr_slice_last_last_n; unfold arr_slice_last.
  symmetry; apply firstn_skipn.
Qed.

Lemma last_n_length {A} (n : nat) (xs : list A) :
  length (last_n n xs) = Nat.min n (length xs).
Proof.
  unfold last_n; rewrite length_rev, length_firstn, length_rev; reflexivity.
Qed.

Lemma last_n_Forall {A} (P : A -> Prop) (n : nat) (xs : list A) :
  Forall P xs -> Forall P (last_n n xs).
Proof.
  intros H; rewrite (last_n_suffix n xs) in H.
  apply Forall_app in H; tauto.
Qed.

Lemma sanitized_ok (history : Value) : Forall turn_ok (sanitized history).
Proof.
  destruct history as [[| | | | items |]|]; try constructor.
  apply last_n_Forall, survivors_ok.
Qed.

(** C5, as the code has it. Both copies of [normalizeHistory] return, for
    every history, at most 24 turns, each with a role among [user] and
    [assistant] and a content that is the trimmed text of the element
    cut at 4000 characters: not empty, not blank, at most 4000
    characters long, without white space in front, and without white
    space behind whenever nothing was cut (the cut itself can leave
    some); the elements that fail validation are dropped and the
    function still returns; the turns kept are the last 24 survivors in
    their original order, exactly 24 of them when more than 24 survive;
    a history that is not an array gives the empty sequence. *)
Theorem normalizeHistory_sanitizes (history : Value) :
  Worker.normalizeHistory history = sanitized history
  /\ Server.normalizeHistory history = sanitized history
  /\ length (sanitized history) <= 24
  /\ Forall turn_ok (sanitized history)
  /\ (forall items, history = Some (JArr items) ->
        length (sanitized history) = Nat.min 24 (length (survivors items))
        /\ (exists dropped, survivors items = (dropped ++ sanitized history)%list)
        /\ (24 < length (survivors items) -> length (sanitized history) = 24))
  /\ (isArray history = false -> sanitized history = []).
Proof.
  split; [apply worker_normalizeHistory_sanitized|].
  split; [apply server_normalizeHistory_sanitized|].
  split.
  { destruct history as [[| | | | items |]|]; simpl; try lia.
    rewrite last_n_length; lia. }
  split; [apply sanitized_ok|].
  split.
  - intros items ->; unfold sanitized.
    split; [apply last_n_length|].
    split; [eexists; apply last_n_suffix|].
    intros H; rewrite last_n_length; lia.
  - destruct history as [[| | | | items |]|]; simpl; try reflexivity; discriminate.
Qed.

(* ------------------------------------------------------------------ *)
(** ** Running a computation *)

Lemma skipn_exact {A} (l l' : list A) : skipn (length l) (l ++ l') = l'.
Proof. induction l; simpl; auto. Qed.

Lemma fetch_run (rq : Request) (w : World) :
  fetch rq w = (answer (fun r => inr r) w, advance rq w).
Proof.
  unfold fetch, answer, advance.
  destruct (script w) as [|[r|] rest]; reflexivity.
Qed.

(** A fetch followed by a continuation that only reads the response. *)
Lemma bind_fetch_read {A} (rq : Request) (k : Response -> M A)
      (read : Response -> Exn + A) (w : World) :
  (forall r w', k r w' = (read r, w')) ->
  bind (fetch rq) k w = (answer read w, advance rq w).
Proof.
  intros Hk; unfold bind; rewrite fetch_run; unfold answer.
  destruct (script w) as [|[r|] rest]; try reflexivity.
  apply Hk.
Qed.

Lemma lift_run {A} (r : Exn + A) (w : World) : lift r w = (r, w).
Proof. destruct r; reflexivity. Qed.

Lemma calls_unchanged {A} (m : M A) (w : World) :
  snd (m w) = w -> calls m w = [].
Proof.
  intros H; unfold calls; rewrite H.
  rewrite <- (app_nil_r (sent w)) at 2; apply skipn_exact.
Qed.

Lemma calls_advance {A} (m : M A) (w : World) (rq : Request) :
  snd (m w) = advance rq w -> calls m w = [rq].
Proof. intros H; unfold calls; rewrite H; apply skipn_exact. Qed.

Lemma calls_advance2 {A} (m : M A) (w : World) (rq1 rq2 : Request) :
  snd (m w) = advance rq2 (advance rq1 w) -> calls m w = [rq1; rq2].
Proof.
  intros H; unfold calls; rewrite H; simpl.
  rewrite <- app_assoc; apply skipn_exact.
Qed.

(** The tail of the primary attempt is pure. *)
Lemma read_chunks_text_run (m : option string) (data : Json) (w : World) :
  bind (lift (output_chunks data))
       (fun chunks =>
          let t := trim (join nl chunks) in
          if t =? ""
          then ret (failure 502 (str_value "OpenAI response missing text."))
          else ret {| ok := true; status := 200; text := Some t;
                      error := None; model := m |}) w
  = (read_chunks_text m data, w).
Proof.
  unfold bind, read_chunks_text.
  rewrite lift_run.
  destruct (output_chunks data) as [e|chunks]; [reflexivity|].
  cbv zeta; destruct (trim (join nl chunks) =? ""); reflexivity.
Qed.

Lemma tryResponsesApi_run (key m prompt : string) (messages : list Turn) (w : World) :
  Server.tryResponsesApi key m prompt messages w
  = (answer (read_primary (fun s => s) None) w,
     advance (primary_request key m prompt (server_transcript messages)) w).
Proof.
  unfold Server.tryResponsesApi.
  apply bind_fetch_read; intros r w'.
  unfold read_primary; cbv zeta.
  destruct (negb (resp_ok r)); [reflexivity|].
  destruct (optprop (Some (response_data r)) "output_text") as [[| | | s | |]|];
    try apply read_chunks_text_run.
  destruct (negb (trim s =? "")); [reflexivity|apply read_chunks_text_run].
Qed.

Lemma tryChatCompletionsApi_run (key m : string) (messages : list Turn) (w : World) :
  Server.tryChatCompletionsApi key m messages w
  = (answer read_secondary w, advance (secondary_request key m messages) w).
Proof.
  unfold Server.tryChatCompletionsApi.
  apply bind_fetch_read; intros r w'.
  unfold read_secondary; cbv zeta.
  destruct (negb (resp_ok r)); [reflexivity|].
  destruct (optprop _ "content") as [[| | | s | |]|]; try reflexivity.
  destruct (trim s =? ""); reflexivity.
Qed.

(** The edge strategy, once the credential is there and the input is not
    blank: one fetch, then a reading of the answer. *)
Lemma worker_callOpenAI_run (env : Env) (input history telemetry : Value)
      (content : string) (w : World) :
  env_missing (OPENAI_API_KEY env) = false ->
  userInput input = inr content ->
  content <> "" ->
  Worker.callOpenAI env input history telemetry w
  = (answer (read_primary trim (Some (worker_model env))) w,
     advance (primary_request (api_key env) (worker_model env)
                (systemPrompt telemetry) (worker_transcript history content)) w).
Proof.
  intros Hkey Hin Hne.
  unfold Worker.callOpenAI; rewrite Hkey, Hin.
  unfold bind at 1; rewrite lift_run.
  apply eqb_false_neq in Hne; rewrite Hne.
  apply bind_fetch_read; intros r w'.
  unfold read_primary; cbv zeta.
  destruct (negb (resp_ok r)); [reflexivity|].
  destruct (optprop (Some (response_data r)) "output_text") as [[| | | s | |]|];
    try apply read_chunks_text_run.
  destruct (negb (trim s =? "")); [reflexivity|apply read_chunks_text_run].
Qed.

(** The strategy of the long-running process, once the credential is
    there and the input has been coerced. *)
Lemma server_callOpenAI_run (env : Env) (input history telemetry : Value)
      (content : string) (w : World) :
  env_missing (OPENAI_API_KEY env) = false ->
  userInput input = inr content ->
  Server.callOpenAI env input history telemetry w
  = bind (primary_attempt env history telemetry content)
      (fun p =>
         if ok p then ret p
         else if negb (Server.fallbackable (status p)) then ret p
         else
           bind (secondary_attempt env history telemetry content)
             (fun c =>
                if ok c then ret c
                else
                  bind (lift (String_ (error p)))
                    (fun a =>
                       bind (lift (String_ (error c)))
                         (fun b =>
                            ret (failure (status c)
                                   (str_value ("Responses API error: " ++ a ++ nl
                                      ++ "Chat Completions error: " ++ b))))))) w.
Proof.
  intros Hkey Hin.
  unfold Server.callOpenAI; rewrite Hkey, Hin.
  unfold bind at 1; rewrite lift_run.
  reflexivity.
Qed.

Lemma primary_attempt_run (env : Env) (history telemetry : Value)
      (content : string) (w : World) :
  primary_attempt env history telemetry content w
  = (answer (read_primary (fun s => s) None) w,
     advance (primary_request (api_key env) (server_model env)
                (systemPrompt telemetry)
                (server_transcript (server_messages history telemetry content))) w).
Proof. apply tryResponsesApi_run. Qed.

Lemma secondary_attempt_run (env : Env) (history telemetry : Value)
      (content : string) (w : World) :
  secondary_attempt env history telemetry content w
  = (answer read_secondary w,
     advance (secondary_request (api_key env) (server_model env)
                (server_messages history telemetry content)) w).
Proof. apply tryChatCompletionsApi_run. Qed.

(* ------------------------------------------------------------------ *)
(** ** The completion strategy *)

(** C8. With no credential configured, whatever the input, the history
    and the telemetry are, both strategies return [ok: false] with
    status 500 and a configuration error, and send nothing to the
    provider; the input is not even looked at, so a blank or absent
    input gives 500 too, not 400. *)
Theorem missing_credential_is_500 (env : Env) (input history telemetry : Value)
        (w : World) :
  env_missing (OPENAI_API_KEY env) = true ->
  Worker.callOpenAI env input history telemetry w
  = (inr (failure 500 (str_value "Missing OPENAI_API_KEY.")), w)
  /\ Server.callOpenAI env input history telemetry w
     = (inr (failure 500 (str_value "Missing OPENAI_API_KEY in environment.")), w)
  /\ calls (Worker.callOpenAI env input history telemetry) w = []
  /\ calls (Server.callOpenAI env input history telemetry) w = [].
Proof.
  intros Hkey.
  assert (Hw : Worker.callOpenAI env input history telemetry w
               = (inr (failure 500 (str_value "Missing OPENAI_API_KEY.")), w)).
  { unfold Worker.callOpenAI; rewrite Hkey; reflexivity. }
  assert (Hs : Server.callOpenAI env input history telemetry w
               = (inr (failure 500 (str_value "Missing OPENAI_API_KEY in environment.")), w)).
  { unfold Server.callOpenAI; rewrite Hkey; reflexivity. }
  repeat split; try assumption.
  - apply calls_unchanged; rewrite Hw; reflexivity.
  - apply calls_unchanged; rewrite Hs; reflexivity.
Qed.

(** The edge strategy rejects a blank input before any fetch. *)
Lemma worker_blank_input_is_400 (env : Env) (input history telemetry : Value)
      (w : World) :
  env_missing (OPENAI_API_KEY env) = false ->
  userInput input = inr "" ->
  Worker.callOpenAI env input history telemetry w
  = (inr (failure 400 (str_value "Missing input.")), w).
Proof.
  intros Hkey Hin.
  unfold Worker.callOpenAI; rewrite Hkey, Hin; reflexivity.
Qed.

(** The whole run of the strategy of the long-running process. *)
Lemma server_callOpenAI_outcome (env : Env) (input history telemetry : Value)
      (content : string) (w : World) :
  env_missing (OPENAI_API_KEY env) = false ->
  userInput input = inr content ->
  let rq1 := primary_request (api_key env) (server_model env) (systemPrompt telemetry)
               (server_transcript (server_messages history telemetry content)) in
  let rq2 := secondary_request (api_key env) (server_model env)
               (server_messages history telemetry content) in
  Server.callOpenAI env input history telemetry w
  = match answer (read_primary (fun s => s) None) w with
    | inr p =>
        if ok p || negb (Server.fallbackable (status p))
        then (inr p, advance rq1 w)
        else (after_secondary p (answer read_secondary (advance rq1 w)),
              advance rq2 (advance rq1 w))
    | inl e => (inl e, advance rq1 w)
    end.
Proof.
  intros Hkey Hin rq1 rq2.
  rewrite (server_callOpenAI_run _ _ _ _ _ _ Hkey Hin).
  unfold bind at 1; rewrite primary_attempt_run; fold rq1.
  destruct (answer _ w) as [e|p]; [reflexivity|].
  destruct (ok p); [reflexivity|].
  destruct (negb _); [reflexivity|]; cbn [orb].
  unfold bind at 1; rewrite secondary_attempt_run; fold rq2.
  unfold after_secondary.
  destruct (answer read_secondary _) as [e|c]; [reflexivity|].
  destruct (ok c); [reflexivity|].
  unfold composite, bind.
  rewrite lift_run.
  destruct (String_ (error p)) as [e|a]; [reflexivity|].
  rewrite lift_run.
  destruct (String_ (error c)) as [e|b]; reflexivity.
Qed.

(** The long-running process sends a blank input on: its first fetch
    carries a transcript whose last line is an empty user turn. *)
Lemma server_blank_input_is_sent (env : Env) (input history telemetry : Value)
      (w : World) :
  env_missing (OPENAI_API_KEY env) = false ->
  userInput input = inr "" ->
  exists later,
    calls (Server.callOpenAI env input history telemetry) w
    = primary_request (api_key env) (server_model env) (systemPrompt telemetry)
        (server_transcript (server_messages history telemetry "")) :: later.
Proof.
  intros Hkey Hin.
  unfold calls.
  rewrite (server_callOpenAI_outcome _ _ _ _ _ _ Hkey Hin); cbv zeta.
  destruct (answer _ w) as [e|p]; [exists []; apply skipn_exact|].
  destruct (ok p || _); [exists []; apply skipn_exact|].
  eexists [_]; simpl; rewrite <- app_assoc; apply skipn_exact.
Qed.

Lemma fallbackable_spec (st : Z) :
  Server.fallbackable st = true <-> In st [400; 404; 405; 415]%Z.
Proof.
  unfold Server.fallbackable, Server.fallbackableStatuses.
  rewrite existsb_exists; split.
  - intros [x [Hx E]]; apply Z.eqb_eq in E; subst; exact Hx.
  - intros H; exists st; split; [exact H | apply Z.eqb_refl].
Qed.

Lemma secondary_attempted_one {A} (m : M A) (w : World) (key md i t : string) :
  calls m w = [primary_request key md i t] -> secondary_attempted m w = false.
Proof. intros H; unfold secondary_attempted; rewrite H; reflexivity. Qed.

Lemma secondary_attempted_two {A} (m : M A) (w : World) (rq : Request)
      (key md : string) (ms : list Turn) :
  calls m w = [rq; secondary_request key md ms] -> secondary_attempted m w = true.
Proof.
  intros H; unfold secondary_attempted; rewrite H; simpl.
  apply orb_true_r.
Qed.

(** C4. In the long-running process, for a request that reaches the
    provider, the secondary protocol is called if and only if the primary
    attempt returned a failure whose status is one of 400, 404, 405 and
    415; a primary failure with any other status is returned as it is
    (same status, same error) after a single call, the primary one. *)
Theorem secondary_iff_fallback_status (env : Env) (input history telemetry : Value)
        (content : string) (w : World) :
  env_missing (OPENAI_API_KEY env) = false ->
  userInput input = inr content ->
  let primary := fst (primary_attempt env history telemetry content w) in
  let run := Server.callOpenAI env input history telemetry in
  (secondary_attempted run w = true
   <-> exists p, primary = inr p /\ ok p = false
                 /\ In (status p) [400; 404; 405; 415]%Z)
  /\ (forall p, primary = inr p -> ok p = false ->
                ~ In (status p) [400; 404; 405; 415]%Z ->
                run w = (inr p, snd (primary_attempt env history telemetry content w))
                /\ calls run w
                   = [primary_request (api_key env) (server_model env)
                        (systemPrompt telemetry)
                        (server_transcript (server_messages history telemetry content))]).
Proof.
  intros Hkey Hin primary run.
  pose proof (server_callOpenAI_outcome env input history telemetry content w Hkey Hin)
    as Hrun.
  cbv zeta in Hrun; fold run in Hrun.
  unfold primary; rewrite primary_attempt_run; cbn [fst snd].
  destruct (answer (read_primary (fun s => s) None) w) as [e|p] eqn:Ha.
  - split.
    + split.
      * intros H; exfalso.
        rewrite (secondary_attempted_one run w _ _ _ _
                   (calls_advance run w _ (f_equal snd Hrun))) in H.
        discriminate.
      * intros [p [Hp _]]; discriminate.
    + intros p Hp; discriminate.
  - destruct (ok p) eqn:Hok; cbn [orb] in Hrun.
    { split.
      + split.
        * intros H; exfalso.
          rewrite (secondary_attempted_one run w _ _ _ _
                     (calls_advance run w _ (f_equal snd Hrun))) in H.
          discriminate.
        * intros [q [Hq [Hf _]]]; injection Hq as <-; congruence.
      + intros q Hq Hf; injection Hq as <-; congruence. }
    destruct (Server.fallbackable (status p)) eqn:Hfb; cbn [negb] in Hrun.
    + split.
      * split.
        -- intros _; exists p.
           split; [reflexivity|].
           split; [exact Hok|apply fallbackable_spec; exact Hfb].
        -- intros _.
           apply (secondary_attempted_two run w _ _ _ _
                    (calls_advance2 run w _ _ (f_equal snd Hrun))).
      * intros q Hq _ Hn; injection Hq as <-.
        exfalso; apply Hn, fallbackable_spec; exact Hfb.
    + split.
      * split.
        -- intros H; exfalso.
           rewrite (secondary_attempted_one run w _ _ _ _
                      (calls_advance run w _ (f_equal snd Hrun))) in H.
           discriminate.
        -- intros [q [Hq [_ Hs]]]; injection Hq as <-.
           apply fallbackable_spec in Hs; congruence.
      * intros q Hq _ _; injection Hq as <-.
        split; [exact Hrun|].
        apply (calls_advance run w _ (f_equal snd Hrun)).
Qed.

Lemma str_app_assoc (x y z : string) : (x ++ y) ++ z = x ++ (y ++ z).
Proof. induction x as [|c x IH]; simpl; [reflexivity | rewrite IH; reflexivity]. Qed.

Lemma str_app_nil_r (x : string) : x ++ "" = x.
Proof. induction x as [|c x IH]; simpl; [reflexivity | rewrite IH; reflexivity]. Qed.

Lemma composite_message_contains (a b : string) :
  let msg := "Responses API error: " ++ a ++ nl ++ "Chat Completions error: " ++ b in
  contains "Responses API error" msg /\ contains a msg
  /\ contains "Chat Completions error" msg /\ contains b msg.
Proof.
  cbv zeta; repeat split.
  - exists "", (": " ++ a ++ nl ++ "Chat Completions error: " ++ b); reflexivity.
  - exists "Responses API error: ", (nl ++ "Chat Completions error: " ++ b); reflexivity.
  - exists ("Responses API error: " ++ a ++ nl), (": " ++ b).
    rewrite !str_app_assoc; reflexivity.
  - exists ("Responses API error: " ++ a ++ nl ++ "Chat Completions error: "), "".
    rewrite str_app_nil_r, !str_app_assoc; reflexivity.
Qed.

(** C7, as the code has it. In the long-running process, whenever the
    primary attempt failed, the secondary protocol was called, the
    secondary attempt failed too and both errors print as strings, the
    result is [ok: false] with the status of the secondary
    failure and an error string made of the label of the primary
    protocol, the primary error, the label of the secondary protocol and
    the secondary error ([a] and [b] are the two errors as the template
    literal prints them). *)
Theorem both_fail_composite (env : Env) (input history telemetry : Value)
        (content : string) (w : World) (p c : Result) (a b : string) :
  env_missing (OPENAI_API_KEY env) = false ->
  userInput input = inr content ->
  let run := Server.callOpenAI env input history telemetry in
  let w1 := snd (primary_attempt env history telemetry content w) in
  fst (primary_attempt env history telemetry content w) = inr p ->
  ok p = false ->
  secondary_attempted run w = true ->
  fst (secondary_attempt env history telemetry content w1) = inr c ->
  ok c = false ->
  String_ (error p) = inr a ->
  String_ (error c) = inr b ->
  exists msg,
    fst (run w) = inr {| ok := false; status := status c; text := None;
                         error := Some (JStr msg); model := None |}
    /\ msg = "Responses API error: " ++ a ++ nl ++ "Chat Completions error: " ++ b
    /\ contains "Responses API error" msg /\ contains a msg
    /\ contains "Chat Completions error" msg /\ contains b msg.
Proof.
  intros Hkey Hin run w1 Hp Hpok Hsec Hc Hcok Ha Hb.
  pose proof (server_callOpenAI_outcome env input history telemetry content w Hkey Hin)
    as Hrun.
  cbv zeta in Hrun; fold run in Hrun.
  unfold w1 in Hc.
  rewrite primary_attempt_run in Hp, Hc; cbn [fst snd] in Hp, Hc.
  rewrite secondary_attempt_run in Hc; cbn [fst] in Hc.
  rewrite Hp, Hpok in Hrun; cbn [orb] in Hrun.
  destruct (Server.fallbackable (status p)) eqn:Hfb; cbn [negb] in Hrun.
  - rewrite Hc in Hrun; unfold after_secondary, composite in Hrun.
    rewrite Hcok, Ha, Hb in Hrun.
    eexists; split; [rewrite Hrun; reflexivity|].
    split; [reflexivity|apply composite_message_contains].
  - exfalso.
    rewrite (secondary_attempted_one run w _ _ _ _
               (calls_advance run w _ (f_equal snd Hrun))) in Hsec.
    discriminate.
Qed.




Lemma read_chunks_text_agree (m : option string) (data : Json) :
  agree (read_chunks_text m data) (read_chunks_text None data).
Proof.
  unfold read_chunks_text.
  destruct (output_chunks data) as [e|chunks]; [reflexivity|]; cbv zeta.
  destruct (trim (join nl chunks) =? ""); simpl; repeat split.
  rewrite trim_idempotent; reflexivity.
Qed.

Lemma read_primary_agree (m : option string) (r : Response) :
  agree (read_primary trim m r) (read_primary (fun s => s) None r).
Proof.
  unfold read_primary; cbv zeta.
  destruct (negb (resp_ok r)); [simpl; repeat split|].
  destruct (optprop (Some (response_data r)) "output_text") as [[| | | s | |]|];
    try apply read_chunks_text_agree.
  destruct (negb (trim s =? "")); [simpl; repeat split|apply read_chunks_text_agree].
Qed.

Lemma read_chunks_text_settles (m : option string) (data : Json) (p : Result) :
  read_chunks_text m data = inr p ->
  ok p || negb (Server.fallbackable (status p)) = true.
Proof.
  unfold read_chunks_text.
  destruct (output_chunks data) as [e|chunks]; [discriminate|]; cbv zeta.
  destruct (trim (join nl chunks) =? ""); intros E; injection E as <-; reflexivity.
Qed.

Lemma read_primary_settles (r : Response) (p : Result) :
  negb (resp_ok r) && Server.fallbackable (resp_status r) = false ->
  read_primary (fun s => s) None r = inr p ->
  ok p || negb (Server.fallbackable (status p)) = true.
Proof.
  unfold read_primary; cbv zeta; intros H.
  destruct (negb (resp_ok r)); cbn [andb] in H.
  - intros E; injection E as <-; cbn [ok status failure orb]; rewrite H; reflexivity.
  - destruct (optprop (Some (response_data r)) "output_text") as [[| | | s | |]|];
      try apply read_chunks_text_settles.
    destruct (negb (trim s =? "")); [|apply read_chunks_text_settles].
    intros E; injection E as <-; reflexivity.
Qed.

(** C3, as the code has it. With a credential configured, an input that
    is not blank and the same answers from the provider, the two
    strategies throw the same exception or return results with the same
    [ok], the same [status], the same [error], and the text of the edge
    handler is the text of the long-running process trimmed, as long as
    the primary answer is not a failure with a status of the fallback
    set (there the long-running process alone goes on to the secondary
    protocol). *)
Theorem hosts_agree_without_fallback (env : Env) (input history telemetry : Value)
        (w : World) :
  env_missing (OPENAI_API_KEY env) = false ->
  userInput input <> inr "" ->
  next_is_fallback_status w = false ->
  agree (fst (Worker.callOpenAI env input history telemetry w))
        (fst (Server.callOpenAI env input history telemetry w)).
Proof.
  intros Hkey Hne Hnext.
  destruct (userInput input) as [e|content] eqn:Hin.
  - unfold Worker.callOpenAI, Server.callOpenAI; rewrite Hkey, Hin; reflexivity.
  - assert (Hc : content <> "") by (intros ->; apply Hne; reflexivity).
    rewrite (worker_callOpenAI_run env input history telemetry content w Hkey Hin Hc).
    rewrite (server_callOpenAI_outcome env input history telemetry content w Hkey Hin).
    cbv zeta; unfold next_is_fallback_status in Hnext; unfold answer.
    destruct (script w) as [|[r|] rest]; try reflexivity.
    pose proof (read_primary_agree (Some (worker_model env)) r) as Hag.
    pose proof (read_primary_settles r) as Hset.
    destruct (read_primary (fun s => s) None r) as [e|p]; [exact Hag|].
    rewrite (Hset p Hnext eq_refl); exact Hag.
Qed.

(* ------------------------------------------------------------------ *)
(** ** The instruction composer *)

(** C9. The system instruction is the persona text, a blank line, the
    label line and the serialised telemetry: the telemetry printed as
    JSON indented by two spaces when it is an object or an array, the
    text [{}] when it is absent, [null] or any other value. *)
Theorem systemPrompt_shape (telemetry : Value) :
  systemPrompt telemetry
  = persona ++ nl ++ nl ++ "Telemetry snapshot (JSON):" ++ nl
            ++ serialized_telemetry telemetry
  /\ serialized_telemetry telemetry
     = match telemetry with
       | Some (JObj props) => serialize "  " "" (JObj props)
       | Some (JArr items) => serialize "  " "" (JArr items)
       | _ => "{}"
       end.
Proof.
  split.
  - unfold systemPrompt.
    replace (telemetryJson telemetry) with (serialized_telemetry telemetry).
    + reflexivity.
    + unfold telemetryJson, serialized_telemetry.
      destruct telemetry as [[| b | r | s | items | props]|]; try reflexivity.
      * destruct b; reflexivity.
      * simpl; destruct (num_truthy r); reflexivity.
      * simpl; destruct (s =? ""); reflexivity.
  - destruct telemetry as [[| | | | |]|]; reflexivity.
Qed.

(* ------------------------------------------------------------------ *)
(** ** The user turn *)

Lemma userInput_inr (input : Value) (content : string) :
  userInput input = inr content ->
  exists s, String_ (or_else input (Some (JStr ""))) = inr s
            /\ content = str_slice0 4000 (trim s).
Proof.
  unfold userInput.
  destruct (String_ (or_else input (Some (JStr "")))) as [e|s]; [discriminate|].
  intros E; injection E as <-; exists s; split; reflexivity.
Qed.

Lemma worker_request_carries (key m i : string) (history : Value) (content : string) :
  carries_user_turn content
    (primary_request key m i (worker_transcript history content)).
Proof.
  unfold carries_user_turn; cbn [body primary_request r_input].
  exists (map render (Worker.normalizeHistory history)); reflexivity.
Qed.

Lemma server_primary_carries (key m i : string) (history telemetry : Value)
      (content : string) :
  carries_user_turn content
    (primary_request key m i
       (server_transcript (server_messages history telemetry content))).
Proof.
  unfold carries_user_turn; cbn [body primary_request r_input].
  exists (map render (filter (fun t => negb (role t =? "system"))
                             (Server.normalizeHistory history))).
  unfold server_transcript, server_messages.
  set (keep := fun t : Turn => negb (role t =? "system")).
  change (filter keep ({| role := "system"; content := systemPrompt telemetry |}
                         :: Server.normalizeHistory history
                         ++ [{| role := "user"; content := content |}])%list)
    with (filter keep (Server.normalizeHistory history
                         ++ [{| role := "user"; content := content |}])%list).
  rewrite filter_app, map_app; reflexivity.
Qed.

Lemma server_secondary_carries (key m : string) (history telemetry : Value)
      (content : string) :
  carries_user_turn content
    (secondary_request key m (server_messages history telemetry content)).
Proof.
  unfold carries_user_turn; cbn [body secondary_request c_messages].
  exists ({| role := "system"; content := systemPrompt telemetry |}
            :: Server.normalizeHistory history).
  reflexivity.
Qed.

Lemma worker_calls (env : Env) (input history telemetry : Value) (w : World) :
  calls (Worker.callOpenAI env input history telemetry) w = []
  \/ exists content,
       userInput input = inr content
       /\ calls (Worker.callOpenAI env input history telemetry) w
          = [primary_request (api_key env) (worker_model env) (systemPrompt telemetry)
               (worker_transcript history content)].
Proof.
  destruct (env_missing (OPENAI_API_KEY env)) eqn:Hkey.
  { left; apply calls_unchanged.
    unfold Worker.callOpenAI; rewrite Hkey; reflexivity. }
  destruct (userInput input) as [e|content] eqn:Hin.
  { left; apply calls_unchanged.
    unfold Worker.callOpenAI; rewrite Hkey, Hin; reflexivity. }
  destruct (String.eqb_spec content "") as [->|Hne].
  { left; apply calls_unchanged.
    rewrite (worker_blank_input_is_400 _ _ _ _ _ Hkey Hin); reflexivity. }
  right; exists content; split; [reflexivity|].
  apply calls_advance.
  rewrite (worker_callOpenAI_run _ _ _ _ _ _ Hkey Hin Hne); reflexivity.
Qed.

Lemma server_calls (env : Env) (input history telemetry : Value) (w : World) :
  calls (Server.callOpenAI env input history telemetry) w = []
  \/ exists content,
       userInput input = inr content
       /\ let rq1 :=
            primary_request (api_key env) (server_model env) (systemPrompt telemetry)
              (server_transcript (server_messages history telemetry content)) in
          let rq2 :=
            secondary_request (api_key env) (server_model env)
              (server_messages history telemetry content) in
          calls (Server.callOpenAI env input history telemetry) w = [rq1]
          \/ calls (Server.callOpenAI env input history telemetry) w = [rq1; rq2].
Proof.
  destruct (env_missing (OPENAI_API_KEY env)) eqn:Hkey.
  { left; apply calls_unchanged.
    unfold Server.callOpenAI; rewrite Hkey; reflexivity. }
  destruct (userInput input) as [e|content] eqn:Hin.
  { left; apply calls_unchanged.
    unfold Server.callOpenAI; rewrite Hkey, Hin; reflexivity. }
  right; exists content; split; [reflexivity|]; cbv zeta.
  pose proof (server_callOpenAI_outcome _ _ history telemetry _ w Hkey Hin) as Hrun.
  cbv zeta in Hrun.
  destruct (answer _ w) as [e|p].
  { left; apply calls_advance; rewrite Hrun; reflexivity. }
  destruct (ok p || _).
  - left; apply calls_advance; rewrite Hrun; reflexivity.
  - right; apply calls_advance2; rewrite Hrun; reflexivity.
Qed.

(** C10. In both hosts, whatever the input is, every request sent to the
    provider carries as its new user turn the input coerced to a string,
    trimmed and cut at 4000 characters: the cap of the history turns
    bounds the current input too. And the request is sent: with a
    credential and an input that coerces to the string [s], the edge
    strategy sends exactly one request, the primary one with that turn
    as the last line of its transcript, unless the turn is empty, in
    which case it sends none; the long-running process sends the
    primary request with that turn first, and after it at most the
    secondary request, whose last message is that turn. *)
Theorem user_turn_is_capped (env : Env) (input history telemetry : Value)
        (w : World) :
  (forall rq,
      In rq (calls (Worker.callOpenAI env input history telemetry) w)
      \/ In rq (calls (Server.callOpenAI env input history telemetry) w) ->
      exists s,
        String_ (or_else input (Some (JStr ""))) = inr s
        /\ String.length (str_slice0 4000 (trim s)) <= 4000
        /\ carries_user_turn (str_slice0 4000 (trim s)) rq)
  /\ (env_missing (OPENAI_API_KEY env) = false ->
      forall s,
        String_ (or_else input (Some (JStr ""))) = inr s ->
        let content := str_slice0 4000 (trim s) in
        let edge :=
          primary_request (api_key env) (worker_model env) (systemPrompt telemetry)
            (worker_transcript history content) in
        let first :=
          primary_request (api_key env) (server_model env) (systemPrompt telemetry)
            (server_transcript (server_messages history telemetry content)) in
        let second :=
          secondary_request (api_key env) (server_model env)
            (server_messages history telemetry content) in
        String.length content <= 4000
        /\ calls (Worker.callOpenAI env input history telemetry) w
           = (if content =? "" then [] else [edge])
        /\ (calls (Server.callOpenAI env input history telemetry) w = [first]
            \/ calls (Server.callOpenAI env input history telemetry) w = [first; second])
        /\ carries_user_turn content edge
        /\ carries_user_turn content first
        /\ carries_user_turn content second).
Proof.
  split.
  - intros rq [H|H].
    + destruct (worker_calls env input history telemetry w) as [E|[content [Hin E]]];
        rewrite E in H; [contradiction|].
      destruct (userInput_inr _ _ Hin) as [s [Hs ->]].
      exists s; split; [exact Hs|]; split; [apply str_slice0_length|].
      destruct H as [<-|[]]; apply worker_request_carries.
    + destruct (server_calls env input history telemetry w) as [E|[content [Hin E]]];
        [rewrite E in H; contradiction|].
      destruct (userInput_inr _ _ Hin) as [s [Hs ->]].
      exists s; split; [exact Hs|]; split; [apply str_slice0_length|].
      cbv zeta in E; destruct E as [E|E]; rewrite E in H.
      * destruct H as [<-|[]]; apply server_primary_carries.
      * destruct H as [<-|[<-|[]]];
          [apply server_primary_carries | apply server_secondary_carries].
  - intros Hkey s Hs; cbv zeta.
    assert (Hin : userInput input = inr (str_slice0 4000 (trim s))).
    { unfold userInput; rewrite Hs; reflexivity. }
    split; [apply str_slice0_length|].
    split; [|split; [|split; [|split]]].
    + destruct (String.eqb_spec (str_slice0 4000 (trim s)) "") as [E|Hne].
      * apply calls_unchanged.
        rewrite (worker_blank_input_is_400 env input history telemetry w Hkey);
          [reflexivity|].
        rewrite Hin, E; reflexivity.
      * apply calls_advance.
        rewrite (worker_callOpenAI_run _ _ _ _ _ _ Hkey Hin Hne); reflexivity.
    + pose proof (server_callOpenAI_outcome _ _ history telemetry _ w Hkey Hin) as Hrun.
      cbv zeta in Hrun.
      destruct (answer _ w) as [e|p].
      { left; apply calls_advance; rewrite Hrun; reflexivity. }
      destruct (ok p || _).
      * left; apply calls_advance; rewrite Hrun; reflexivity.
      * right; apply calls_advance2; rewrite Hrun; reflexivity.
    + apply worker_request_carries.
    + apply server_primary_carries.
    + apply server_secondary_carries.
Qed.

(* ------------------------------------------------------------------ *)
(** ** The HTTP boundary *)

Lemma size_grows (pending : list string) (size : N) :
  (size <= fold_left (fun n c => n + Server.byteLength c) pending size)%N.
Proof.
  revert size; induction pending as [|chunk rest IH]; intros size;
    cbn [fold_left]; [lia|].
  specialize (IH (size + Server.byteLength chunk)%N); lia.
Qed.

(** The loop of [readJson] rejects exactly the bodies above the limit. *)
Lemma read_chunks_limit (pending : list string) (size : N) (acc : list string) :
  (size <= 1000000)%N ->
  Server.read_chunks pending size acc
  = if (1000000 <? fold_left (fun n c => n + Server.byteLength c) pending size)%N
    then inl (Error "Request too large")
    else inr (acc ++ pending)%list.
Proof.
  revert size acc; induction pending as [|chunk rest IH]; intros size acc Hsize.
  - cbn [Server.read_chunks fold_left]; rewrite app_nil_r.
    apply N.ltb_ge in Hsize; rewrite Hsize; reflexivity.
  - cbn [Server.read_chunks fold_left]; cbv zeta.
    destruct (1000000 <? size + Server.byteLength chunk)%N eqn:E.
    + pose proof (size_grows rest (size + Server.byteLength chunk)%N) as G.
      apply N.ltb_lt in E.
      replace (1000000 <? fold_left _ rest _)%N with true; [reflexivity|].
      symmetry; apply N.ltb_lt; lia.
    + apply N.ltb_ge in E.
      rewrite (IH _ _ E), <- app_assoc; reflexivity.
Qed.

Lemma server_readJson_oversized (parse : string -> option Json)
      (req : HttpRequest) (w : World) :
  (1000000 < body_size req)%N ->
  Server.readJson parse req w = (inl (Error "Request too large"), w).
Proof.
  intros H; unfold Server.readJson, bind.
  rewrite lift_run, read_chunks_limit by lia.
  fold (body_size req); apply N.ltb_lt in H; rewrite H; reflexivity.
Qed.

Lemma worker_readJson_malformed (parse : string -> option Json)
      (req : HttpRequest) (w : World) :
  parse (body_text req) = None ->
  catch_value (Worker.readJson parse req) JNull w = (inr JNull, w).
Proof.
  intros Hparse; unfold catch_value, try_catch, Worker.readJson.
  fold (body_text req).
  destruct (trim (body_text req) =? ""); [reflexivity|].
  rewrite Hparse; reflexivity.
Qed.

Lemma worker_readJson_absent (parse : string -> option Json)
      (req : HttpRequest) (w : World) :
  catch_value (Worker.readJson parse (with_chunks req [])) JNull w = (inr JNull, w).
Proof. reflexivity. Qed.

(** C6, as the code has it by design. For a [POST /api/chat] whose body
    is not blank and does not parse, the edge handler goes on exactly as
    for an absent body, and with a credential configured answers the
    JSON envelope [400 { ok: false, error: "Missing input." }] without
    any call to the provider. In the long-running process a body of
    more than 1,000,000 bytes is rejected before any parsing, whatever
    the parser would say, and that error is caught by the handler and
    answered by the plain text [500 Server error], not by a JSON
    envelope. *)
Theorem malformed_body_at_the_boundary (parse : string -> option Json)
        (req : HttpRequest) (env : Env) (w : World) :
  pathname req = "/api/chat" ->
  method req = "POST" ->
  env_missing (OPENAI_API_KEY env) = false ->
  trim (body_text req) <> "" ->
  parse (body_text req) = None ->
  Worker.handler parse req env w = Worker.handler parse (with_chunks req []) env w
  /\ Worker.handler parse req env w
     = (inr (JsonReply 400 (JObj [("ok", JBool false); ("error", JStr "Missing input.")])), w)
  /\ (forall parse' big,
        pathname big = "/api/chat" -> method big = "POST" ->
        (1000000 < body_size big)%N ->
        Server.handler parse' big env w = (inr (TextReply 500 "Server error"), w)).
Proof.
  intros Hpath Hmethod Hkey Hne Hparse.
  assert (Hedge : Worker.handler parse req env w
                  = (inr (JsonReply 400
                            (JObj [("ok", JBool false); ("error", JStr "Missing input.")])), w)).
  { unfold Worker.handler; rewrite Hpath, Hmethod; cbn [String.eqb Ascii.eqb Bool.eqb andb negb].
    unfold bind at 1; rewrite (worker_readJson_malformed parse req w Hparse).
    unfold bind; cbn [optprop prop].
    rewrite (worker_blank_input_is_400 env None None None w Hkey eq_refl).
    reflexivity. }
  split; [|split; [exact Hedge|]].
  - rewrite Hedge.
    unfold Worker.handler; cbn [pathname method with_chunks].
    rewrite Hpath, Hmethod; cbn [String.eqb Ascii.eqb Bool.eqb andb negb].
    unfold bind at 1; rewrite worker_readJson_absent.
    unfold bind; cbn [optprop prop].
    rewrite (worker_blank_input_is_400 env None None None w Hkey eq_refl).
    reflexivity.
  - intros parse' big Hp Hm Hbig.
    unfold Server.handler, try_catch; rewrite Hp, Hm.
    cbn [String.eqb Ascii.eqb Bool.eqb andb negb]; cbv zeta.
    unfold bind at 1; rewrite (server_readJson_oversized parse' big w Hbig); reflexivity.
Qed.

(* ------------------------------------------------------------------ *)
(** ** The specification's examples, and the places where the two hosts part *)

(** A primary answer with [output_text = "Hello"] gives [ok: true] and
    the text [Hello] in both hosts. *)
Example output_text_hello :
  fst (Worker.callOpenAI with_key hello None None (provider [output_text "Hello"]))
  = inr (success "Hello" (Some "gpt-4.1"))
  /\ fst (Server.callOpenAI with_key hello None None (provider [output_text "Hello"]))
     = inr (success "Hello" None).
Proof. split; reflexivity. Qed.

(** A primary 404 and a secondary success with the content [Hi there]:
    the long-running process falls back and succeeds. *)
Example fallback_engaged :
  let w := provider [upstream_error 404 "Unknown endpoint"; chat_answer "Hi there"] in
  fst (Server.callOpenAI with_key hello None None w) = inr (success "Hi there" None)
  /\ secondary_attempted (Server.callOpenAI with_key hello None None) w = true.
Proof. split; reflexivity. Qed.

(** A primary 500 is surfaced with its message, the secondary protocol
    is not called. *)
Example primary_500_surfaced :
  let w := provider [upstream_error 500 "Upstream exploded"; chat_answer "Hi there"] in
  fst (Server.callOpenAI with_key hello None None w)
  = inr (failure 500 (str_value "Upstream exploded"))
  /\ secondary_attempted (Server.callOpenAI with_key hello None None) w = false.
Proof. split; reflexivity. Qed.

(** The telemetry of the specification inside the instruction. *)
Example line1_in_the_instruction :
  serialized_telemetry (Some line1_telemetry)
  = "{" ++ nl ++ "  " ++ dquote ++ "line1" ++ dquote ++ ": {" ++ nl
        ++ "    " ++ dquote ++ "oee" ++ dquote ++ ": 0.82" ++ nl
        ++ "  }" ++ nl ++ "}"
  /\ contains (serialized_telemetry (Some line1_telemetry))
              (systemPrompt (Some line1_telemetry))
  /\ contains "{}" (systemPrompt None)
  /\ contains "{}" (systemPrompt (Some (JNum "7"))).
Proof.
  split; [reflexivity|].
  split; [|split].
  - exists (persona ++ nl ++ nl ++ "Telemetry snapshot (JSON):" ++ nl), "".
    vm_compute; reflexivity.
  - exists (persona ++ nl ++ nl ++ "Telemetry snapshot (JSON):" ++ nl), "".
    vm_compute; reflexivity.
  - exists (persona ++ nl ++ nl ++ "Telemetry snapshot (JSON):" ++ nl), "".
    vm_compute; reflexivity.
Qed.

(** Elements that fail validation are dropped, the others are trimmed. *)
Example history_is_filtered :
  Worker.normalizeHistory
    (Some (JArr [turn_item "user" " hi "; JNull; turn_item "system" "x";
                 turn_item "assistant" "  "; JStr "s"; turn_item "assistant" "yo"]))
  = [{| role := "user"; content := "hi" |}; {| role := "assistant"; content := "yo" |}].
Proof. reflexivity. Qed.

(** Of 26 valid turns the last 24 are kept. *)
Example history_keeps_the_last_24 :
  let items := map (fun c => turn_item "user" c)
                   ["a"; "b"; "c"; "d"; "e"; "f"; "g"; "h"; "i"; "j"; "k"; "l"; "m";
                    "n"; "o"; "p"; "q"; "r"; "s"; "t"; "u"; "v"; "w"; "x"; "y"; "z"] in
  map content (Server.normalizeHistory (Some (JArr items)))
  = ["c"; "d"; "e"; "f"; "g"; "h"; "i"; "j"; "k"; "l"; "m";
     "n"; "o"; "p"; "q"; "r"; "s"; "t"; "u"; "v"; "w"; "x"; "y"; "z"].
Proof. vm_compute; reflexivity. Qed.

(** C1. With a credential configured and the input ["  "], the edge
    handler returns [400 "Missing input."] and sends nothing; the
    long-running process has no such check: it sends the transcript
    ["User: "] to the provider and returns what comes back. *)
Theorem blank_input_reaches_provider :
  let w := provider [output_text "Hello"] in
  Worker.callOpenAI with_key blank None None w
  = (inr (failure 400 (str_value "Missing input.")), w)
  /\ userInput blank = inr ""
  /\ fst (Server.callOpenAI with_key blank None None w) = inr (success "Hello" None)
  /\ calls (Server.callOpenAI with_key blank None None) w
     = [primary_request "sk-test" "gpt-4.1-mini" (systemPrompt None) "User: "].
Proof. cbv zeta; repeat split; vm_compute; reflexivity. Qed.




(** C3: four requests on which the two hosts do not return the same
    [ok], [status], [text] and [error]: a primary 404 (only the
    long-running process falls back), an [output_text] with surrounding
    spaces (only the edge handler trims it), a blank input (only the edge
    handler rejects it) and a missing credential (the error texts
    differ). *)
Lemma hosts_disagree_counterexample :
  (let w := provider [upstream_error 404 "Unknown endpoint"; chat_answer "Hi there"] in
   ~ same_result (fst (Worker.callOpenAI with_key hello None None w))
                 (fst (Server.callOpenAI with_key hello None None w)))
  /\ (let w := provider [output_text " Hello "] in
      ~ same_result (fst (Worker.callOpenAI with_key hello None None w))
                    (fst (Server.callOpenAI with_key hello None None w)))
  /\ (let w := provider [output_text "Hello"] in
      ~ same_result (fst (Worker.callOpenAI with_key blank None None w))
                    (fst (Server.callOpenAI with_key blank None None w)))
  /\ (let w := provider [] in
      ~ same_result (fst (Worker.callOpenAI without_key hello None None w))
                    (fst (Server.callOpenAI without_key hello None None w))).
Proof.
  cbv zeta; repeat split; vm_compute; intros [H1 [H2 [H3 H4]]]; discriminate.
Qed.

Lemma hosts_agree_without_fallback_witness :
  agree (fst (Worker.callOpenAI with_key hello None None (provider [output_text " Hello "])))
        (fst (Server.callOpenAI with_key hello None None (provider [output_text " Hello "]))).
Proof.
  apply (hosts_agree_without_fallback with_key hello None None
           (provider [output_text " Hello "]));
    [reflexivity | discriminate | reflexivity].
Defined.

Lemma secondary_iff_fallback_status_witness :
  secondary_attempted (Server.callOpenAI with_key hello None None)
    (provider [upstream_error 404 "Unknown endpoint"; chat_answer "Hi there"]) = true
  <-> exists p,
        fst (primary_attempt with_key None None "hello"
               (provider [upstream_error 404 "Unknown endpoint"; chat_answer "Hi there"]))
        = inr p
        /\ ok p = false /\ In (status p) [400; 404; 405; 415]%Z.
Proof.
  exact (proj1 (secondary_iff_fallback_status with_key hello None None "hello"
                  (provider [upstream_error 404 "Unknown endpoint"; chat_answer "Hi there"])
                  eq_refl eq_refl)).
Defined.

Lemma both_fail_composite_witness :
  exists msg,
    fst (Server.callOpenAI with_key hello None None
           (provider [upstream_error 404 "Unknown endpoint"; upstream_error 429 "Slow down"]))
    = inr {| ok := false; status := 429; text := None;
             error := Some (JStr msg); model := None |}
    /\ msg = "Responses API error: " ++ "Unknown endpoint" ++ nl
               ++ "Chat Completions error: " ++ "Slow down"
    /\ contains "Responses API error" msg /\ contains "Unknown endpoint" msg
    /\ contains "Chat Completions error" msg /\ contains "Slow down" msg.
Proof.
  apply (both_fail_composite with_key hello None None "hello"
           (provider [upstream_error 404 "Unknown endpoint"; upstream_error 429 "Slow down"])
           (failure 404 (str_value "Unknown endpoint"))
           (failure 429 (str_value "Slow down"))
           "Unknown endpoint" "Slow down");
    reflexivity.
Defined.

Lemma missing_credential_is_500_witness :
  Worker.callOpenAI without_key blank None None (provider [])
  = (inr (failure 500 (str_value "Missing OPENAI_API_KEY.")), provider [])
  /\ Server.callOpenAI without_key blank None None (provider [])
     = (inr (failure 500 (str_value "Missing OPENAI_API_KEY in environment.")), provider [])
  /\ calls (Worker.callOpenAI without_key blank None None) (provider []) = []
  /\ calls (Server.callOpenAI without_key blank None None) (provider []) = [].
Proof.
  apply (missing_credential_is_500 without_key blank None None (provider []));
    reflexivity.
Defined.

Lemma user_turn_is_capped_witness :
  let content := letters 3999 ++ " " in
  let w := provider [upstream_error 404 "Unknown endpoint"; chat_answer "Hi there"] in
  String.length content = 4000
  /\ calls (Worker.callOpenAI with_key padded_long_input None None) w
     = [primary_request "sk-test" "gpt-4.1" (systemPrompt None) ("User: " ++ content)]
  /\ calls (Server.callOpenAI with_key padded_long_input None None) w
     = [primary_request "sk-test" "gpt-4.1-mini" (systemPrompt None) ("User: " ++ content);
        secondary_request "sk-test" "gpt-4.1-mini"
          [{| role := "system"; content := systemPrompt None |};
           {| role := "user"; content := content |}]].
Proof.
  cbv zeta.
  pose proof (proj2 (user_turn_is_capped with_key padded_long_input None None
                       (provider [upstream_error 404 "Unknown endpoint";
                                  chat_answer "Hi there"]))
                eq_refl ("  " ++ cut_at_a_space ++ "  ") eq_refl)
    as [_ [Hedge [Hprocess _]]].
  split; [vm_compute; reflexivity|].
  split; [exact Hedge|].
  destruct Hprocess as [H|H]; [|exact H].
  vm_compute in H; discriminate H.
Defined.

(** C5: the content kept for a turn is not always a trimmed string. An
    element whose trimmed content is 3999 letters, a space and a letter
    is cut at 4000 characters, after the space: both copies of
    [normalizeHistory] keep a content of 4000 characters that ends in
    white space. *)
Lemma untrimmed_turn_counterexample :
  let history := Some (JArr [turn_item "user" cut_at_a_space]) in
  let kept := {| role := "user"; content := letters 3999 ++ " " |} in
  trim cut_at_a_space = cut_at_a_space
  /\ Worker.normalizeHistory history = [kept]
  /\ Server.normalizeHistory history = [kept]
  /\ String.length (content kept) = 4000
  /\ trim (content kept) = letters 3999
  /\ trim (content kept) <> content kept.
Proof.
  cbv zeta; repeat split; try (vm_compute; reflexivity).
  intros E.
  pose proof (f_equal String.length E) as L.
  vm_compute in L; discriminate L.
Qed.

(** C7: both attempts fail and no composite is returned. The primary
    answer is a 404 whose [error.message] is the object
    [{ "toString": 1 }], the secondary answer a 429: both requests are
    sent, and the template literal that builds the composite cannot
    print the primary error, so that the strategy throws a [TypeError]
    where the composite was due. *)
Lemma both_fail_counterexample :
  let w := provider [unprintable_error 404; upstream_error 429 "Slow down"] in
  let run := Server.callOpenAI with_key hello None None in
  fst (primary_attempt with_key None None "hello" w)
  = inr (failure 404 (Some (JObj [("toString", JNum "1")])))
  /\ fst (secondary_attempt with_key None None "hello"
            (snd (primary_attempt with_key None None "hello" w)))
     = inr (failure 429 (str_value "Slow down"))
  /\ secondary_attempted run w = true
  /\ length (calls run w) = 2
  /\ fst (run w) = inl (TypeError "Cannot convert object to primitive value").
Proof. cbv zeta; repeat split; vm_compute; reflexivity. Qed.

(** C6: in the long-running process a body that does not parse is not
    taken for an absent body, and the answer is not a JSON envelope: the
    reply is the plain text [500 Server error] and the provider is not
    called, where the same request without a body goes on to the
    provider. *)
Lemma malformed_body_counterexample :
  let w := provider [output_text "Hello"] in
  parse_stub "{oops" = None
  /\ Server.handler parse_stub (chat_post "{oops") with_key w
     = (inr (TextReply 500 "Server error"), w)
  /\ Server.handler parse_stub (chat_post "{oops") with_key w
     <> Server.handler parse_stub (with_chunks (chat_post "{oops") []) with_key w
  /\ fst (Server.handler parse_stub (with_chunks (chat_post "{oops") []) with_key w)
     = inr (JsonReply 200 (JObj [("ok", JBool true); ("text", JStr "Hello");
                                 ("model", JStr "gpt-4.1-mini")])).
Proof.
  cbv zeta; repeat split; try (vm_compute; reflexivity).
  vm_compute; discriminate.
Qed.

Lemma malformed_body_at_the_boundary_witness :
  Worker.handler parse_stub (chat_post "{oops") with_key (provider [])
  = Worker.handler parse_stub (with_chunks (chat_post "{oops") []) with_key (provider [])
  /\ Worker.handler parse_stub (chat_post "{oops") with_key (provider [])
     = (inr (JsonReply 400 (JObj [("ok", JBool false); ("error", JStr "Missing input.")])),
        provider []).
Proof.
  pose proof (malformed_body_at_the_boundary parse_stub (chat_post "{oops") with_key
                (provider []) eq_refl eq_refl eq_refl ltac:(discriminate)
                eq_refl) as H.
  split; [exact (proj1 H) | exact (proj1 (proj2 H))].
Defined.

(* ------------------------------------------------------------------ *)
(** ** The results of the strategy *)

Lemma worker_outcome (env : Env) (input history telemetry : Value) (w : World) :
  fst (Worker.callOpenAI env input history telemetry w)
  = if env_missing (OPENAI_API_KEY env)
    then inr (failure 500 (str_value "Missing OPENAI_API_KEY."))
    else match userInput input with
         | inr content =>
             if content =? ""
             then inr (failure 400 (str_value "Missing input."))
             else answer (read_primary trim (Some (worker_model env))) w
         | inl e => inl e
         end.
Proof.
  destruct (env_missing (OPENAI_API_KEY env)) eqn:Hkey.
  { unfold Worker.callOpenAI; rewrite Hkey; reflexivity. }
  destruct (userInput input) as [e|content] eqn:Hin.
  { unfold Worker.callOpenAI; rewrite Hkey, Hin; reflexivity. }
  destruct (String.eqb_spec content "") as [->|Hne].
  { rewrite (worker_blank_input_is_400 _ _ _ _ _ Hkey Hin); reflexivity. }
  rewrite (worker_callOpenAI_run _ _ _ _ _ _ Hkey Hin Hne); reflexivity.
Qed.

Lemma server_outcome (env : Env) (input history telemetry : Value) (w : World) :
  fst (Server.callOpenAI env input history telemetry w)
  = if env_missing (OPENAI_API_KEY env)
    then inr (failure 500 (str_value "Missing OPENAI_API_KEY in environment."))
    else match userInput input with
         | inr content =>
             match answer (read_primary (fun s => s) None) w with
             | inr p =>
                 if ok p || negb (Server.fallbackable (status p)) then inr p
                 else after_secondary p
                        (answer read_secondary
                           (advance
                              (primary_request (api_key env) (server_model env)
                                 (systemPrompt telemetry)
                                 (server_transcript
                                    (server_messages history telemetry content))) w))
             | inl e => inl e
             end
         | inl e => inl e
         end.
Proof.
  destruct (env_missing (OPENAI_API_KEY env)) eqn:Hkey.
  { unfold Server.callOpenAI; rewrite Hkey; reflexivity. }
  destruct (userInput input) as [e|content] eqn:Hin.
  { unfold Server.callOpenAI; rewrite Hkey, Hin; reflexivity. }
  rewrite (server_callOpenAI_outcome _ _ _ _ _ _ Hkey Hin); cbv zeta.
  destruct (answer _ w) as [e|p]; [reflexivity|].
  destruct (ok p || _); reflexivity.
Qed.

Lemma detail_some (data : Json) : exists e, detail data = Some e.
Proof.
  unfold detail.
  destruct (truthy (Some data) && (typeof (Some data) =? "object"));
    [|eexists; reflexivity].
  unfold or_else.
  destruct (optprop (prop data "error") "message") as [m|];
    [|eexists; reflexivity].
  destruct (truthy (Some m)); eexists; reflexivity.
Qed.

Lemma failure_well_formed (st : Z) (e : Json) :
  st <> 200%Z -> well_formed (failure st (Some e)).
Proof.
  intros Hst; unfold well_formed, failure; cbn [ok status text error].
  split; [split; [discriminate|intros; contradiction]|].
  split; [discriminate|].
  intros _; split; [reflexivity|eexists; reflexivity].
Qed.

Lemma success_well_formed (t : string) (m : option string) :
  trim t <> "" -> well_formed (success t m).
Proof.
  intros Ht; unfold well_formed, success; cbn [ok status text error].
  split; [split; reflexivity|].
  split; [|discriminate].
  intros _; exists t; split; [reflexivity|split; [exact Ht|reflexivity]].
Qed.

Lemma not_ok_status (r : Response) : resp_ok r = false -> resp_status r <> 200%Z.
Proof. unfold resp_ok; intros H E; rewrite E in H; discriminate. Qed.

Lemma upstream_failure_well_formed (r : Response) :
  resp_ok r = false ->
  well_formed (failure (resp_status r) (detail (response_data r))).
Proof.
  intros H; destruct (detail_some (response_data r)) as [e ->].
  apply failure_well_formed, not_ok_status, H.
Qed.

Lemma missing_text_well_formed : well_formed missing_text.
Proof. apply failure_well_formed; discriminate. Qed.

Lemma read_chunks_text_well_formed (m : option string) (data : Json) (p : Result) :
  read_chunks_text m data = inr p -> well_formed p /\ text_trimmed p.
Proof.
  unfold read_chunks_text.
  destruct (output_chunks data) as [e|chunks]; [discriminate|]; cbv zeta.
  destruct (trim (join nl chunks) =? "") eqn:E; intros H; injection H as <-.
  - split; [apply missing_text_well_formed|intros t Ht; discriminate].
  - apply eqb_false_neq in E; split.
    + apply success_well_formed; rewrite trim_idempotent; exact E.
    + intros t Ht; injection Ht as <-; apply trim_idempotent.
Qed.

Lemma read_primary_well_formed (keep : string -> string) (m : option string)
      (r : Response) (p : Result) :
  (forall s, trim s <> "" -> trim (keep s) <> "") ->
  read_primary keep m r = inr p -> well_formed p.
Proof.
  intros Hkeep; unfold read_primary; cbv zeta.
  destruct (resp_ok r) eqn:Hok; cbn [negb].
  2:{ intros H; injection H as <-; apply upstream_failure_well_formed, Hok. }
  assert (Hch : read_chunks_text m (response_data r) = inr p -> well_formed p)
    by (intros H; apply (read_chunks_text_well_formed _ _ _ H)).
  destruct (optprop (Some (response_data r)) "output_text") as [[| | | s | |]|];
    try exact Hch.
  destruct (trim s =? "") eqn:E; cbn [negb]; [exact Hch|].
  intros H; injection H as <-.
  apply success_well_formed, Hkeep, eqb_false_neq, E.
Qed.

Lemma read_primary_trimmed (m : option string) (r : Response) (p : Result) :
  read_primary trim m r = inr p -> text_trimmed p.
Proof.
  unfold read_primary; cbv zeta.
  destruct (negb (resp_ok r)).
  { intros H; injection H as <-; intros t Ht; discriminate. }
  assert (Hch : read_chunks_text m (response_data r) = inr p -> text_trimmed p)
    by (intros H; apply (read_chunks_text_well_formed _ _ _ H)).
  destruct (optprop (Some (response_data r)) "output_text") as [[| | | s | |]|];
    try exact Hch.
  destruct (negb (trim s =? "")); [|exact Hch].
  intros H; injection H as <-.
  intros t Ht; injection Ht as <-; apply trim_idempotent.
Qed.

Lemma read_secondary_well_formed (r : Response) (c : Result) :
  read_secondary r = inr c -> well_formed c.
Proof.
  unfold read_secondary; cbv zeta.
  destruct (resp_ok r) eqn:Hok; cbn [negb].
  2:{ intros H; injection H as <-; apply upstream_failure_well_formed, Hok. }
  destruct (optprop _ "content") as [[| | | s | |]|];
    try (intros H; injection H as <-; apply missing_text_well_formed).
  destruct (trim s =? "") eqn:E; intros H; injection H as <-.
  - apply missing_text_well_formed.
  - apply success_well_formed, eqb_false_neq, E.
Qed.

Lemma composite_well_formed (p c r : Result) :
  ok c = false -> well_formed c -> composite p c = inr r -> well_formed r.
Proof.
  intros Hok [Hst _]; unfold composite.
  destruct (String_ (error p)) as [e|a]; [discriminate|].
  destruct (String_ (error c)) as [e|b]; [discriminate|].
  intros H; injection H as <-.
  apply failure_well_formed.
  intros E; apply Hst in E; congruence.
Qed.

Lemma answer_inr {A} (read : Response -> Exn + A) (w : World) (a : A) :
  answer read w = inr a ->
  exists r rest, script w = Respond r :: rest /\ read r = inr a.
Proof.
  unfold answer; destruct (script w) as [|[r|] rest]; try discriminate.
  intros H; exists r, rest; split; [reflexivity|exact H].
Qed.

Lemma worker_result_well_formed (env : Env) (input history telemetry : Value)
      (w : World) (r : Result) :
  fst (Worker.callOpenAI env input history telemetry w) = inr r -> well_formed r.
Proof.
  intros H; rewrite worker_outcome in H.
  destruct (env_missing _).
  { injection H as <-; apply failure_well_formed; discriminate. }
  destruct (userInput input) as [e|content]; [discriminate|].
  destruct (content =? "").
  { injection H as <-; apply failure_well_formed; discriminate. }
  destruct (answer_inr _ _ _ H) as [rs [rest [_ Hr]]].
  apply (read_primary_well_formed trim (Some (worker_model env)) rs r); [|exact Hr].
  intros s Hs; rewrite trim_idempotent; exact Hs.
Qed.

Lemma server_result_well_formed (env : Env) (input history telemetry : Value)
      (w : World) (r : Result) :
  fst (Server.callOpenAI env input history telemetry w) = inr r -> well_formed r.
Proof.
  intros H; rewrite server_outcome in H.
  destruct (env_missing _).
  { injection H as <-; apply failure_well_formed; discriminate. }
  destruct (userInput input) as [e|content]; [discriminate|].
  destruct (answer (read_primary _ _) w) as [e|p] eqn:Hp; [discriminate|].
  destruct (answer_inr _ _ _ Hp) as [rs [rest [_ Hrs]]].
  assert (Hwp : well_formed p)
    by (apply (read_primary_well_formed (fun s => s) None rs p); auto).
  destruct (ok p || _).
  { injection H as <-; exact Hwp. }
  unfold after_secondary in H.
  destruct (answer read_secondary _) as [e|c] eqn:Hc; [discriminate|].
  destruct (answer_inr _ _ _ Hc) as [rc [rest' [_ Hrc]]].
  pose proof (read_secondary_well_formed rc c Hrc) as Hwc.
  destruct (ok c) eqn:Hok.
  { injection H as <-; exact Hwc. }
  apply (composite_well_formed p c r Hok Hwc H).
Qed.

(** X1. Whatever either strategy returns is well formed: [ok] is true
    exactly when the status is 200; an [ok] result carries a text that is
    not blank and no error; a failure carries an error and no text. *)
Theorem results_are_well_formed (env : Env) (input history telemetry : Value)
        (w : World) (r : Result) :
  fst (Worker.callOpenAI env input history telemetry w) = inr r
  \/ fst (Server.callOpenAI env input history telemetry w) = inr r ->
  well_formed r.
Proof.
  intros [H|H].
  - exact (worker_result_well_formed env input history telemetry w r H).
  - exact (server_result_well_formed env input history telemetry w r H).
Qed.

Lemma results_are_well_formed_witness :
  well_formed (failure 404 (str_value "Unknown endpoint")).
Proof.
  apply (results_are_well_formed with_key hello None None
           (provider [upstream_error 404 "Unknown endpoint"])).
  left; reflexivity.
Defined.

(** X2. The text the edge strategy returns has no white space around
    it, whether it comes from [output_text] or from the structured
    output. *)
Theorem worker_text_is_trimmed (env : Env) (input history telemetry : Value)
        (w : World) (r : Result) (t : string) :
  fst (Worker.callOpenAI env input history telemetry w) = inr r ->
  text r = Some t ->
  trim t = t /\ t <> "".
Proof.
  intros H Ht.
  pose proof (worker_result_well_formed env input history telemetry w r H) as Hwf.
  rewrite worker_outcome in H.
  assert (Htrim : trim t = t).
  { destruct (env_missing _).
    { injection H as <-; discriminate. }
    destruct (userInput input) as [e|content]; [discriminate|].
    destruct (content =? "").
    { injection H as <-; discriminate. }
    destruct (answer_inr _ _ _ H) as [rs [rest [_ Hr]]].
    apply (read_primary_trimmed _ rs r Hr t Ht). }
  split; [exact Htrim|].
  destruct Hwf as [_ [Hok Hfail]].
  destruct (ok r) eqn:E.
  - destruct (Hok eq_refl) as [t' [Ht' [Hne _]]].
    rewrite Ht in Ht'; injection Ht' as <-.
    intros ->; apply Hne; reflexivity.
  - destruct (Hfail eq_refl) as [Hnone _]; congruence.
Qed.

Lemma worker_text_is_trimmed_witness :
  trim "Hello" = "Hello" /\ "Hello" <> "".
Proof.
  apply (worker_text_is_trimmed with_key hello None None
           (provider [output_text " Hello "]) (success "Hello" (Some "gpt-4.1")));
    reflexivity.
Defined.

(* ------------------------------------------------------------------ *)
(** ** The requests of the strategy *)

(** X3. The edge strategy sends at most one request and the
    long-running process at most two; every request goes to one of the
    two endpoints of the provider with the configured credential as
    bearer token, the edge strategy never calls the secondary endpoint,
    and the first request of the long-running process is the primary
    one. *)
Theorem calls_are_bounded (env : Env) (input history telemetry : Value) (w : World) :
  let edge := Worker.callOpenAI env input history telemetry in
  let process := Server.callOpenAI env input history telemetry in
  length (calls edge w) <= 1
  /\ length (calls process w) <= 2
  /\ Forall (fun rq => authorization rq = "Bearer " ++ api_key env
                       /\ url rq = responses_url) (calls edge w)
  /\ Forall (fun rq => authorization rq = "Bearer " ++ api_key env
                       /\ (url rq = responses_url \/ url rq = chat_url))
            (calls process w)
  /\ secondary_attempted edge w = false
  /\ option_map url (hd_error (calls process w))
     = if Nat.eqb (length (calls process w)) 0 then None else Some responses_url.
Proof.
  cbv zeta.
  destruct (worker_calls env input history telemetry w) as [Ew|[cw [_ Ew]]];
    destruct (server_calls env input history telemetry w) as [Es|[cs [_ Es]]];
    try (cbv zeta in Es; destruct Es as [Es|Es]);
    unfold secondary_attempted; rewrite Ew, Es;
    cbn [length hd_error option_map Nat.eqb existsb];
    (split; [lia|]); (split; [lia|]);
    (split; [repeat constructor|]);
    (split; [repeat (constructor;
                     try (split; [reflexivity
                                 |first [left; reflexivity | right; reflexivity]]))|]);
    split; reflexivity.
Qed.

Lemma keep_non_system (turns : list Turn) :
  Forall turn_ok turns ->
  filter (fun m => negb (role m =? "system")) turns = turns.
Proof.
  induction 1 as [|t rest Ht _ IH]; [reflexivity|].
  cbn [filter]; rewrite IH.
  destruct Ht as [[E|E] _]; rewrite E; reflexivity.
Qed.

(** The two hosts render a conversation as the same transcript. *)
Lemma transcripts_agree (history telemetry : Value) (content : string) :
  server_transcript (server_messages history telemetry content)
  = worker_transcript history content.
Proof.
  unfold server_transcript, server_messages, worker_transcript.
  set (keep := fun t : Turn => negb (role t =? "system")).
  change (filter keep ({| role := "system"; content := systemPrompt telemetry |}
                         :: Server.normalizeHistory history
                         ++ [{| role := "user"; content := content |}])%list)
    with (filter keep (Server.normalizeHistory history
                         ++ [{| role := "user"; content := content |}])%list).
  rewrite filter_app, map_app.
  rewrite server_normalizeHistory_sanitized, worker_normalizeHistory_sanitized.
  unfold keep; rewrite (keep_non_system _ (sanitized_ok history)).
  reflexivity.
Qed.

Lemma server_first_call (env : Env) (input history telemetry : Value)
      (content : string) (w : World) :
  env_missing (OPENAI_API_KEY env) = false ->
  userInput input = inr content ->
  exists later,
    calls (Server.callOpenAI env input history telemetry) w
    = primary_request (api_key env) (server_model env) (systemPrompt telemetry)
        (server_transcript (server_messages history telemetry content)) :: later.
Proof.
  intros Hkey Hin.
  unfold calls.
  rewrite (server_callOpenAI_outcome _ _ _ _ _ _ Hkey Hin); cbv zeta.
  destruct (answer _ w) as [e|p]; [exists []; apply skipn_exact|].
  destruct (ok p || _); [exists []; apply skipn_exact|].
  eexists [_]; simpl; rewrite <- app_assoc; apply skipn_exact.
Qed.

(** X4. With a credential, an input that is not blank and the same
    model name, the first request of the long-running process is, field
    for field, the one request of the edge handler: same endpoint, same
    bearer token, same instructions, same transcript, same temperature
    and same cap. *)
Theorem hosts_send_the_same_primary_request (env : Env)
        (input history telemetry : Value) (content : string) (w : World) :
  env_missing (OPENAI_API_KEY env) = false ->
  userInput input = inr content ->
  content <> "" ->
  worker_model env = server_model env ->
  exists rq,
    calls (Worker.callOpenAI env input history telemetry) w = [rq]
    /\ hd_error (calls (Server.callOpenAI env input history telemetry) w) = Some rq
    /\ rq = primary_request (api_key env) (worker_model env) (systemPrompt telemetry)
              (worker_transcript history content).
Proof.
  intros Hkey Hin Hne Hmodel.
  eexists; split; [|split; [|reflexivity]].
  - apply calls_advance.
    rewrite (worker_callOpenAI_run _ _ _ _ _ _ Hkey Hin Hne); reflexivity.
  - destruct (server_first_call env input history telemetry content w Hkey Hin)
      as [later ->].
    rewrite transcripts_agree, <- Hmodel; reflexivity.
Qed.

Lemma hosts_send_the_same_primary_request_witness :
  exists rq,
    calls (Worker.callOpenAI with_model hello None None)
          (provider [output_text "Hello"]) = [rq]
    /\ hd_error (calls (Server.callOpenAI with_model hello None None)
                       (provider [output_text "Hello"])) = Some rq
    /\ rq = primary_request "sk-test" "gpt-4.1" (systemPrompt None) "User: hello".
Proof.
  apply (hosts_send_the_same_primary_request with_model hello None None "hello"
           (provider [output_text "Hello"]));
    [reflexivity | reflexivity | discriminate | reflexivity].
Defined.

(** X5. In the long-running process, when the primary answer is a
    failure with a status of the fallback set and the secondary answer
    reads as a success, the strategy returns that success (status 200,
    the text of the first choice as it is) after exactly two requests,
    the primary one then the secondary one. *)
Theorem fallback_returns_the_secondary_success (env : Env)
        (input history telemetry : Value) (content : string) (w : World)
        (r1 r2 : Response) (rest : list Outcome) (c : Result) :
  env_missing (OPENAI_API_KEY env) = false ->
  userInput input = inr content ->
  script w = Respond r1 :: Respond r2 :: rest ->
  resp_ok r1 = false ->
  In (resp_status r1) [400; 404; 405; 415]%Z ->
  read_secondary r2 = inr c ->
  ok c = true ->
  let run := Server.callOpenAI env input history telemetry in
  fst (run w) = inr c
  /\ status c = 200%Z
  /\ calls run w
     = [primary_request (api_key env) (server_model env) (systemPrompt telemetry)
          (server_transcript (server_messages history telemetry content));
        secondary_request (api_key env) (server_model env)
          (server_messages history telemetry content)]
  /\ script (snd (run w)) = rest.
Proof.
  intros Hkey Hin Hscript Hfail Hst Hc Hok run.
  pose proof (server_callOpenAI_outcome env input history telemetry content w Hkey Hin)
    as Hrun.
  cbv zeta in Hrun; fold run in Hrun.
  unfold answer in Hrun at 1; rewrite Hscript in Hrun.
  unfold read_primary in Hrun; cbv zeta in Hrun.
  rewrite Hfail in Hrun; cbn [negb ok status failure orb] in Hrun.
  apply fallbackable_spec in Hst; rewrite Hst in Hrun; cbn [negb] in Hrun.
  unfold answer, advance in Hrun; cbn [script] in Hrun.
  rewrite Hscript in Hrun; cbn [tl] in Hrun.
  rewrite Hc in Hrun; unfold after_secondary in Hrun; rewrite Hok in Hrun.
  split; [rewrite Hrun; reflexivity|].
  split.
  { pose proof (read_secondary_well_formed r2 c Hc) as [Hiff _].
    apply Hiff; exact Hok. }
  split.
  - apply calls_advance2.
    rewrite Hrun; cbn [snd]; unfold advance; cbn [script sent].
    rewrite Hscript; reflexivity.
  - rewrite Hrun; reflexivity.
Qed.

Lemma fallback_returns_the_secondary_success_witness :
  fst (Server.callOpenAI with_key hello None None
         (provider [upstream_error 404 "Unknown endpoint"; chat_answer "Hi there"]))
  = inr (success "Hi there" None).
Proof.
  apply (fallback_returns_the_secondary_success with_key hello None None "hello"
           (provider [upstream_error 404 "Unknown endpoint"; chat_answer "Hi there"])
           (upstream_error 404 "Unknown endpoint") (chat_answer "Hi there") []
           (success "Hi there" None));
    try reflexivity.
  right; left; reflexivity.
Defined.

(* ------------------------------------------------------------------ *)
(** ** Reading the primary answer *)

(** X6. A primary answer with status 2xx whose [output_text] is a string
    that is not blank is a success whatever else the answer holds: the
    structured [output] is not looked at, even when iterating it would
    throw. The edge strategy returns the text trimmed, the long-running
    process as it is. *)
Theorem output_text_wins (env : Env) (input history telemetry : Value)
        (content : string) (w : World) (r : Response) (rest : list Outcome)
        (s : string) :
  env_missing (OPENAI_API_KEY env) = false ->
  userInput input = inr content ->
  content <> "" ->
  script w = Respond r :: rest ->
  resp_ok r = true ->
  optprop (Some (response_data r)) "output_text" = Some (JStr s) ->
  trim s <> "" ->
  fst (Worker.callOpenAI env input history telemetry w)
  = inr (success (trim s) (Some (worker_model env)))
  /\ fst (Server.callOpenAI env input history telemetry w) = inr (success s None).
Proof.
  intros Hkey Hin Hne Hscript Hok Hout Hs.
  apply eqb_false_neq in Hs.
  split.
  - rewrite (worker_callOpenAI_run _ _ _ _ _ _ Hkey Hin Hne); cbn [fst].
    unfold answer, read_primary; cbv zeta.
    rewrite Hscript, Hok, Hout, Hs; reflexivity.
  - rewrite (server_callOpenAI_outcome _ _ _ _ _ _ Hkey Hin); cbv zeta.
    unfold answer at 1, read_primary; cbv zeta.
    rewrite Hscript, Hok, Hout, Hs; reflexivity.
Qed.

Lemma output_text_wins_witness :
  fst (Worker.callOpenAI with_key hello None None (provider [text_and_broken_output]))
  = inr (success "Hello" (Some "gpt-4.1"))
  /\ fst (Server.callOpenAI with_key hello None None (provider [text_and_broken_output]))
     = inr (success "Hello" None).
Proof.
  apply (output_text_wins with_key hello None None "hello"
           (provider [text_and_broken_output]) text_and_broken_output [] "Hello");
    try reflexivity; discriminate.
Defined.

(** X7. A primary answer with status 2xx, no usable [output_text] and an
    [output] that is truthy but cannot be iterated (an object, a number,
    [true]) makes both strategies throw, after their single request:
    neither returns a result. *)
Theorem broken_output_throws (env : Env) (input history telemetry : Value)
        (content : string) (w : World) (r : Response) (rest : list Outcome)
        (out : Json) (e : Exn) :
  env_missing (OPENAI_API_KEY env) = false ->
  userInput input = inr content ->
  content <> "" ->
  script w = Respond r :: rest ->
  resp_ok r = true ->
  (forall s, optprop (Some (response_data r)) "output_text" = Some (JStr s) ->
             trim s = "") ->
  optprop (Some (response_data r)) "output" = Some out ->
  truthy (Some out) = true ->
  iterate (Some out) = inl e ->
  fst (Worker.callOpenAI env input history telemetry w) = inl e
  /\ fst (Server.callOpenAI env input history telemetry w) = inl e
  /\ length (calls (Worker.callOpenAI env input history telemetry) w) = 1
  /\ length (calls (Server.callOpenAI env input history telemetry) w) = 1.
Proof.
  intros Hkey Hin Hne Hscript Hok Hblank Hout Htruthy Hiter.
  assert (Hchunks : forall m, read_chunks_text m (response_data r) = inl e).
  { intros m; unfold read_chunks_text, output_chunks, or_else.
    rewrite Hout, Htruthy, Hiter; reflexivity. }
  assert (Hread : forall keep m, read_primary keep m r = inl e).
  { intros keep m; unfold read_primary; cbv zeta; rewrite Hok; cbn [negb].
    destruct (optprop (Some (response_data r)) "output_text")
      as [[| | | s | |]|] eqn:E; try apply Hchunks.
    rewrite (Hblank s eq_refl); apply Hchunks. }
  pose proof (worker_callOpenAI_run env input history telemetry content w Hkey Hin Hne)
    as Hw.
  pose proof (server_callOpenAI_outcome env input history telemetry content w Hkey Hin)
    as Hs.
  cbv zeta in Hs; unfold answer in Hw, Hs.
  rewrite Hscript in Hw, Hs.
  rewrite Hread in Hw; rewrite Hread in Hs.
  split; [rewrite Hw; reflexivity|].
  split; [rewrite Hs; reflexivity|].
  split.
  - rewrite (calls_advance _ w _ (f_equal snd Hw)); reflexivity.
  - rewrite (calls_advance _ w _ (f_equal snd Hs)); reflexivity.
Qed.

Lemma broken_output_throws_witness :
  fst (Worker.callOpenAI with_key hello None None (provider [broken_output]))
  = inl (TypeError "value is not iterable")
  /\ fst (Server.callOpenAI with_key hello None None (provider [broken_output]))
     = inl (TypeError "value is not iterable").
Proof.
  pose proof (broken_output_throws with_key hello None None "hello"
                (provider [broken_output]) broken_output [] (JBool true)
                (TypeError "value is not iterable")
                eq_refl eq_refl ltac:(discriminate) eq_refl eq_refl
                ltac:(intros s H; discriminate H) eq_refl eq_refl eq_refl) as H.
  split; [exact (proj1 H) | exact (proj1 (proj2 H))].
Defined.

Lemma push_parts_texts (parts : list Json) (chunks : list string) :
  push_parts parts chunks = (chunks ++ flat_map part_text parts)%list.
Proof.
  revert chunks; induction parts as [|part rest IH]; intros chunks.
  - cbn [push_parts flat_map]; rewrite app_nil_r; reflexivity.
  - cbn [push_parts flat_map]; unfold part_text at 1.
    destruct (strict_eq_str (optprop (Some part) "type") "output_text").
    + destruct (prop part "text") as [[| | | t | |]|]; rewrite IH;
        try reflexivity.
      rewrite <- app_assoc; reflexivity.
    + rewrite IH; reflexivity.
Qed.

Lemma push_items_texts (items : list Json) (chunks : list string) :
  Forall (fun item => exists parts, item_parts item = inr parts) items ->
  push_items items chunks = inr (chunks ++ items_texts items)%list.
Proof.
  intros H; revert chunks; induction H as [|item rest [parts Hp] _ IH]; intros chunks.
  - cbn [push_items items_texts]; rewrite app_nil_r; reflexivity.
  - cbn [push_items items_texts]; unfold item_parts in Hp; rewrite Hp.
    fold (item_parts item); unfold item_parts; rewrite Hp.
    rewrite IH, push_parts_texts, <- app_assoc; reflexivity.
Qed.

(** X8. When the [output] of a primary answer is an array whose items
    have a content that can be iterated (an array, a string, or nothing),
    the chunks collected are the [text] strings of the parts typed
    [output_text], every one of them and no other, in document order:
    item after item and, within an item, part after part. *)
Theorem structured_output_in_order (data : Json) (items : list Json) :
  optprop (Some data) "output" = Some (JArr items) ->
  Forall (fun item => exists parts, item_parts item = inr parts) items ->
  output_chunks data = inr (items_texts items).
Proof.
  intros Hout Hitems.
  unfold output_chunks, or_else; rewrite Hout; cbn [truthy iterate].
  apply (push_items_texts items [] Hitems).
Qed.

Lemma structured_output_in_order_witness :
  output_chunks (response_data (structured "Hello" "world")) = inr ["Hello"; "world"].
Proof.
  apply (structured_output_in_order
           (response_data (structured "Hello" "world"))
           [JObj [("content",
                   JArr [JObj [("type", JStr "output_text"); ("text", JStr "Hello")];
                         JObj [("type", JStr "reasoning"); ("text", JStr "skip")];
                         JObj [("type", JStr "output_text"); ("text", JStr "world")]])]]).
  - reflexivity.
  - constructor; [eexists; reflexivity | constructor].
Defined.

(* ------------------------------------------------------------------ *)
(** ** Routing at the boundary *)

Lemma object_literal_is_object (fields : list (string * Value)) :
  exists props, object_literal fields = JObj props.
Proof.
  induction fields as [|[k [v|]] rest [props IH]]; cbn [object_literal].
  - exists []; reflexivity.
  - rewrite IH; eexists; reflexivity.
  - exists props; exact IH.
Qed.

Lemma says_ok_literal (b : bool) (rest : list (string * Value)) :
  says_ok (object_literal (("ok", Some (JBool b)) :: rest)) = b.
Proof.
  cbn [object_literal].
  destruct (object_literal_is_object rest) as [props ->].
  reflexivity.
Qed.

(** Reading the body at the edge never fails and touches nothing. *)
Lemma worker_body (parse : string -> option Json) (req : HttpRequest) (w : World) :
  exists b, catch_value (Worker.readJson parse req) JNull w = (inr b, w).
Proof.
  unfold catch_value, try_catch, Worker.readJson.
  destruct (trim _ =? ""); [exists JNull; reflexivity|].
  destruct (parse _) as [v|]; [exists v|exists JNull]; reflexivity.
Qed.

Lemma is_chat_post_true (req : HttpRequest) :
  is_chat_post req = true ->
  pathname req = "/api/chat" /\ method req = "POST".
Proof.
  unfold is_chat_post; intros H; apply andb_true_iff in H as [H1 H2].
  apply String.eqb_eq in H1, H2; split; assumption.
Qed.

(** The chat route at the edge, once the body is read. *)
(** The chat route at the edge, once the body is read. *)
Lemma worker_handler_chat (parse : string -> option Json) (req : HttpRequest)
      (env : Env) (w : World) :
  is_chat_post req = true ->
  exists b,
    catch_value (Worker.readJson parse req) JNull w = (inr b, w)
    /\ Worker.handler parse req env w
       = match Worker.callOpenAI env (optprop (Some b) "input")
                 (optprop (Some b) "history") (optprop (Some b) "telemetry") w with
         | (inr r, w') =>
             (if negb (ok r)
              then Worker.json (error_envelope (error r)) (status r)
              else Worker.json
                     (object_literal [ ("ok", Some (JBool true));
                                       ("text", opt_str_value (text r));
                                       ("model", opt_str_value (model r)) ]) 200) w'
         | (inl e, w') => (inl e, w')
         end.
Proof.
  intros H; destruct (is_chat_post_true req H) as [Hp Hm].
  destruct (worker_body parse req w) as [b Hb].
  exists b; split; [exact Hb|].
  unfold Worker.handler; rewrite Hp, Hm.
  cbn [String.eqb Ascii.eqb Bool.eqb andb negb].
  unfold bind at 1; rewrite Hb.
  unfold bind.
  destruct (Worker.callOpenAI _ _ _ _ w) as [[e|r] w']; reflexivity.
Qed.

(** [json] answers with the status and the body it is given, or throws. *)
Lemma worker_json_reply (data : Json) (st : Z) (w : World) (reply : Reply) :
  fst (Worker.json data st w) = inr reply ->
  Worker.json data st w = (inr (JsonReply st data), w) /\ reply = JsonReply st data.
Proof.
  unfold Worker.json.
  destruct ((st <? 200) || (599 <? st))%Z; [discriminate|].
  destruct (existsb (Z.eqb st) [204; 205; 304]%Z); [discriminate|].
  intros H; injection H as <-; split; reflexivity.
Qed.

Lemma server_sendJson_reply (st : Z) (data : Json) (w : World) :
  Server.sendJson st data w = (inr (JsonReply st data), w)
  \/ exists e, Server.sendJson st data w = (inl e, w).
Proof.
  unfold Server.sendJson.
  destruct ((st <? 100) || (999 <? st))%Z; [right; eexists|left]; reflexivity.
Qed.

(** The chat route of the long-running process, whatever the body. *)
Lemma server_handler_chat (parse : string -> option Json) (req : HttpRequest)
      (env : Env) (w : World) :
  is_chat_post req = true ->
  Server.handler parse req env w
  = match Server.readJson parse req w with
    | (inr b, w0) =>
        match Server.callOpenAI env (optprop (Some b) "input")
                (optprop (Some b) "history") (optprop (Some b) "telemetry") w0 with
        | (inr r, w') =>
            match (if negb (ok r)
                   then Server.sendJson (status r) (error_envelope (error r))
                   else Server.sendJson 200
                          (object_literal [ ("ok", Some (JBool true));
                                            ("text", opt_str_value (text r));
                                            ("model", str_value (server_model env)) ]))
                    w' with
            | (inr reply, w'') => (inr reply, w'')
            | (inl _, w'') => (inr (TextReply 500 "Server error"), w'')
            end
        | (inl _, w') => (inr (TextReply 500 "Server error"), w')
        end
    | (inl _, w0) => (inr (TextReply 500 "Server error"), w0)
    end.
Proof.
  intros H; destruct (is_chat_post_true req H) as [Hp Hm].
  unfold Server.handler, try_catch; rewrite Hp, Hm.
  cbn [String.eqb Ascii.eqb Bool.eqb andb negb]; cbv zeta.
  unfold bind at 1.
  destruct (Server.readJson parse req w) as [[e|b] w0]; [reflexivity|].
  unfold bind.
  destruct (Server.callOpenAI _ _ _ _ w0) as [[e|r] w']; reflexivity.
Qed.

(** X9. Only a [POST /api/chat] can reach the provider. On every other
    request the edge handler answers, without throwing and without any
    call to the provider. The long-running process sends nothing to the
    provider either, but does not always answer: it answers the plain
    text [500 Server error] when the URL of the request does not parse;
    a [GET] or a [HEAD] outside the two API routes goes to the static
    file server, which throws a [URIError] that nothing catches when
    the path does not decode ([/] read as [/index.html]) and looks the
    decoded path up otherwise; every other request it answers
    itself. *)
Theorem only_chat_post_reaches_provider (parse : string -> option Json)
        (url : string -> string -> option string)
        (decode : string -> option string)
        (req : HttpRequest) (raw : Server.IncomingMessage) (env : Env) (w : World) :
  (is_chat_post req = false ->
   exists reply,
     Worker.handler parse req env w = (inr reply, w)
     /\ (forall p, reply <> Static p) /\ (forall d, reply <> FileLookup d))
  /\ match Server.parsed_pathname url raw with
     | None =>
         Server.callback parse url decode raw env w
         = (inr (TextReply 500 "Server error"), w)
     | Some path =>
         is_chat_post (Server.routed raw path) = false ->
         if ((Server.im_method raw =? "GET") || (Server.im_method raw =? "HEAD"))
            && negb (path =? "/api/health") && negb (path =? "/api/chat")
         then
           Server.callback parse url decode raw env w
           = (match decode (if path =? "/" then "/index.html" else path) with
              | Some decoded => inr (FileLookup decoded)
              | None => inl URIError
              end, w)
         else
           exists reply,
             Server.callback parse url decode raw env w = (inr reply, w)
             /\ (forall p, reply <> Static p) /\ (forall d, reply <> FileLookup d)
     end.
Proof.
  split.
  - unfold is_chat_post, Worker.handler; intros H.
    destruct ((method req =? "OPTIONS") && String.prefix "/api/" (pathname req)).
    { eexists; split; [reflexivity|split; discriminate]. }
    destruct (pathname req =? "/api/health").
    { eexists; split; [reflexivity|split; discriminate]. }
    destruct (pathname req =? "/api/chat"); cbn [andb] in H.
    { rewrite H; cbn [negb]; eexists; split; [reflexivity|split; discriminate]. }
    eexists; split; [reflexivity|split; discriminate].
  - unfold Server.callback.
    destruct (Server.parsed_pathname url raw) as [path|]; [|reflexivity].
    unfold is_chat_post, Server.handler, try_catch, Server.routed, bind;
      cbn [method pathname]; cbv zeta; intros H.
    destruct (String.eqb_spec (Server.im_method raw) "OPTIONS") as [Ho|Ho].
    { rewrite Ho; cbn [String.eqb Ascii.eqb Bool.eqb orb andb].
      destruct (String.prefix "/api/" path);
        [eexists; split; [reflexivity|split; discriminate]|].
      destruct (path =? "/api/health");
        [eexists; split; [reflexivity|split; discriminate]|].
      destruct (path =? "/api/chat");
        eexists; (split; [reflexivity|split; discriminate]). }
    cbn [andb].
    destruct (path =? "/api/health").
    { rewrite andb_false_r; cbn [andb].
      eexists; split; [reflexivity|split; discriminate]. }
    destruct (path =? "/api/chat"); cbn [andb] in H.
    { rewrite H, andb_false_r; cbn [negb].
      eexists; split; [reflexivity|split; discriminate]. }
    cbn [negb]; rewrite !andb_true_r.
    destruct (Server.im_method raw =? "GET"); cbn [negb andb orb].
    { unfold Server.serveStatic, ret, throw; cbv beta iota; destruct (decode _); reflexivity. }
    destruct (Server.im_method raw =? "HEAD"); cbn [negb].
    { unfold Server.serveStatic, ret, throw; cbv beta iota; destruct (decode _); reflexivity. }
    eexists; split; [reflexivity|split; discriminate].
Qed.

(** X10. For a request whose URL parses to [/api/health], outside a
    preflight, both hosts answer 200 under every method, and [hasKey] is
    true exactly when the credential is set to something that is not
    empty; when it is false, every chat request is answered by the
    configuration error 500 without any call to the provider. *)
Theorem health_reports_the_credential (parse : string -> option Json)
        (url : string -> string -> option string)
        (decode : string -> option string)
        (req : HttpRequest) (raw : Server.IncomingMessage) (env : Env) (w : World) :
  pathname req = "/api/health" ->
  method req <> "OPTIONS" ->
  Server.parsed_pathname url raw = Some "/api/health" ->
  Server.im_method raw <> "OPTIONS" ->
  exists edge process,
    Worker.handler parse req env w = (inr (JsonReply 200 edge), w)
    /\ Server.callback parse url decode raw env w = (inr (JsonReply 200 process), w)
    /\ prop edge "hasKey" = Some (JBool (negb (env_missing (OPENAI_API_KEY env))))
    /\ prop process "hasKey" = Some (JBool (negb (env_missing (OPENAI_API_KEY env))))
    /\ prop edge "model" = Some (JStr (worker_model env))
    /\ prop process "model" = Some (JStr (server_model env))
    /\ (prop edge "hasKey" = Some (JBool false) ->
        forall input history telemetry w',
          Worker.callOpenAI env input history telemetry w'
          = (inr (failure 500 (str_value "Missing OPENAI_API_KEY.")), w')
          /\ Server.callOpenAI env input history telemetry w'
             = (inr (failure 500 (str_value "Missing OPENAI_API_KEY in environment.")), w')).
Proof.
  intros Hp Hm Hurl Hrm.
  apply String.eqb_neq in Hm, Hrm.
  exists (health (worker_model env) (OPENAI_API_KEY env)),
         (health (server_model env) (OPENAI_API_KEY env)).
  split; [|split].
  - unfold Worker.handler; rewrite Hp, Hm; reflexivity.
  - unfold Server.callback; rewrite Hurl.
    unfold bind, Server.handler, try_catch, Server.routed; cbn [method pathname].
    rewrite Hrm; reflexivity.
  - split; [reflexivity|].
    split; [reflexivity|].
    split; [reflexivity|].
    split; [reflexivity|].
    change (prop (health (worker_model env) (OPENAI_API_KEY env)) "hasKey")
      with (Some (JBool (negb (env_missing (OPENAI_API_KEY env))))).
    intros E; injection E as E.
    apply negb_false_iff in E.
    intros input history telemetry w'; split.
    + unfold Worker.callOpenAI; rewrite E; reflexivity.
    + unfold Server.callOpenAI; rewrite E; reflexivity.
Qed.

Lemma health_reports_the_credential_witness :
  exists edge process,
    Worker.handler parse_stub {| method := "GET"; pathname := "/api/health"; chunks := [] |}
      without_key (provider []) = (inr (JsonReply 200 edge), provider [])
    /\ Server.callback parse_stub url_stub decode_stub
         (incoming "GET" (Some "/api/health") None)
         without_key (provider []) = (inr (JsonReply 200 process), provider [])
    /\ prop edge "hasKey" = Some (JBool false)
    /\ prop process "hasKey" = Some (JBool false).
Proof.
  destruct (health_reports_the_credential parse_stub url_stub decode_stub
              {| method := "GET"; pathname := "/api/health"; chunks := [] |}
              (incoming "GET" (Some "/api/health") None)
              without_key (provider []) eq_refl ltac:(discriminate)
              eq_refl ltac:(discriminate))
    as [edge [process [H1 [H2 [H3 [H4 _]]]]]].
  exists edge, process; repeat split; assumption.
Defined.

(** X11. For a request whose URL parses, an [OPTIONS] on a path under
    [/api/] is answered 204 with no body by both hosts before any route
    is looked at, the chat and health routes included; and [/api/chat]
    under any other method than [POST] is answered by the JSON envelope
    [405 { ok: false, error: "Method not allowed (use POST)." }]. *)
Theorem preflight_and_method_guard (parse : string -> option Json)
        (url : string -> string -> option string)
        (decode : string -> option string)
        (req : HttpRequest) (raw : Server.IncomingMessage) (path : string)
        (env : Env) (w : World) :
  Server.parsed_pathname url raw = Some path ->
  let refusal :=
    JsonReply 405 (JObj [("ok", JBool false);
                         ("error", JStr "Method not allowed (use POST).")]) in
  (is_preflight req = true ->
   Worker.handler parse req env w = (inr (EmptyReply 204), w))
  /\ (is_preflight (Server.routed raw path) = true ->
      Server.callback parse url decode raw env w = (inr (EmptyReply 204), w))
  /\ (is_preflight req = false -> pathname req = "/api/chat" -> method req <> "POST" ->
      Worker.handler parse req env w = (inr refusal, w))
  /\ (is_preflight (Server.routed raw path) = false -> path = "/api/chat" ->
      Server.im_method raw <> "POST" ->
      Server.callback parse url decode raw env w = (inr refusal, w)).
Proof.
  intros Hurl refusal; unfold is_preflight, Server.callback; rewrite Hurl.
  split; [|split; [|split]].
  - intros H; unfold Worker.handler; rewrite H; reflexivity.
  - intros H; unfold bind, Server.handler, try_catch; rewrite H; reflexivity.
  - intros H Hp Hm; apply String.eqb_neq in Hm.
    unfold Worker.handler; rewrite H, Hp, Hm; reflexivity.
  - intros H Hp Hm; apply String.eqb_neq in Hm; subst path.
    unfold bind, Server.handler, try_catch; rewrite H.
    unfold Server.routed; cbn [method pathname]; rewrite Hm; reflexivity.
Qed.

Lemma preflight_and_method_guard_witness :
  Server.callback parse_stub url_stub decode_stub
    (incoming "OPTIONS" (Some "/api/chat") None)
    with_key (provider []) = (inr (EmptyReply 204), provider [])
  /\ Server.callback parse_stub url_stub decode_stub
       (incoming "GET" (Some "/api/chat") None)
       with_key (provider [])
     = (inr (JsonReply 405 (JObj [("ok", JBool false);
                                  ("error", JStr "Method not allowed (use POST).")])),
        provider []).
Proof.
  split.
  - apply (preflight_and_method_guard parse_stub url_stub decode_stub (chat_post "")
             (incoming "OPTIONS" (Some "/api/chat") None) "/api/chat"
             with_key (provider []) eq_refl); reflexivity.
  - apply (preflight_and_method_guard parse_stub url_stub decode_stub (chat_post "")
             (incoming "GET" (Some "/api/chat") None) "/api/chat"
             with_key (provider []) eq_refl); [reflexivity|reflexivity|discriminate].
Defined.

(** X12. A path that is neither [/api/health] nor [/api/chat], outside a
    preflight: the edge handler answers the JSON envelope
    [404 { ok: false, error: "Not found" }] under every method; the
    long-running process, for a request whose URL parses to such a
    path, never does: it answers the plain text
    [405 Method not allowed] unless the method is [GET] or [HEAD], and
    leaves those to the static file server, which throws a [URIError]
    that nothing catches when the path does not decode and looks the
    decoded path up otherwise. *)
Theorem unknown_paths (parse : string -> option Json)
        (url : string -> string -> option string)
        (decode : string -> option string)
        (req : HttpRequest) (raw : Server.IncomingMessage) (path : string)
        (env : Env) (w : World) :
  is_preflight req = false ->
  pathname req <> "/api/health" ->
  pathname req <> "/api/chat" ->
  Server.parsed_pathname url raw = Some path ->
  is_preflight (Server.routed raw path) = false ->
  path <> "/api/health" ->
  path <> "/api/chat" ->
  Worker.handler parse req env w
  = (inr (JsonReply 404 (JObj [("ok", JBool false); ("error", JStr "Not found")])), w)
  /\ Server.callback parse url decode raw env w
     = (if (Server.im_method raw =? "GET") || (Server.im_method raw =? "HEAD")
        then match decode (if path =? "/" then "/index.html" else path) with
             | Some decoded => inr (FileLookup decoded)
             | None => inl URIError
             end
        else inr (TextReply 405 "Method not allowed"), w).
Proof.
  unfold is_preflight; intros H Hh Hc Hurl Hs Hsh Hsc.
  apply String.eqb_neq in Hh, Hc, Hsh, Hsc.
  split.
  - unfold Worker.handler; rewrite H, Hh, Hc; reflexivity.
  - unfold Server.callback; rewrite Hurl.
    unfold bind, Server.handler, try_catch; rewrite Hs.
    unfold Server.routed; cbn [method pathname]; rewrite Hsh, Hsc.
    destruct (Server.im_method raw =? "GET"), (Server.im_method raw =? "HEAD");
      cbn [negb andb orb]; try reflexivity;
      unfold Server.serveStatic, ret, throw; cbv beta iota; destruct (decode _); reflexivity.
Qed.

Lemma unknown_paths_witness :
  Worker.handler parse_stub {| method := "GET"; pathname := "/%E0%A4%A"; chunks := [] |}
    with_key (provider [])
  = (inr (JsonReply 404 (JObj [("ok", JBool false); ("error", JStr "Not found")])),
     provider [])
  /\ Server.callback parse_stub url_stub decode_stub
       (incoming "GET" (Some "/%E0%A4%A") None) with_key (provider [])
     = (inl URIError, provider []).
Proof.
  apply (unknown_paths parse_stub url_stub decode_stub
           {| method := "GET"; pathname := "/%E0%A4%A"; chunks := [] |}
           (incoming "GET" (Some "/%E0%A4%A") None) "/%E0%A4%A"
           with_key (provider []));
    try reflexivity; discriminate.
Defined.

Lemma byteLength_app (a b : string) :
  Server.byteLength (a ++ b) = (Server.byteLength a + Server.byteLength b)%N.
Proof.
  induction a as [|c a IH]; cbn [append Server.byteLength]; [reflexivity|].
  rewrite IH; lia.
Qed.

Lemma concat_bytes (cs : list string) (n : N) :
  fold_left (fun n c => (n + Server.byteLength c)%N) cs n
  = (n + Server.byteLength (String.concat "" cs))%N.
Proof.
  revert n; induction cs as [|c rest IH]; intros n.
  - cbn [fold_left String.concat Server.byteLength]; lia.
  - cbn [fold_left]; rewrite IH.
    destruct rest as [|c' rest'].
    + cbn [String.concat Server.byteLength]; lia.
    + change (String.concat "" (c :: c' :: rest'))
        with (c ++ String.concat "" (c' :: rest')).
      rewrite byteLength_app; lia.
Qed.

Lemma body_size_bytes (req : HttpRequest) :
  body_size req = Server.byteLength (body_text req).
Proof. unfold body_size, body_text; rewrite concat_bytes; lia. Qed.

Lemma server_readJson_run (parse : string -> option Json)
      (req : HttpRequest) (w : World) :
  Server.readJson parse req w
  = (if (1000000 <? Server.byteLength (body_text req))%N
     then inl (Error "Request too large")
     else if trim (body_text req) =? "" then inr JNull
          else match parse (trim (body_text req)) with
               | Some v => inr v
               | None => inl SyntaxError
               end,
     w).
Proof.
  unfold Server.readJson, bind.
  rewrite lift_run, read_chunks_limit by lia.
  fold (body_size req); rewrite body_size_bytes.
  destruct (1000000 <? _)%N; [reflexivity|].
  cbn [app]; fold (body_text req).
  destruct (trim (body_text req) =? ""); [reflexivity|].
  destruct (parse _); reflexivity.
Qed.

(** X13. [readJson] of the long-running process depends on the text of
    the body only, however it is cut in chunks: a body whose UTF-8
    encoding has more than 1,000,000 bytes (one byte for a code unit
    below 128, two from 128 to 255) is rejected with
    [Request too large] and never parsed; any other body gives [null]
    when it is blank, and otherwise what parsing its trimmed text gives.
    A body of exactly 1,000,000 bytes is accepted. *)
Theorem server_readJson_by_text (parse : string -> option Json)
        (req : HttpRequest) (w : World) :
  Server.readJson parse req w
  = (if (1000000 <? Server.byteLength (body_text req))%N
     then inl (Error "Request too large")
     else if trim (body_text req) =? "" then inr JNull
          else match parse (trim (body_text req)) with
               | Some v => inr v
               | None => inl SyntaxError
               end,
     w)
  /\ (String.length (body_text req) <= N.to_nat (Server.byteLength (body_text req))
      <= 2 * String.length (body_text req))%nat.
Proof.
  split.
  - unfold Server.readJson, bind.
    rewrite lift_run, read_chunks_limit by lia.
    fold (body_size req); rewrite body_size_bytes.
    destruct (1000000 <? _)%N; [reflexivity|].
    cbn [app]; fold (body_text req).
    destruct (trim (body_text req) =? ""); [reflexivity|].
    destruct (parse _); reflexivity.
  - induction (body_text req) as [|c r IH]; cbn [Server.byteLength String.length];
      [cbn; lia|].
    destruct (N_of_ascii c <? 128)%N; lia.
Qed.

(** X14. On a [POST /api/chat] whose body parses, when the strategy
    throws (the transport fails, or the answer of the provider cannot be
    read), the edge handler does not catch it: the exception leaves the
    handler. The long-running process answers the plain text
    [500 Server error]: it catches the exception of the strategy, or has
    already rejected a body of more than 1,000,000 bytes without
    running the strategy. *)
Theorem strategy_exception_at_the_boundary (parse : string -> option Json)
        (req : HttpRequest) (env : Env) (w we ws : World) (b : Json) (ee es : Exn) :
  is_chat_post req = true ->
  trim (body_text req) <> "" ->
  parse (body_text req) = Some b ->
  parse (trim (body_text req)) = Some b ->
  Worker.callOpenAI env (optprop (Some b) "input") (optprop (Some b) "history")
                    (optprop (Some b) "telemetry") w = (inl ee, we) ->
  Server.callOpenAI env (optprop (Some b) "input") (optprop (Some b) "history")
                    (optprop (Some b) "telemetry") w = (inl es, ws) ->
  Worker.handler parse req env w = (inl ee, we)
  /\ Server.handler parse req env w
     = (inr (TextReply 500 "Server error"),
        if (1000000 <? body_size req)%N then w else ws).
Proof.
  intros Hroute Hne Hp Hpt Hw Hs.
  apply eqb_false_neq in Hne.
  split.
  - destruct (worker_handler_chat parse req env w Hroute) as [b' [Hb Hh]].
    unfold catch_value, try_catch, Worker.readJson in Hb.
    fold (body_text req) in Hb; rewrite Hne, Hp in Hb.
    injection Hb as <-.
    rewrite Hh, Hw; reflexivity.
  - rewrite (server_handler_chat parse req env w Hroute).
    rewrite server_readJson_run, body_size_bytes.
    destruct (1000000 <? Server.byteLength (body_text req))%N; [reflexivity|].
    rewrite Hne, Hpt, Hs; reflexivity.
Qed.

Lemma strategy_exception_at_the_boundary_witness :
  Worker.handler parse_hello (chat_post hello_body) with_key (provider [])
  = (inl NetworkError,
     advance (primary_request "sk-test" "gpt-4.1" (systemPrompt None) "User: hello")
             (provider []))
  /\ Server.handler parse_hello (chat_post hello_body) with_key (provider [])
     = (inr (TextReply 500 "Server error"),
        advance (primary_request "sk-test" "gpt-4.1-mini" (systemPrompt None) "User: hello")
                (provider [])).
Proof.
  apply (strategy_exception_at_the_boundary parse_hello (chat_post hello_body) with_key
           (provider []) _ _ (JObj [("input", JStr "hello")]) NetworkError NetworkError);
    try reflexivity.
  discriminate.
Defined.

(** X15. In both handlers the status line and the JSON body agree: a
    JSON answer has status 200 exactly when its body says [ok: true]. *)
Theorem status_matches_envelope (parse : string -> option Json)
        (req : HttpRequest) (env : Env) (w : World) (st : Z) (payload : Json) :
  fst (Worker.handler parse req env w) = inr (JsonReply st payload)
  \/ fst (Server.handler parse req env w) = inr (JsonReply st payload) ->
  (st = 200%Z <-> says_ok payload = true).
Proof.
  assert (Hpick : forall (r : Result) (m : Value) (st' : Z) (payload' : Json),
             well_formed r ->
             (if negb (ok r)
              then (status r, error_envelope (error r))
              else (200%Z, object_literal [ ("ok", Some (JBool true));
                                            ("text", opt_str_value (text r));
                                            ("model", m) ]))
             = (st', payload') ->
             (st' = 200%Z <-> says_ok payload' = true)).
  { intros r m st' payload' [Hiff _].
    destruct (ok r) eqn:Hok; cbn [negb]; intros E;
      pose proof (f_equal fst E) as Hst; pose proof (f_equal snd E) as Hq;
      cbn [fst snd] in Hst, Hq; subst st' payload'.
    - rewrite says_ok_literal; split; reflexivity.
    - unfold error_envelope; rewrite says_ok_literal.
      split; [intros E'; apply Hiff in E'; discriminate|discriminate]. }
  destruct (is_chat_post req) eqn:Hroute.
  - intros [H|H].
    + destruct (worker_handler_chat parse req env w Hroute) as [b [_ Hh]].
      rewrite Hh in H.
      destruct (Worker.callOpenAI _ _ _ _ w) as [[e|r] w'] eqn:Hrun;
        [discriminate|].
      pose proof (worker_result_well_formed env _ _ _ w r (f_equal fst Hrun)) as Hwf.
      destruct (ok r) eqn:Hok; cbn [negb] in H;
        apply worker_json_reply in H as [_ H];
        pose proof (f_equal (fun rp => match rp with JsonReply s _ => s | _ => 0%Z end) H)
          as Hst;
        pose proof (f_equal (fun rp => match rp with JsonReply _ q => q | _ => JNull end) H)
          as Hq;
        cbv beta iota in Hst, Hq.
      * apply (Hpick r (opt_str_value (model r)) st payload Hwf).
        rewrite Hok; cbn [negb]; rewrite Hst, Hq; reflexivity.
      * apply (Hpick r None st payload Hwf).
        rewrite Hok; cbn [negb]; rewrite Hst, Hq; reflexivity.
    + rewrite (server_handler_chat parse req env w Hroute) in H.
      destruct (Server.readJson parse req w) as [[e|b] w0]; [discriminate|].
      destruct (Server.callOpenAI _ _ _ _ w0) as [[e|r] w'] eqn:Hrun;
        [discriminate|].
      pose proof (server_result_well_formed env _ _ _ w0 r (f_equal fst Hrun)) as Hwf.
      destruct (ok r) eqn:Hok; cbn [negb] in H.
      * destruct (server_sendJson_reply 200
                    (object_literal [ ("ok", Some (JBool true));
                                      ("text", opt_str_value (text r));
                                      ("model", str_value (server_model env)) ]) w')
          as [E|[e E]]; rewrite E in H; [|discriminate].
        cbn [fst] in H.
        pose proof (f_equal (fun o : Exn + Reply =>
                      match o with inr (JsonReply s _) => s | _ => 0%Z end) H) as Hst;
        pose proof (f_equal (fun o : Exn + Reply =>
                      match o with inr (JsonReply _ q) => q | _ => JNull end) H) as Hq;
        cbv beta iota in Hst, Hq.
        apply (Hpick r (str_value (server_model env)) st payload Hwf).
        rewrite Hok; cbn [negb]; rewrite Hst, Hq; reflexivity.
      * destruct (server_sendJson_reply (status r) (error_envelope (error r)) w')
          as [E|[e E]]; rewrite E in H; [|discriminate].
        cbn [fst] in H.
        pose proof (f_equal (fun o : Exn + Reply =>
                      match o with inr (JsonReply s _) => s | _ => 0%Z end) H) as Hst;
        pose proof (f_equal (fun o : Exn + Reply =>
                      match o with inr (JsonReply _ q) => q | _ => JNull end) H) as Hq;
        cbv beta iota in Hst, Hq.
        apply (Hpick r None st payload Hwf).
        rewrite Hok; cbn [negb]; rewrite Hst, Hq; reflexivity.
  - unfold is_chat_post in Hroute.
    unfold Worker.handler, Server.handler, try_catch; cbv zeta.
    destruct ((method req =? "OPTIONS") && String.prefix "/api/" (pathname req)).
    { intros [H|H]; discriminate. }
    destruct (pathname req =? "/api/health").
    { intros [H|H]; injection H as <- <-; split; reflexivity. }
    destruct (pathname req =? "/api/chat"); cbn [andb] in Hroute.
    { rewrite Hroute; cbn [negb].
      intros [H|H]; injection H as <- <-; split; discriminate. }
    intros [H|H].
    + injection H as <- <-; split; discriminate.
    + destruct (negb (method req =? "GET") && negb (method req =? "HEAD"));
        discriminate.
Qed.

Lemma status_matches_envelope_witness :
  404%Z = 200%Z <-> says_ok (JObj [("ok", JBool false); ("error", JStr "Unknown endpoint")]) = true.
Proof.
  apply (status_matches_envelope parse_hello (chat_post hello_body) with_key
           (provider [upstream_error 404 "Unknown endpoint"])).
  left; reflexivity.
Defined.

(* ------------------------------------------------------------------ *)
(** ** CORS *)

Lemma filter_nil_iff {A} (f : A -> bool) (xs : list A) :
  filter f xs = [] <-> Forall (fun x => f x = false) xs.
Proof.
  induction xs as [|x rest IH]; cbn [filter].
  - split; [constructor|reflexivity].
  - destruct (f x) eqn:E; split.
    + discriminate.
    + intros H; inversion H; congruence.
    + intros H; constructor; [exact E|apply IH, H].
    + intros H; inversion H; apply IH; assumption.
Qed.

Lemma includes_In (x : string) (xs : list string) :
  includes x xs = true <-> In x xs.
Proof.
  unfold includes; rewrite existsb_exists; split.
  - intros [y [Hy E]]; apply String.eqb_eq in E; subst; exact Hy.
  - intros H; exists x; split; [exact H|apply String.eqb_refl].
Qed.

(** X16. [getAllowedOrigin] of the edge handler never names an origin
    other than the one of the request. For a request with an [Origin]
    that is not empty: when the allow-list has no entry (it is absent,
    empty, or made of commas and white space only) the origin is
    reflected; otherwise it is reflected exactly when one of the
    comma-separated entries, trimmed, is equal to it, and refused
    otherwise. The [access-control-allow-origin] header of
    [corsHeaders], when there is one, is that origin. *)
Theorem getAllowedOrigin_reflects_listed_origins
        (origin ALLOWED_ORIGINS : option string) :
  let entries := map trim (split_on "," (env_or ALLOWED_ORIGINS "")) in
  let allowed := Cors.getAllowedOrigin origin ALLOWED_ORIGINS in
  (allowed = None \/ allowed = origin)
  /\ (forall o, origin = Some o -> o <> "" ->
                (allowed = Some o
                 <-> Forall (fun e => e = "") entries \/ In o entries))
  /\ (forall v, In ("access-control-allow-origin", v) (Cors.corsHeaders allowed) ->
                origin = Some v /\ v <> "").
Proof.
  cbv zeta.
  set (entries := map trim (split_on "," (env_or ALLOWED_ORIGINS ""))).
  assert (Hspec : forall o, o <> "" ->
            (Cors.getAllowedOrigin (Some o) ALLOWED_ORIGINS = Some o
             <-> Forall (fun e => e = "") entries \/ In o entries)
            /\ (Cors.getAllowedOrigin (Some o) ALLOWED_ORIGINS = None
                \/ Cors.getAllowedOrigin (Some o) ALLOWED_ORIGINS = Some o)).
  { intros o Ho.
    unfold Cors.getAllowedOrigin; fold entries.
    apply eqb_false_neq in Ho; rewrite Ho; apply eqb_false_neq in Ho.
    destruct (filter (fun s => negb (s =? "")) entries) as [|a rest] eqn:Hf.
    - split; [|right; reflexivity].
      split; [intros _; left|reflexivity].
      apply filter_nil_iff in Hf.
      eapply Forall_impl; [|exact Hf].
      intros e He; apply negb_false_iff, String.eqb_eq in He; exact He.
    - destruct (includes o (a :: rest)) eqn:Hi.
      + split; [|right; reflexivity].
        split; [intros _; right|reflexivity].
        apply includes_In in Hi; rewrite <- Hf in Hi.
        apply filter_In in Hi; tauto.
      + split; [|left; reflexivity].
        split; [discriminate|].
        intros [Hall|Hin]; exfalso.
        * assert (Ha : In a (filter (fun s => negb (s =? "")) entries))
            by (rewrite Hf; left; reflexivity).
          apply filter_In in Ha as [Ha Hne].
          rewrite Forall_forall in Hall; rewrite (Hall a Ha) in Hne; discriminate.
        * assert (Hin' : In o (a :: rest)).
          { rewrite <- Hf; apply filter_In; split; [exact Hin|].
            apply negb_true_iff, eqb_false_neq; exact Ho. }
          apply includes_In in Hin'; congruence. }
  split; [|split].
  - destruct origin as [o|]; [|left; reflexivity].
    destruct (String.eqb_spec o "") as [->|Ho]; [left; reflexivity|].
    apply (Hspec o Ho).
  - intros o -> Ho; apply (Hspec o Ho).
  - intros v Hv.
    destruct origin as [o|]; [|contradiction].
    destruct (String.eqb_spec o "") as [->|Ho]; [contradiction|].
    destruct (proj2 (Hspec o Ho)) as [E|E]; rewrite E in Hv; [contradiction|].
    unfold Cors.corsHeaders in Hv.
    destruct (o =? "") eqn:Hoe; [contradiction|].
    destruct Hv as [Hv|Hv].
    + injection Hv as <-; split; [reflexivity|exact Ho].
    + repeat (destruct Hv as [Hv|Hv]; [discriminate|]); contradiction.
Qed.

Lemma fold_case_str_app (a b : string) :
  fold_case_str (a ++ b) = fold_case_str a ++ fold_case_str b.
Proof. induction a as [|c a IH]; simpl; [reflexivity | rewrite IH; reflexivity]. Qed.

Lemma strip_ci_app (l1 l2 s : string) :
  strip_ci (l1 ++ l2) s
  = match strip_ci l1 s with
    | Some r => strip_ci l2 r
    | None => None
    end.
Proof.
  revert s; induction l1 as [|a l1 IH]; intros s; [reflexivity|].
  cbn [append strip_ci].
  destruct s as [|c s]; [reflexivity|].
  destruct (Ascii.eqb (fold_case a) (fold_case c)); [apply IH|reflexivity].
Qed.

Lemma strip_ci_spec (lit s r : string) :
  strip_ci lit s = Some r
  <-> exists pre, s = pre ++ r /\ fold_case_str pre = fold_case_str lit.
Proof.
  revert s; induction lit as [|a lit IH]; intros s.
  - cbn [strip_ci fold_case_str]; split.
    + intros H; injection H as <-; exists ""; split; reflexivity.
    + intros [[|c pre] [-> H]]; [reflexivity|discriminate].
  - cbn [strip_ci fold_case_str]; split.
    + destruct s as [|c s]; [discriminate|].
      destruct (Ascii.eqb_spec (fold_case a) (fold_case c)) as [E|E]; [|discriminate].
      intros H; apply IH in H as [pre [-> Hpre]].
      exists (String c pre); split; [reflexivity|].
      cbn [fold_case_str]; rewrite Hpre, E; reflexivity.
    + intros [[|c pre] [-> H]]; [discriminate|].
      cbn [fold_case_str] in H; injection H as Hc Hpre.
      cbn [append]; rewrite Hc, Ascii.eqb_refl.
      apply IH; exists pre; split; [reflexivity|exact Hpre].
Qed.

(** The test of the long-running process, base by base. *)
Lemma local_origin_test_bases (o : string) :
  Cors.local_origin_test o
  = existsb (fun base => match strip_ci base o with
                         | Some port => Cors.port_suffix port
                         | None => false
                         end) Cors.local_bases.
Proof.
  unfold Cors.local_bases; cbn [existsb].
  change "https://localhost" with ("http" ++ "s" ++ "://" ++ "localhost").
  change "https://127.0.0.1" with ("http" ++ "s" ++ "://" ++ "127.0.0.1").
  change "http://localhost" with ("http" ++ "://" ++ "localhost").
  change "http://127.0.0.1" with ("http" ++ "://" ++ "127.0.0.1").
  rewrite !strip_ci_app.
  unfold Cors.local_origin_test, Cors.after_scheme, Cors.local_host.
  destruct (strip_ci "http" o) as [r1|]; [|reflexivity].
  rewrite !(strip_ci_app "s"), !(strip_ci_app "://").
  destruct (strip_ci "s" r1) as [r1'|].
  - rewrite !(strip_ci_app "://").
    destruct (strip_ci "://" r1') as [r2|]; destruct (strip_ci "://" r1) as [r2'|];
      rewrite ?orb_false_r, ?orb_assoc; reflexivity.
  - destruct (strip_ci "://" r1) as [r2'|]; rewrite ?orb_false_r; reflexivity.
Qed.

(** X17. The origin test of the long-running process accepts exactly the
    origins made of one of [http://localhost], [https://localhost],
    [http://127.0.0.1] and [https://127.0.0.1], in any letter case,
    followed by nothing or by a colon and at least one digit; and
    [Access-Control-Allow-Origin] is set only on a path under [/api/],
    only to the request's own origin, and only when that origin passes
    the test. *)
Theorem only_local_origins_are_allowed (origin : option string) (req : HttpRequest) :
  (forall o,
      Cors.allowOrigin (Some o) = Some o
      <-> exists base port,
            o = base ++ port
            /\ In (fold_case_str base) Cors.local_bases
            /\ (port = ""
                \/ exists digits, port = ":" ++ digits /\ digits <> ""
                                  /\ all_digits digits = true))
  /\ (Cors.allowOrigin origin = None \/ Cors.allowOrigin origin = origin)
  /\ (forall v,
         In ("Access-Control-Allow-Origin", v) (Cors.server_cors_headers origin req) ->
         origin = Some v /\ Cors.local_origin_test v = true
         /\ String.prefix "/api/" (pathname req) = true).
Proof.
  assert (Hport : forall port,
             Cors.port_suffix port = true
             <-> port = ""
                 \/ exists digits, port = ":" ++ digits /\ digits <> ""
                                   /\ all_digits digits = true).
  { intros [|c digits]; cbn [Cors.port_suffix].
    - split; [left; reflexivity|reflexivity].
    - split.
      + intros H; apply andb_true_iff in H as [H Hd].
        apply andb_true_iff in H as [Hc Hne].
        apply Ascii.eqb_eq in Hc; subst c.
        apply negb_true_iff, eqb_false_neq in Hne.
        right; exists digits; repeat split; assumption.
      + intros [H|[d [H [Hne Hd]]]]; [discriminate|].
        injection H as -> ->.
        apply eqb_false_neq in Hne; rewrite Hne, Hd; reflexivity. }
  assert (Htest : forall o,
             Cors.local_origin_test o = true
             <-> exists base port,
                   o = base ++ port
                   /\ In (fold_case_str base) Cors.local_bases
                   /\ Cors.port_suffix port = true).
  { intros o; rewrite local_origin_test_bases, existsb_exists; split.
    - intros [lit [Hlit H]].
      destruct (strip_ci lit o) as [port|] eqn:Hs; [|discriminate].
      apply strip_ci_spec in Hs as [base [-> Hbase]].
      exists base, port; split; [reflexivity|]; split; [|exact H].
      rewrite Hbase.
      unfold Cors.local_bases in *.
      repeat (destruct Hlit as [<-|Hlit]; [cbn; tauto|]); contradiction.
    - intros [base [port [-> [Hin Hp]]]].
      exists (fold_case_str base); split; [exact Hin|].
      assert (Hs : strip_ci (fold_case_str base) (base ++ port) = Some port).
      { apply strip_ci_spec; exists base; split; [reflexivity|].
        unfold Cors.local_bases in Hin.
        repeat (destruct Hin as [Hin|Hin]; [rewrite <- Hin; reflexivity|]);
          contradiction. }
      rewrite Hs; exact Hp. }
  split; [|split].
  - intros o; unfold Cors.allowOrigin.
    destruct (Cors.local_origin_test o) eqn:E.
    + split; [intros _|reflexivity].
      apply Htest in E as [base [port [Ho [Hin Hp]]]].
      exists base, port; repeat split; [exact Ho|exact Hin|apply Hport, Hp].
    + split; [discriminate|].
      intros [base [port [Ho [Hin Hp]]]].
      assert (E' : Cors.local_origin_test o = true)
        by (apply Htest; exists base, port; repeat split;
            [exact Ho|exact Hin|apply Hport, Hp]).
      congruence.
  - destruct origin as [o|]; [|left; reflexivity].
    unfold Cors.allowOrigin; destruct (Cors.local_origin_test o);
      [right|left]; reflexivity.
  - intros v Hv; unfold Cors.server_cors_headers in Hv.
    destruct origin as [o|]; [|contradiction].
    unfold Cors.allowOrigin in Hv.
    destruct (Cors.local_origin_test o) eqn:E; [|contradiction].
    apply in_app_or in Hv as [Hv|Hv].
    + destruct (String.prefix "/api/" (pathname req)) eqn:Hp.
      * cbn [orb] in Hv.
        destruct Hv as [Hv|[Hv|[]]]; [|discriminate].
        injection Hv as <-; repeat split; [exact E].
      * cbn [orb] in Hv.
        destruct (pathname req =? "/api/chat") eqn:Hc; [|contradiction].
        apply String.eqb_eq in Hc; rewrite Hc in Hp; discriminate.
    + destruct ((method req =? "OPTIONS") && String.prefix "/api/" (pathname req));
        [|contradiction].
      repeat (destruct Hv as [Hv|Hv]; [discriminate|]); contradiction.
Qed.

(* ------------------------------------------------------------------ *)
(** ** Loading [.env] *)

Lemma load_line_get (env : DotEnv.ProcessEnv) (line key : string) :
  DotEnv.get key (DotEnv.load_line env line)
  = match DotEnv.get key env with
    | Some v => Some v
    | None =>
        match DotEnv.parse_line line with
        | Some (k, v) =>
            if (key =? k) && negb (DotEnv.inherited k) then Some v else None
        | None => None
        end
    end.
Proof.
  unfold DotEnv.load_line, DotEnv.is_undefined.
  destruct (DotEnv.parse_line line) as [[k v]|].
  - destruct (DotEnv.get k env) as [old|] eqn:Hk.
    + destruct (DotEnv.get key env) eqn:Hkey; [reflexivity|].
      destruct (String.eqb_spec key k) as [->|_]; [congruence|reflexivity].
    + destruct (DotEnv.inherited k); cbn [negb].
      * rewrite andb_false_r; destruct (DotEnv.get key env); reflexivity.
      * rewrite andb_true_r; cbn [DotEnv.get].
        destruct (String.eqb_spec key k) as [->|_].
        -- rewrite Hk; reflexivity.
        -- destruct (DotEnv.get key env); reflexivity.
  - destruct (DotEnv.get key env); reflexivity.
Qed.

Lemma load_lines_get (lines : list string) (env : DotEnv.ProcessEnv) (key : string) :
  DotEnv.get key (DotEnv.load_lines env lines)
  = match DotEnv.get key env with
    | Some v => Some v
    | None =>
        if DotEnv.inherited key then None
        else DotEnv.get key (DotEnv.assigned lines)
    end.
Proof.
  revert env; induction lines as [|line rest IH]; intros env.
  - cbn [DotEnv.load_lines fold_left DotEnv.assigned DotEnv.get];
      unfold DotEnv.load_lines; cbn [fold_left].
    destruct (DotEnv.get key env); [reflexivity|].
    destruct (DotEnv.inherited key); reflexivity.
  - change (DotEnv.load_lines env (line :: rest))
      with (DotEnv.load_lines (DotEnv.load_line env line) rest).
    rewrite IH, load_line_get; cbn [DotEnv.assigned].
    destruct (DotEnv.get key env); [reflexivity|].
    destruct (DotEnv.parse_line line) as [[k v]|]; [|reflexivity].
    cbn [DotEnv.get].
    destruct (String.eqb_spec key k) as [->|_]; cbn [andb]; [|reflexivity].
    destruct (DotEnv.inherited k); reflexivity.
Qed.

(** X18. Loading [.env] never overrides the environment: a variable that
    is already set keeps its value. A variable that is not set takes the
    value of the first line of the file that assigns it, later
    assignments of the same key being ignored, unless its name is one
    that [process.env] inherits from [Object.prototype]
    ([constructor], [toString], [__proto__], ...): reading such a name
    never gives [undefined], so the file cannot set it. A missing file
    (ENOENT) leaves the environment as it is; any other read error is
    thrown again. *)
Theorem dotenv_never_overrides (env : DotEnv.ProcessEnv) :
  (forall raw, exists env',
      DotEnv.loadDotEnvSync (DotEnv.Contents raw) env = inr env'
      /\ forall key,
           DotEnv.get key env'
           = match DotEnv.get key env with
             | Some v => Some v
             | None =>
                 if DotEnv.inherited key then None
                 else DotEnv.get key (DotEnv.assigned (split_lines raw))
             end)
  /\ DotEnv.loadDotEnvSync (DotEnv.ReadError (Some "ENOENT")) env = inr env
  /\ (forall code, code <> Some "ENOENT" ->
                   exists e, DotEnv.loadDotEnvSync (DotEnv.ReadError code) env = inl e).
Proof.
  split; [|split].
  - intros raw; eexists; split; [reflexivity|].
    intros key; apply load_lines_get.
  - reflexivity.
  - intros [c|] Hc; [|eexists; reflexivity].
    cbn [DotEnv.loadDotEnvSync].
    destruct (String.eqb_spec c "ENOENT") as [->|_]; [contradiction|].
    eexists; reflexivity.
Qed.

Lemma index_of_slice (c : ascii) (s : string) (n : nat) :
  index_of c s = Some n -> index_of c (str_slice0 n s) = None.
Proof.
  revert n; induction s as [|a s IH]; intros n; cbn [index_of]; [discriminate|].
  destruct (Ascii.eqb a c) eqn:E.
  - intros H; injection H as <-; reflexivity.
  - destruct (index_of c s) as [i|]; [|discriminate].
    intros H; injection H as <-.
    unfold str_slice0; fold str_slice0; cbn [index_of]; rewrite E, (IH i eq_refl).
    reflexivity.
Qed.

Lemma index_of_trimStart (c : ascii) (s : string) :
  index_of c s = None -> index_of c (trimStart s) = None.
Proof.
  induction s as [|a s IH]; [reflexivity|].
  cbn [index_of trimStart].
  destruct (Ascii.eqb a c) eqn:E; [discriminate|].
  destruct (index_of c s) eqn:Hi; [discriminate|]; intros _.
  destruct (is_whitespace a); [apply IH; reflexivity|].
  cbn [index_of]; rewrite E, Hi; reflexivity.
Qed.

Lemma index_of_trimEnd (c : ascii) (s : string) :
  index_of c s = None -> index_of c (trimEnd s) = None.
Proof.
  induction s as [|a s IH]; [reflexivity|].
  cbn [index_of trimEnd].
  destruct (Ascii.eqb a c) eqn:E; [discriminate|].
  destruct (index_of c s) eqn:Hi; [discriminate|]; intros _; cbv zeta.
  destruct (is_whitespace a && (trimEnd s =? "")); [reflexivity|].
  cbn [index_of]; rewrite E, IH; reflexivity.
Qed.

Lemma index_of_trim (c : ascii) (s : string) :
  index_of c s = None -> index_of c (trim s) = None.
Proof. intros H; apply index_of_trimEnd, index_of_trimStart, H. Qed.

Lemma trimmed_head (s : string) :
  trim s = s -> s <> "" -> exists c r, s = String c r /\ is_whitespace c = false.
Proof.
  intros Ht Hne; destruct s as [|c r]; [contradiction|].
  exists c, r; split; [reflexivity|].
  apply (trim_head (String c r) c r Ht).
Qed.

(** X19. An assignment read from a line of [.env] has a key that is not
    empty, has no white space around it and holds no [=]: the key stops
    at the first [=] of the line, so that the value may hold one; and a
    line that is blank or starts, white space apart, with [#] assigns
    nothing. *)
Theorem dotenv_keys_are_clean (line key value : string) :
  DotEnv.parse_line line = Some (key, value) ->
  key <> "" /\ trim key = key /\ index_of "=" key = None
  /\ trim line <> "" /\ starts_with "#" (trim line) = false.
Proof.
  unfold DotEnv.parse_line; cbv zeta.
  destruct (trim line =? "") eqn:Hblank; cbn [orb]; [discriminate|].
  destruct (starts_with "#" (trim line)) eqn:Hhash; [discriminate|].
  set (t := if String.prefix "export " (trim line)
            then trim (str_drop (String.length "export ") (trim line))
            else trim line).
  assert (Ht : trim t = t).
  { unfold t; destruct (String.prefix _ _); apply trim_idempotent. }
  destruct (index_of "=" t) as [[|n]|] eqn:Hi; try discriminate.
  intros H; injection H as <- _.
  assert (Hne : t <> "") by (intros E; rewrite E in Hi; discriminate).
  destruct (trimmed_head t Ht Hne) as [c [r [Et Hc]]].
  split; [|split; [|split; [|split]]].
  - rewrite Et; unfold str_slice0; fold str_slice0.
    unfold trim; cbn [trimStart]; rewrite Hc, (trimEnd_head _ _ Hc); discriminate.
  - apply trim_idempotent.
  - apply index_of_trim, index_of_slice, Hi.
  - apply eqb_false_neq, Hblank.
  - reflexivity.
Qed.

Lemma dotenv_keys_are_clean_witness :
  "FOO" <> "" /\ trim "FOO" = "FOO" /\ index_of "=" "FOO" = None
  /\ trim "export  FOO = a=b " <> ""
  /\ starts_with "#" (trim "export  FOO = a=b ") = false.
Proof.
  apply (dotenv_keys_are_clean "export  FOO = a=b " "FOO" "a=b").
  reflexivity.
Defined.

(* ------------------------------------------------------------------ *)
(** ** Finding a free port *)

Section PortSearch.

Variable listen : Z -> Boot.ListenResult.
Variable PORT : Z.

Lemma start_from (fuel : nat) (current : Z) :
  (PORT <= current <= PORT + 50)%Z ->
  (PORT + 50 - current <= Z.of_nat fuel)%Z ->
  (forall q, (PORT <= q < current)%Z -> Boot.busy listen q) ->
  match Boot.start listen fuel PORT current with
  | Boot.Up p =>
      (PORT <= p <= PORT + 50)%Z /\ listen p = Boot.Listening
      /\ forall q, (PORT <= q < p)%Z -> Boot.busy listen q
  | Boot.Down =>
      exists q, (PORT <= q <= PORT + 50)%Z
                /\ (forall q', (PORT <= q' < q)%Z -> Boot.busy listen q')
                /\ listen q <> Boot.Listening
                /\ (Boot.busy listen q -> q = (PORT + 50)%Z)
  | Boot.Pending => False
  end.
Proof.
  revert current; induction fuel as [|fuel IH]; intros current Hrange Hfuel Hbusy.
  - assert (current = (PORT + 50)%Z) by lia; subst current.
    cbn [Boot.start].
    destruct (listen (PORT + 50)) as [|code] eqn:Hl.
    + repeat split; try lia; assumption.
    + unfold Boot.on_error.
      replace (PORT + 50 + 1 <=? PORT + 50)%Z with false
        by (symmetry; apply Z.leb_gt; lia).
      assert (Hdown : exists q, (PORT <= q <= PORT + 50)%Z
                /\ (forall q', (PORT <= q' < q)%Z -> Boot.busy listen q')
                /\ listen q <> Boot.Listening
                /\ (Boot.busy listen q -> q = (PORT + 50)%Z)).
      { exists (PORT + 50)%Z; repeat split; try lia; try assumption.
        rewrite Hl; discriminate. }
      destruct code as [c|]; [destruct (c =? "EADDRINUSE")|]; exact Hdown.
  - cbn [Boot.start].
    destruct (listen current) as [|code] eqn:Hl.
    + repeat split; try lia; assumption.
    + unfold Boot.on_error.
      assert (Hstop : forall P : Prop, (Boot.busy listen current -> P) ->
                (Boot.busy listen current -> current = (PORT + 50)%Z) ->
                exists q, (PORT <= q <= PORT + 50)%Z
                  /\ (forall q', (PORT <= q' < q)%Z -> Boot.busy listen q')
                  /\ listen q <> Boot.Listening
                  /\ (Boot.busy listen q -> q = (PORT + 50)%Z)).
      { intros P _ Hlast; exists current; repeat split; try lia; try assumption.
        rewrite Hl; discriminate. }
      destruct code as [c|].
      2:{ apply (Hstop True); [auto|].
          unfold Boot.busy; rewrite Hl; discriminate. }
      destruct (String.eqb_spec c "EADDRINUSE") as [->|Hc].
      2:{ apply (Hstop True); [auto|].
          unfold Boot.busy; rewrite Hl; intros E; injection E as E; contradiction. }
      cbv zeta.
      destruct (current + 1 <=? PORT + 50)%Z eqn:Hnext.
      * apply Z.leb_le in Hnext.
        apply IH; try lia.
        intros q Hq.
        destruct (Z.eq_dec q current) as [->|Hne]; [exact Hl|].
        apply Hbusy; lia.
      * apply Z.leb_gt in Hnext.
        apply (Hstop True); [auto|]; intros _; lia.
Qed.

End PortSearch.

(** X20. Starting from the configured port, the server tries the ports
    one after the other and stops within 51 attempts: it ends up
    listening on the first port from [PORT] to [PORT + 50] that is not
    taken, every lower port of that range being taken, or it exits, at
    the first port that fails for another reason than being taken or at
    [PORT + 50] when the whole range is taken; it never tries a port
    outside that range. *)
Theorem port_search_stays_in_range (listen : Z -> Boot.ListenResult) (PORT : Z) :
  match Boot.start listen 50 PORT PORT with
  | Boot.Up p =>
      (PORT <= p <= PORT + 50)%Z /\ listen p = Boot.Listening
      /\ forall q, (PORT <= q < p)%Z -> Boot.busy listen q
  | Boot.Down =>
      exists q, (PORT <= q <= PORT + 50)%Z
                /\ (forall q', (PORT <= q' < q)%Z -> Boot.busy listen q')
                /\ listen q <> Boot.Listening
                /\ (Boot.busy listen q -> q = (PORT + 50)%Z)
  | Boot.Pending => False
  end.
Proof.
  apply start_from; try lia.
Qed.

(* ------------------------------------------------------------------ *)
(** ** The messages of the secondary protocol *)

Lemma sanitized_length (history : Value) : length (sanitized history) <= 24.
Proof.
  destruct history as [[| | | | items |]|]; cbn [sanitized length]; try lia.
  rewrite last_n_length; lia.
Qed.

(** X21. Whatever the history holds, a request of the long-running
    process to the secondary protocol carries exactly one [system]
    message, the first one, whose content is the system instruction; it
    is followed by at most 24 turns of the history, each with the role
    [user] or [assistant], and ends with the new user turn: an element of
    the history cannot pass for a system message. The request keeps the
    temperature 0.4 and the cap of 350 tokens. *)
Theorem chat_messages_have_one_system_message (env : Env)
        (input history telemetry : Value) (w : World) (rq : Request) (b : ChatBody) :
  In rq (calls (Server.callOpenAI env input history telemetry) w) ->
  body rq = ChatPayload b ->
  exists turns content,
    c_messages b
    = ({| role := "system"; content := systemPrompt telemetry |}
         :: turns ++ [{| role := "user"; content := content |}])%list
    /\ userInput input = inr content
    /\ turns = sanitized history
    /\ length turns <= 24
    /\ Forall (fun t => role t = "user" \/ role t = "assistant") turns
    /\ filter (fun m => role m =? "system") (c_messages b)
       = [{| role := "system"; content := systemPrompt telemetry |}]
    /\ c_temperature b = (4 # 10)%Q
    /\ c_max_tokens b = 350%Z
    /\ c_model b = server_model env.
Proof.
  intros Hin Hbody.
  destruct (server_calls env input history telemetry w) as [E|[content [Hc E]]];
    [rewrite E in Hin; contradiction|].
  cbv zeta in E.
  assert (Hrq : rq = secondary_request (api_key env) (server_model env)
                       (server_messages history telemetry content)).
  { destruct E as [E|E]; rewrite E in Hin.
    - destruct Hin as [<-|[]]; discriminate.
    - destruct Hin as [<-|[<-|[]]]; [discriminate|reflexivity]. }
  subst rq; cbn [body secondary_request] in Hbody; injection Hbody as <-.
  cbn [c_messages c_temperature c_max_tokens c_model].
  exists (sanitized history), content.
  unfold server_messages; rewrite server_normalizeHistory_sanitized.
  split; [reflexivity|].
  split; [exact Hc|].
  split; [reflexivity|].
  split; [apply sanitized_length|].
  assert (Hroles : Forall (fun t => role t = "user" \/ role t = "assistant")
                          (sanitized history)).
  { eapply Forall_impl; [|apply sanitized_ok]; intros t Ht; apply Ht. }
  split; [exact Hroles|].
  split; [|repeat split].
  set (sys := fun m : Turn => role m =? "system").
  change (filter sys ({| role := "system"; content := systemPrompt telemetry |}
                        :: sanitized history
                        ++ [{| role := "user"; content := content |}])%list)
    with ({| role := "system"; content := systemPrompt telemetry |}
            :: filter sys (sanitized history
                             ++ [{| role := "user"; content := content |}])%list).
  f_equal.
  rewrite filter_app; cbn [filter].
  change (sys {| role := "user"; content := content |}) with false; cbv iota.
  rewrite app_nil_r.
  induction Hroles as [|t rest [Ht|Ht] _ IH]; [reflexivity| |];
    cbn [filter]; unfold sys at 1; rewrite Ht; exact IH.
Qed.

Lemma chat_messages_have_one_system_message_witness :
  exists turns content,
    [ {| role := "system"; content := systemPrompt None |};
      {| role := "user"; content := "hello" |} ]
    = ({| role := "system"; content := systemPrompt None |}
         :: turns ++ [{| role := "user"; content := content |}])%list
    /\ userInput hello = inr content
    /\ turns = sanitized None.
Proof.
  destruct (chat_messages_have_one_system_message with_key hello None None
              (provider [upstream_error 404 "Unknown endpoint"; chat_answer "Hi there"])
              (secondary_request "sk-test" "gpt-4.1-mini" (server_messages None None "hello"))
              {| c_model := "gpt-4.1-mini";
                 c_messages := server_messages None None "hello";
                 c_temperature := (4 # 10)%Q;
                 c_max_tokens := 350 |})
    as [turns [content [H1 [H2 [H3 _]]]]].
  - right; left; reflexivity.
  - reflexivity.
  - exists turns, content; repeat split; assumption.
Defined.
